(** * finmetry.client_5paisa.base: ScripMaster and Client5paisa

    A shallow embedding of [src/finmetry/client_5paisa/base.py].

    Python objects that are mutated in place ([Stock], [ScripMaster], the
    client itself) live in an explicit store; a method is a function from
    the store to an outcome (a value or a raised exception) and a new
    store.  Everything that leaves the process (HTTP, the broker library,
    the web socket, the file system, stdout) is recorded in a trace of
    events, and what the outside answers is a parameter of the development.

    Strings are byte strings; [str.upper] is modelled on ASCII letters. *)

From Stdlib Require Import ZArith Ascii String List Bool Lia.
From stdpp Require Import base option list gmap strings.

Set Default Proof Using "Type".

(** ** Exceptions and outcomes *)

Inductive exn : Type :=
| ValueError (msg : string)
| TypeError (msg : string)
| AttributeError (msg : string)
| IndexError (msg : string)
| KeyError (key : string)
| LibraryError (msg : string).

Inductive outcome (A : Type) : Type :=
| Ret (a : A)
| Raise (e : exn).
Arguments Ret {A} a.
Arguments Raise {A} e.

Definition is_Ret {A} (o : outcome A) : Prop := ∃ a, o = Ret a.
Definition is_Raise {A} (o : outcome A) : Prop := ∃ e, o = Raise e.

(** ** Python string helpers used by the module *)

Module PyStr.

(** [str.upper] on one ASCII character. *)
Definition upper_ascii (c : ascii) : ascii :=
  let n := nat_of_ascii c in
  if (97 <=? n)%nat && (n <=? 122)%nat then ascii_of_nat (n - 32) else c.

(** [str.upper]. *)
Fixpoint upper (s : string) : string :=
  match s with
  | EmptyString => EmptyString
  | String c r => String (upper_ascii c) (upper r)
  end.

(** [s[1:]]. *)
Definition drop_first (s : string) : string :=
  match s with
  | EmptyString => EmptyString
  | String _ r => r
  end.

(** [s[:-1]]. *)
Fixpoint drop_last (s : string) : string :=
  match s with
  | EmptyString => EmptyString
  | String c EmptyString => EmptyString
  | String c r => String c (drop_last r)
  end.

(** [s[1:-1]]. *)
Definition strip_ends (s : string) : string := drop_last (drop_first s).

(** [s.split(c)[0]]: the text before the first [c], all of [s] without one. *)
Fixpoint before_first (c : ascii) (s : string) : string :=
  match s with
  | EmptyString => EmptyString
  | String a r => if Ascii.eqb a c then EmptyString else String a (before_first c r)
  end.

Fixpoint contains (c : ascii) (s : string) : bool :=
  match s with
  | EmptyString => false
  | String a r => Ascii.eqb a c || contains c r
  end.

(** [s.split(c)[-1]]: the text after the last [c], all of [s] without one. *)
Fixpoint after_last (c : ascii) (s : string) : string :=
  match s with
  | EmptyString => EmptyString
  | String a r =>
      if contains c r then after_last c r
      else if Ascii.eqb a c then r else String a r
  end.

End PyStr.

(** ** JSON values, as [json.loads] and the broker library return them *)

#[warnings="-register-all"]
Inductive json : Type :=
| JNull
| JNum (z : Z)
| JStr (s : string)
| JList (l : list json)
| JDict (d : list (string * json)).

(** A table built by [pd.DataFrame] from a list of records. *)
Definition table : Type := list json.

Fixpoint assoc (k : string) (d : list (string * json)) : option json :=
  match d with
  | [] => None
  | (k', v) :: r => if String.eqb k k' then Some v else assoc k r
  end.

(** [v[k]] *)
Definition getitem (v : json) (k : string) : outcome json :=
  match v with
  | JDict d =>
      match assoc k d with
      | Some x => Ret x
      | None => Raise (KeyError k)
      end
  | _ => Raise (TypeError "object is not subscriptable")
  end.

(** ** The scrip master table *)

(** Calendar values are kept as the libraries produce them. *)
Definition datetime : Type := Z.
Definition date : Type := Z.

(** A row as [read_csv] delivers it.  An empty cell is [None] (NaN). *)
Record RawRow : Type := mkRawRow {
  raw_Exch : string;
  raw_ExchType : string;
  raw_Scripcode : Z;
  raw_Name : option string;
  raw_Series : string;
  raw_Expiry : option string;
  raw_Symbol : option string   (* present in a file written by [save] *)
}.

(** A row of [ScripMaster.data]. *)
Record Row : Type := mkRow {
  Exch : string;
  ExchType : string;
  Scripcode : Z;
  Name : string;
  Series : string;
  Expiry : option datetime;   (* [None] is NaT *)
  Symbol : string
}.

Global Instance Row_eq_dec : EqDecision Row.
Proof. solve_decision. Defined.

(** A frame after [set_index("Name")]: each row under its index label. *)
Definition ScripFrame : Type := list (string * Row).

Record ScripMaster : Type := mkScripMaster { data : list Row }.

(** ** Stocks *)

(** Modelled from the spec: the [Stock] class of [finmetry/stock_base.py]
    is not part of the sources at hand.  A stock is identified by symbol,
    exchange and exchange type (segment); [scrip] and [option_chain] are
    attributes that do not exist until the client sets them. *)
Record Stock : Type := mkStock {
  symbol : string;
  exchange : string;
  exchange_type : string;
  scrip : option ScripFrame;
  option_chain : option table
}.

Definition set_scrip (d : ScripFrame) (s : Stock) : Stock :=
  {| symbol := symbol s; exchange := exchange s;
     exchange_type := exchange_type s;
     scrip := Some d; option_chain := option_chain s |}.

Definition set_option_chain (d : table) (s : Stock) : Stock :=
  {| symbol := symbol s; exchange := exchange s;
     exchange_type := exchange_type s;
     scrip := scrip s; option_chain := Some d |}.

(** ** The client object *)

Definition loc : Type := nat.

Record Client : Type := mkClient {
  scrip_master : option loc;             (* [None] or a ScripMaster *)
  jwt_headers : gmap string string;
  client_code : string;
  Jwt_token : string;
  HISTORICAL_DATA_ROUTE : string;
  ws_feed : json                         (* the connection handle *)
}.

Definition set_jwt_header (k v : string) (c : Client) : Client :=
  {| scrip_master := scrip_master c;
     jwt_headers := <[k := v]> (jwt_headers c);
     client_code := client_code c;
     Jwt_token := Jwt_token c;
     HISTORICAL_DATA_ROUTE := HISTORICAL_DATA_ROUTE c;
     ws_feed := ws_feed c |}.

Definition set_ws_feed (h : json) (c : Client) : Client :=
  {| scrip_master := scrip_master c;
     jwt_headers := jwt_headers c;
     client_code := client_code c;
     Jwt_token := Jwt_token c;
     HISTORICAL_DATA_ROUTE := HISTORICAL_DATA_ROUTE c;
     ws_feed := h |}.

(** ** Events and the store *)

Inductive event : Type :=
| ReadCsv (source : string) (index_col0 : bool)
| WriteCsv (path : string) (rows : list Row)
| HttpGet (url : string) (headers : gmap string string)
| ApiCall (method : string) (args : list json)
| WsConnect (url : string)
| WsSend (msg : string)
| WsRecv
| WsClose
| Clock
| Stdout (line : string).

Record world : Type := mkWorld {
  stocks : gmap loc Stock;
  masters : gmap loc ScripMaster;
  client : Client;
  trace : list event
}.

Definition with_stocks (h : gmap loc Stock) (w : world) : world :=
  {| stocks := h; masters := masters w; client := client w; trace := trace w |}.
Definition with_masters (m : gmap loc ScripMaster) (w : world) : world :=
  {| stocks := stocks w; masters := m; client := client w; trace := trace w |}.
Definition with_client (c : Client) (w : world) : world :=
  {| stocks := stocks w; masters := masters w; client := c; trace := trace w |}.
Definition with_trace (t : list event) (w : world) : world :=
  {| stocks := stocks w; masters := masters w; client := client w; trace := t |}.

(** ** The monad of methods: store passing with exceptions *)

Definition M (A : Type) : Type := world → outcome A * world.

Definition ret {A} (a : A) : M A := λ w, (Ret a, w).
Definition raise {A} (e : exn) : M A := λ w, (Raise e, w).
Definition bind {A B} (m : M A) (k : A → M B) : M B :=
  λ w, match m w with
       | (Ret a, w') => k a w'
       | (Raise e, w') => (Raise e, w')
       end.
Definition lift {A} (o : outcome A) : M A := λ w, (o, w).

(** [try: m  except: h] with a bare [except]. *)
Definition try_except {A} (m : M A) (h : M A) : M A :=
  λ w, match m w with
       | (Ret a, w') => (Ret a, w')
       | (Raise _, w') => h w'
       end.

Declare Scope py_scope.
Delimit Scope py_scope with py.
Notation "'let*' x := m 'in' k" := (bind m (λ x, k))
  (at level 10, x name, m at level 100, k at level 200) : py_scope.
Notation "m1 >> m2" := (bind m1 (λ _, m2))
  (at level 100, right associativity) : py_scope.
Open Scope py_scope.

Definition emit (e : event) : M unit := λ w, (Ret tt, with_trace (trace w ++ [e]) w).

(** Attribute access on a stock object. *)
Definition stock_attr {A} (f : Stock → A) (l : loc) : M A :=
  λ w, match stocks w !! l with
       | Some s => (Ret (f s), w)
       | None => (Raise (AttributeError "not a Stock"), w)
       end.

(** An attribute that exists only once it was assigned. *)
Definition stock_opt_attr {A} (name : string) (f : Stock → option A) (l : loc) : M A :=
  λ w, match stocks w !! l with
       | Some s =>
           match f s with
           | Some a => (Ret a, w)
           | None => (Raise (AttributeError ("'Stock' object has no attribute '" +:+ name +:+ "'")), w)
           end
       | None => (Raise (AttributeError "not a Stock"), w)
       end.

(** Attribute assignment on a stock object. *)
Definition stock_update (f : Stock → Stock) (l : loc) : M unit :=
  λ w, match stocks w !! l with
       | Some s => (Ret tt, with_stocks (<[l := f s]> (stocks w)) w)
       | None => (Raise (AttributeError "not a Stock"), w)
       end.

(** [self.data] of a ScripMaster. *)
Definition master_data (self : loc) : M (list Row) :=
  λ w, match masters w !! self with
       | Some m => (Ret (data m), w)
       | None => (Raise (AttributeError "not a ScripMaster"), w)
       end.

(** ** What the module takes from outside

    Library functions whose definition is not part of the module, and the
    answers of the outside world.  An answer may depend on everything that
    happened before (the trace). *)

Record Externals : Type := mkExternals {
  (* [pd.to_datetime(cell, format="%Y-%m-%d %H:%M:%S")] *)
  to_datetime : string → option datetime;
  (* [datetime.strptime(s, "%Y-%m-%d").date()] *)
  strptime_date : string → option date;
  (* [d.strftime("%Y-%m-%d")] *)
  strftime : datetime → string;
  (* [int(s)] *)
  py_int : string → option Z;
  (* [date.fromtimestamp(n)] *)
  date_fromtimestamp : Z → date;
  (* [str(v)] inside an f-string *)
  py_str : json → string;
  json_loads : string → outcome json;
  json_dumps : json → string;
  (* [pd.DataFrame(v)] for a [v] that is neither a list nor [None] *)
  DataFrame_other : json → outcome table;
  (* [pd.to_datetime] on a column of a response *)
  to_datetime_col : list json → outcome (list json);
  read_csv_answer : list event → string → bool → outcome (list RawRow);
  answer : list event → event → outcome json;
  (* [Stock.save_historical_data], a method of the [Stock] class, which is
     not among the sources: taken as given *)
  save_historical_data : loc → string + table → string → M unit
}.

(** [mapM] in [outcome], left to right. *)
Fixpoint mapM {A B} (f : A → outcome B) (l : list A) : outcome (list B) :=
  match l with
  | [] => Ret []
  | a :: r =>
      match f a with
      | Raise e => Raise e
      | Ret b =>
          match mapM f r with
          | Raise e => Raise e
          | Ret bs => Ret (b :: bs)
          end
      end
  end.

Section Embedding.

Context (X : Externals).

(** A call that leaves the process: it is logged, then answered. *)
Definition call (e : event) : M json :=
  λ w, (answer X (trace w) e, with_trace (trace w ++ [e]) w).

(** [pd.DataFrame(v)] *)
Definition DataFrame (v : json) : outcome table :=
  match v with
  | JList l => Ret l
  | JNull => Ret []
  | _ => DataFrame_other X v
  end.

(** ** class ScripMaster *)

Definition scripmaster_url : string :=
  "https://images.5paisa.com/website/scripmaster-csv-format.csv".

Definition read_csv (source : string) (index_col0 : bool) : M (list RawRow) :=
  λ w, (read_csv_answer X (trace w) source index_col0,
        with_trace (trace w ++ [ReadCsv source index_col0]) w).

(** One cell of [pd.to_datetime(self.data["Expiry"], format=...)]. *)
Definition Expiry_cell (c : option string) : outcome (option datetime) :=
  match c with
  | None => Ret None
  | Some s =>
      match to_datetime X s with
      | Some d => Ret (Some d)
      | None => Raise (ValueError ("time data " +:+ s +:+ " does not match format"))
      end
  end.

(** One cell of [self.data["Name"].apply(str.upper)]. *)
Definition Name_cell (c : option string) : outcome string :=
  match c with
  | Some s => Ret (PyStr.upper s)
  | None => Raise (TypeError "descriptor 'upper' requires a 'str' object")
  end.

(** The frame with its three rewritten columns. *)
Fixpoint assemble (raw : list RawRow) (expiry : list (option datetime))
    (name symbol : list string) : list Row :=
  match raw, expiry, name, symbol with
  | r :: raw', e :: expiry', n :: name', s :: symbol' =>
      {| Exch := raw_Exch r; ExchType := raw_ExchType r;
         Scripcode := raw_Scripcode r; Name := n; Series := raw_Series r;
         Expiry := e; Symbol := s |} :: assemble raw' expiry' name' symbol'
  | _, _, _, _ => []
  end.

(** The three column assignments of [__init__], in order. *)
Definition normalise (raw : list RawRow) : outcome (list Row) :=
  match mapM Expiry_cell (raw_Expiry <$> raw) with
  | Raise e => Raise e
  | Ret expiry =>
      match mapM Name_cell (raw_Name <$> raw) with
      | Raise e => Raise e
      | Ret name =>
          let symbol := name in
          Ret (assemble raw expiry name symbol)
      end
  end.

Definition new_master (m : ScripMaster) : M loc :=
  λ w, let l := fresh (dom (masters w)) in
       (Ret l, with_masters (<[l := m]> (masters w)) w).

(** [ScripMaster.__init__] *)
Definition ScripMaster_init (filepath : option string) : M loc :=
  let* raw := match filepath with
              | Some p => read_csv p true
              | None => read_csv scripmaster_url false
              end in
  let* d := lift (normalise raw) in
  new_master {| data := d |}.

(** [ScripMaster.__repr__] *)
Definition ScripMaster_repr (self : loc) : M string := ret "scrip master data".

(** [ScripMaster.__call__] *)
Definition ScripMaster_call (self : loc) : M (list Row) := master_data self.

(** [ScripMaster.save] *)
Definition ScripMaster_save (self : loc) (filepath : string) : M unit :=
  let* d := master_data self in
  emit (WriteCsv filepath d).

(** The mask [f1 & f2] of [get_scrip], on one row. *)
Definition scrip_mask (exch exch_type sym : string) (r : Row) : bool :=
  (String.eqb (Exch r) exch && String.eqb (ExchType r) exch_type
   && String.eqb (Symbol r) sym)
  && (String.eqb (Series r) "EQ" || String.eqb (Series r) "XX").

(** [d.set_index("Name")] *)
Definition set_index_Name (d : list Row) : ScripFrame := (λ r, (Name r, r)) <$> d.

Definition no_scrip_msg (sym : string) : string :=
  "No Scrip found for " +:+ sym +:+ " in scrip_master".

(** The [except] branch of the loop of [get_scrip]. *)
Definition resolve (self : loc) (s1 : loc) (ls1 : list ScripFrame) : M (list ScripFrame) :=
  let* d1 := master_data self in
  let* exch := stock_attr exchange s1 in
  let* exch_type := stock_attr exchange_type s1 in
  let* sym := stock_attr symbol s1 in
  let d2 := filter (λ r, scrip_mask exch exch_type sym r = true) d1 in
  if decide (d2 = []) then
    let* sym := stock_attr symbol s1 in
    raise (ValueError (no_scrip_msg sym))
  else
    let d2 := set_index_Name d2 in
    stock_update (set_scrip d2) s1 >>
    ret (ls1 ++ [d2]).

(** The body of the loop of [get_scrip]; [ls1] is the list built so far. *)
Definition get_scrip_body (self : loc) (s1 : loc) (ls1 : list ScripFrame)
    : M (list ScripFrame) :=
  try_except
    (let* d := stock_opt_attr "scrip" scrip s1 in ret (ls1 ++ [d]))
    (resolve self s1 ls1).

Fixpoint get_scrip_loop (self : loc) (stocklist : list loc) (ls1 : list ScripFrame)
    : M (list ScripFrame) :=
  match stocklist with
  | [] => ret ls1
  | s1 :: rest =>
      let* ls1 := get_scrip_body self s1 ls1 in
      get_scrip_loop self rest ls1
  end.

(** [pd.concat(ls)] *)
Definition pd_concat (ls : list ScripFrame) : outcome ScripFrame :=
  match ls with
  | [] => Raise (ValueError "No objects to concatenate")
  | _ => Ret (concat ls)
  end.

(** [ScripMaster.get_scrip] *)
Definition get_scrip (self : loc) (stocklist : list loc) : M ScripFrame :=
  let* ls1 := get_scrip_loop self stocklist [] in
  lift (pd_concat ls1).

(** ** class Client5paisa *)

Definition get_client : M Client := λ w, (Ret (client w), w).
Definition update_client (f : Client → Client) : M unit :=
  λ w, (Ret tt, with_client (f (client w)) w).

(** [Client5paisa.__check_scrip_master] *)
Definition check_scrip_master : M bool :=
  let* c := get_client in
  match scrip_master c with
  | None => raise (TypeError "scrip_master is None. Please provide ScripMaster instance.")
  | Some _ => ret true
  end.

(** [self.scrip_master.get_scrip(stocklist)] *)
Definition scrip_master_get_scrip (stocklist : list loc) : M ScripFrame :=
  let* c := get_client in
  match scrip_master c with
  | None => raise (AttributeError "'NoneType' object has no attribute 'get_scrip'")
  | Some m => get_scrip m stocklist
  end.

Definition timeList : list string := ["1m"; "5m"; "10m"; "15m"; "30m"; "60m"; "1d"].

Definition invalid_time_frame : string :=
  "Invalid Time Frame. it should be within [1m,5m,10m,15m,30m,60m,1d].".

Definition candle_columns : list string :=
  ["Datetime"; "Open"; "High"; "Low"; "Close"; "Volume"].

(** The cells of one entry of [candleList]: a candle is a list of cells;
    anything else stands in a single cell.  (Entries that are dicts, which
    pandas would spread over their keys, are not what the broker sends.) *)
Definition cells_of (v : json) : list json :=
  match v with
  | JList cells => cells
  | other => [other]
  end.

(** The number of columns of [pd.DataFrame(candleList)]: the longest
    candle's length, none for the empty list. *)
Definition frame_width (cl : list json) : nat :=
  foldr (λ v n, Nat.max (length (cells_of v)) n) 0 cl.

(** [df = pd.DataFrame(candleList); df.columns = [...]]: shorter candles are
    padded with missing values, and the six names must fit the number of
    columns. *)
Definition candle_frame (cl : list json) : outcome (list (list (string * json))) :=
  if decide (frame_width cl = length candle_columns) then
    Ret ((λ v, zip candle_columns
                 (cells_of v ++
                  replicate (length candle_columns - length (cells_of v)) JNull)) <$> cl)
  else Raise (ValueError "Length mismatch").

(** [df[name] = values] on rows held as records. *)
Fixpoint set_column (name : string) (values : list json) (rows : list (list (string * json)))
    : list (list (string * json)) :=
  match rows, values with
  | r :: rows', v :: values' =>
      (filter (λ kv, kv.1 ≠ name) r ++ [(name, v)]) :: set_column name values' rows'
  | _, _ => []
  end.

(** [Client5paisa.historical_data] *)
Definition historical_data (Exch ExchangeSegment : string) (ScripCode : json)
    (time From To : string) : M (string + table) :=
  let* c := get_client in
  update_client (set_jwt_header "x-clientcode" (client_code c)) >>
  let* c := get_client in
  update_client (set_jwt_header "x-auth-token" (Jwt_token c)) >>
  let* c := get_client in
  let url := HISTORICAL_DATA_ROUTE c +:+ Exch +:+ "/" +:+ ExchangeSegment +:+ "/"
             +:+ py_str X ScripCode +:+ "/" +:+ time +:+ "?from=" +:+ From
             +:+ "&end=" +:+ To in
  if decide (time ∉ timeList) then
    ret (inl invalid_time_frame)
  else
    let* response := call (HttpGet url (jwt_headers c)) in
    let* d := lift (getitem response "data") in
    let* candleList := lift (getitem d "candles") in
    let* cl := lift (DataFrame candleList) in
    let* rows := lift (candle_frame cl) in
    let* dt := lift (to_datetime_col X
                       ((λ r, default JNull (assoc "Datetime" r)) <$> rows)) in
    ret (inr (JDict <$> set_column "Datetime" dt rows)).

(** [scrip.loc[sym, "Scripcode"]]: a scalar under a unique label, a column
    under a repeated one. *)
Definition loc_Scripcode (scrip : ScripFrame) (sym : string) : outcome json :=
  match filter (λ p, p.1 = sym) scrip with
  | [] => Raise (KeyError sym)
  | [p] => Ret (JNum (Scripcode p.2))
  | ps => Ret (JList ((λ p, JNum (Scripcode p.2)) <$> ps))
  end.

Definition date_arg (d : string + datetime) : string :=
  match d with
  | inl s => s
  | inr t => strftime X t
  end.

(** The loop of [download_historical_data]. *)
Fixpoint download_loop (scrip : ScripFrame) (stocklist : list loc)
    (interval start end_ : string) : M unit :=
  match stocklist with
  | [] => ret tt
  | s1 :: rest =>
      let* sym := stock_attr symbol s1 in
      emit (Stdout sym) >>
      let* exch := stock_attr exchange s1 in
      let* exch_type := stock_attr exchange_type s1 in
      let* sym := stock_attr symbol s1 in
      let* code := lift (loc_Scripcode scrip sym) in
      let* df := historical_data exch exch_type code interval start end_ in
      save_historical_data X s1 df interval >>
      download_loop scrip rest interval start end_
  end.

(** [Client5paisa.download_historical_data] *)
Definition download_historical_data (stocklist : list loc) (interval : string)
    (start end_ : string + datetime) : M unit :=
  check_scrip_master >>
  let* scrip := scrip_master_get_scrip stocklist in
  let start := date_arg start in
  let end_ := date_arg end_ in
  download_loop scrip stocklist interval start end_.

(** [Client5paisa._web_url1] *)
Definition web_url1 (c : Client) : string :=
  "wss://openfeed.5paisa.com/Feeds/api/chat?Value1=" +:+ Jwt_token c +:+ "|"
  +:+ client_code c.

(** [a[cols].to_dict(orient="records")] with the columns renamed. *)
Definition records (cols : list (string * (Row → json))) (a : ScripFrame) : list json :=
  (λ p, JDict ((λ c, (c.1, c.2 p.2)) <$> cols)) <$> a.

Definition add_to_record (name : string) (v : json) (r : json) : json :=
  match r with
  | JDict d => JDict (filter (λ kv, kv.1 ≠ name) d ++ [(name, v)])
  | other => other
  end.

(** [d1[name] = v] with one value [v] for every row. *)
Definition add_column (name : string) (v : json) (t : table) : table :=
  add_to_record name v <$> t.

(** [d1[name] = values] with one value per row.  A frame without rows
    takes its rows from the values (its other columns then hold no value,
    which a record shows by not having the key); any other difference in
    length raises. *)
Definition assign_column (name : string) (values : list json) (t : table) : outcome table :=
  if decide (length values = length t) then
    Ret (zip_with (add_to_record name) values t)
  else
    match t with
    | [] => Ret ((λ v, JDict [(name, v)]) <$> values)
    | _ :: _ => Raise (ValueError "Length of values does not match length of index")
    end.

(** [Client5paisa.get_market_depth] *)
Definition get_market_depth (stocklist : list loc) : M table :=
  let* a := scrip_master_get_scrip stocklist in
  let syms := (λ p, JStr (Symbol p.2)) <$> a in
  let a := records [("Exchange", λ r, JStr (Exch r));
                    ("ExchangeType", λ r, JStr (ExchType r));
                    ("Symbol", λ r, JStr (Symbol r))] a in
  let* resp := call (ApiCall "fetch_market_depth_by_symbol" [JList a]) in
  let* d := lift (getitem resp "Data") in
  let* d1 := lift (DataFrame d) in
  let* now := call Clock in
  let d1 := add_column "Datetime" now d1 in
  lift (assign_column "Symbol" syms d1).

(** [Client5paisa.get_market_feed] *)
Definition get_market_feed (stocklist : list loc) : M table :=
  let* a := scrip_master_get_scrip stocklist in
  let a := records [("Exch", λ r, JStr (Exch r));
                    ("ExchType", λ r, JStr (ExchType r));
                    ("Symbol", λ r, JStr (Symbol r))] a in
  let* resp := call (ApiCall "fetch_market_feed" [JList a]) in
  let* d := lift (getitem resp "Data") in
  let* d1 := lift (DataFrame d) in
  let* now := call Clock in
  ret (add_column "Datetime" now d1).

(** How often [for s in v] runs its body. *)
Definition iterations (v : json) : outcome nat :=
  match v with
  | JList l => Ret (length l)
  | JDict d => Ret (length d)
  | JStr s => Ret (String.length s)
  | _ => Raise (TypeError "object is not iterable")
  end.

(** [self.ws_feed.recv()[1:-1]] *)
Definition recv_stripped : M string :=
  let* m := call WsRecv in
  match m with
  | JStr s => ret (PyStr.strip_ends s)
  | _ => raise (TypeError "object is not subscriptable")
  end.

(** [for s in ...: d1 = d1 + pre + self.ws_feed.recv()[1:-1] + post] *)
Fixpoint recv_loop (n : nat) (pre post : string) (d1 : string) : M string :=
  match n with
  | O => ret d1
  | S n' =>
      let* m := recv_stripped in
      recv_loop n' pre post (d1 +:+ pre +:+ m +:+ post)
  end.

(** [self.Request_Feed(feed_type, "s", a)] with
    [a = a.rename(columns={"Scripcode": "ScripCode"})[["Exch", "ExchType",
    "ScripCode"]].to_dict(orient="records")]. *)
Definition Request_Feed (feed_type : string) (a : ScripFrame) : event :=
  ApiCall "Request_Feed"
    [JStr feed_type; JStr "s";
     JList (records [("Exch", λ r, JStr (Exch r));
                     ("ExchType", λ r, JStr (ExchType r));
                     ("ScripCode", λ r, JNum (Scripcode r))] a)].

(** [Client5paisa.get_market_data] *)
Definition get_market_data (stocklist : list loc) (feed_type : string) : M table :=
  let* a := scrip_master_get_scrip stocklist in
  let* mf_list := call (Request_Feed feed_type a) in
  let* c := get_client in
  let* h := call (WsConnect (web_url1 c)) in
  update_client (set_ws_feed h) >>
  call (WsSend (json_dumps X mf_list)) >>
  let d1 := "" in
  let* d1 := if decide (feed_type = "md") then
               let* feeds := lift (getitem mf_list "MarketFeedData") in
               let* n := lift (iterations feeds) in
               recv_loop n ",{" "}" d1
             else ret d1 in
  let* d1 := if decide (feed_type = "mf") then
               let* feeds := lift (getitem mf_list "MarketFeedData") in
               let* n := lift (iterations feeds) in
               recv_loop n "," "" d1
             else ret d1 in
  call WsClose >>
  let d1 := "[" +:+ PyStr.drop_first d1 +:+ "]" in
  let* v := lift (json_loads X d1) in
  lift (DataFrame v).

(** A row of the expiry table with its two derived columns. *)
Record ExpiryRow : Type := mkExpiryRow {
  ExpiryDate : string;
  Timestamp : Z;
  Date : date
}.

(** Whether [pd.DataFrame(rows)] has the column [name]: some record has
    the key. *)
Definition has_column (name : string) (rows : table) : bool :=
  existsb (λ r, match r with
                | JDict d => match assoc name d with Some _ => true | None => false end
                | _ => false
                end) rows.

(** One row of the two [apply] calls of [get_weekly_option_expiry].  A row
    without the key holds a missing value, which has no [split]. *)
Definition expiry_row (v : json) : outcome ExpiryRow :=
  match getitem v "ExpiryDate" with
  | Raise _ => Raise (AttributeError "'float' object has no attribute 'split'")
  | Ret (JStr x) =>
      match py_int X (PyStr.after_last "(" (PyStr.before_first "+" x)) with
      | Some ts =>
          Ret {| ExpiryDate := x; Timestamp := ts;
                 Date := date_fromtimestamp X (ts / 1000) |}
      | None => Raise (ValueError "invalid literal for int() with base 10")
      end
  | Ret _ => Raise (AttributeError "object has no attribute 'split'")
  end.

(** [self.get_expiry("N", underlying)] *)
Definition get_expiry (underlying : string) : event :=
  ApiCall "get_expiry" [JStr "N"; JStr underlying].

Definition option_expiry (underlying : string) : M (list ExpiryRow) :=
  let* d1 := call (get_expiry underlying) in
  let* e := lift (getitem d1 "Expiry") in
  let* d1 := lift (DataFrame e) in
  if has_column "ExpiryDate" d1 then lift (mapM expiry_row d1)
  else raise (KeyError "ExpiryDate").

(** [Client5paisa.get_weekly_option_expiry] *)
Definition get_weekly_option_expiry : M (list ExpiryRow) := option_expiry "NIFTY".

(** [Client5paisa.get_monthly_option_expiry] *)
Definition get_monthly_option_expiry : M (list ExpiryRow) := option_expiry "RELIANCE".

(** [super().get_option_chain(exch, sym, ts)] *)
Definition super_get_option_chain (exch sym : string) (ts : Z) : event :=
  ApiCall "get_option_chain" [JStr exch; JStr sym; JNum ts].

(** [datetime.strptime(expiry_date, "%Y-%m-%d").date()] for a string, the
    date itself otherwise. *)
Definition as_date (expiry_date : string + date) : option date :=
  match expiry_date with
  | inl s => strptime_date X s
  | inr d => Some d
  end.

(** The [except] branch of [get_option_chain]: the fetch. *)
Definition fetch_option_chain (stock : loc) (expiry_date : string + date) : M table :=
  let* expiry_date :=
    match as_date expiry_date with
    | Some d => ret d
    | None => raise (ValueError "time data does not match format '%Y-%m-%d'")
    end in
  let* d1 := get_weekly_option_expiry in
  let f1 := filter (λ r, Date r = expiry_date) d1 in
  let* ts := match f1 with
             | r :: _ => ret (Timestamp r)
             | [] => raise (IndexError "single positional indexer is out-of-bounds")
             end in
  let* exch := stock_attr exchange stock in
  let* sym := stock_attr symbol stock in
  let* resp := call (super_get_option_chain exch sym ts) in
  let* opts := lift (getitem resp "Options") in
  let* d2 := lift (DataFrame opts) in
  stock_update (set_option_chain d2) stock >>
  ret d2.

(** [Client5paisa.get_option_chain] *)
Definition get_option_chain (stock : loc) (expiry_date : string + date) (update : bool)
    : M table :=
  try_except
    (if update then raise (AttributeError "")
     else stock_opt_attr "option_chain" option_chain stock)
    (fetch_option_chain stock expiry_date).

End Embedding.

(** ** Vocabulary of the statements *)

(** The rows that the mask of [get_scrip] selects for a stock. *)
Definition matching (m : ScripMaster) (s : Stock) : list Row :=
  filter (λ r, scrip_mask (exchange s) (exchange_type s) (symbol s) r = true) (data m).

(** A stock object without a [scrip] attribute that no row matches. *)
Definition unresolvable (m : ScripMaster) (h : gmap loc Stock) (l : loc) (s : Stock) : Prop :=
  h !! l = Some s ∧ scrip s = None ∧ matching m s = [].

(** A stock object that carries a [scrip] attribute or that some row matches. *)
Definition resolvable (m : ScripMaster) (h : gmap loc Stock) (l : loc) : Prop :=
  ∃ s, h !! l = Some s ∧ (is_Some (scrip s) ∨ matching m s ≠ []).

(** The stock object at [l] carries the frame [d] as its [scrip]. *)
Definition cached (h : gmap loc Stock) (l : loc) (d : ScripFrame) : Prop :=
  ∃ s, h !! l = Some s ∧ scrip s = Some d.

(** The methods of a constructed [ScripMaster]. *)
Inductive ScripMaster_method : Type :=
| method_repr
| method_call
| method_save (filepath : string)
| method_get_scrip (stocklist : list loc).

(** The store after a method of the ScripMaster at [self] has run, whether
    it returned or raised. *)
Definition invoke (self : loc) (op : ScripMaster_method) (w : world) : world :=
  match op with
  | method_repr => (ScripMaster_repr self w).2
  | method_call => (ScripMaster_call self w).2
  | method_save filepath => (ScripMaster_save self filepath w).2
  | method_get_scrip stocklist => (get_scrip self stocklist w).2
  end.

(** ** Concrete tables, stocks and stores *)

Definition equity (sym : string) (code : Z) (series : string) : Row :=
  {| Exch := "N"; ExchType := "C"; Scripcode := code; Name := sym;
     Series := series; Expiry := None; Symbol := sym |}.

Definition new_stock (sym exch exch_type : string) : Stock :=
  {| symbol := sym; exchange := exch; exchange_type := exch_type;
     scrip := None; option_chain := None |}.

Definition a_client (sm : option loc) : Client :=
  {| scrip_master := sm; jwt_headers := ∅; client_code := "C0001";
     Jwt_token := "token"; HISTORICAL_DATA_ROUTE := "https://host/historical/";
     ws_feed := JNull |}.

(** A store with one ScripMaster at 0 holding [rows], the stock objects
    [ss] at 0, 1, ..., and a client that uses the ScripMaster. *)
Definition a_world (rows : list Row) (ss : list Stock) : world :=
  {| stocks := list_to_map (zip (seq 0 (length ss)) ss);
     masters := {[ 0 := {| data := rows |} ]};
     client := a_client (Some 0);
     trace := [] |}.

Definition nse_rows : list Row :=
  [equity "TCS" 11536 "EQ"; equity "RELIANCE" 2885 "EQ"; equity "INFY" 1594 "EQ";
   equity "RELIANCE" 9001 "BE"].

(** Two stocks, none of them in the table. *)
Definition two_unknown : world :=
  a_world nse_rows [new_stock "AAA" "N" "C"; new_stock "BBB" "N" "C"].

(** A table in which two rows pass the mask for one stock. *)
Definition two_series_rows : list Row :=
  [equity "RELIANCE" 2885 "EQ"; equity "RELIANCE" 2886 "XX"].

Definition two_series_world : world :=
  a_world two_series_rows [new_stock "RELIANCE" "N" "C"].

Definition reliance_world : world :=
  a_world nse_rows [new_stock "RELIANCE" "N" "C"].

Definition reliance_tcs_world : world :=
  a_world nse_rows [new_stock "RELIANCE" "N" "C"; new_stock "TCS" "N" "C"].

(** A known stock followed by an unknown one. *)
Definition known_then_unknown : world :=
  a_world nse_rows [new_stock "RELIANCE" "N" "C"; new_stock "BBB" "N" "C"].

Definition no_master_world : world :=
  {| stocks := {[ 0 := new_stock "RELIANCE" "N" "C" ]};
     masters := ∅;
     client := a_client None;
     trace := [] |}.

(** A stock whose option chain was fetched before. *)
Definition chain_rows : table := [JDict [("StrikeRate", JNum 17000); ("CPType", JStr "CE")]].

Definition nifty_with_chain : world :=
  {| stocks := {[ 0 := set_option_chain chain_rows (new_stock "NIFTY" "N" "D") ]};
     masters := ∅;
     client := a_client None;
     trace := [] |}.

Definition nifty_without_chain : world :=
  {| stocks := {[ 0 := new_stock "NIFTY" "N" "D" ]};
     masters := ∅;
     client := a_client None;
     trace := [] |}.

(** *** A small outside world *)

Fixpoint decimal (s : string) (acc : Z) : option Z :=
  match s with
  | EmptyString => Some acc
  | String c r =>
      let n := nat_of_ascii c in
      if (48 <=? n)%nat && (n <=? 57)%nat
      then decimal r (10 * acc + Z.of_nat (n - 48))
      else None
  end.

Definition sample_answer (t : list event) (e : event) : outcome json :=
  match e with
  | ApiCall name args =>
      if String.eqb name "get_expiry" then
        Ret (JDict [("Expiry",
               JList [JDict [("ExpiryDate", JStr "/Date(1679567400000+0530)/")];
                      JDict [("ExpiryDate", JStr "/Date(1680172200000+0530)/")]])])
      else if String.eqb name "get_option_chain" then
        Ret (JDict [("Options", JList chain_rows)])
      else if String.eqb name "Request_Feed" then
        Ret (JDict [("Method", JNull); ("Operation", JStr "Subscribe");
                    ("MarketFeedData", nth 2 args JNull)])
      else Ret JNull
  | WsRecv => Ret (JStr "[{}]")
  | _ => Ret JNull
  end.

Definition sample_raw : list RawRow :=
  [ {| raw_Exch := "N"; raw_ExchType := "C"; raw_Scripcode := 2885;
       raw_Name := Some "Reliance"; raw_Series := "EQ";
       raw_Expiry := Some "1980-01-01 00:00:00"; raw_Symbol := None |};
    {| raw_Exch := "N"; raw_ExchType := "D"; raw_Scripcode := 57919;
       raw_Name := Some "Nifty 30 Mar 2023"; raw_Series := "XX";
       raw_Expiry := None; raw_Symbol := Some "stale" |} ].

Definition sample_externals : Externals :=
  {| to_datetime := λ s, if decide (String.length s = 19) then Some 0%Z else None;
     strptime_date := λ s, if String.eqb s "2023-03-30" then Some 19446%Z else None;
     strftime := λ _, "2023-01-01";
     py_int := λ s, match s with EmptyString => None | _ => decimal s 0 end;
     date_fromtimestamp := λ n, (n / 86400)%Z;
     py_str := λ v, match v with JStr s => s | _ => "0" end;
     json_loads := λ s, if String.eqb s "[]" then Ret (JList [])
                        else Raise (LibraryError "JSONDecodeError");
     json_dumps := λ _, "{}";
     DataFrame_other := λ _, Raise (ValueError "DataFrame constructor not properly called!");
     to_datetime_col := λ c, Ret c;
     read_csv_answer := λ _ _ _, Ret sample_raw;
     answer := sample_answer;
     save_historical_data := λ _ _ _, ret tt |}.

(** ** Further vocabulary *)

(** What a stock contributes to the result of [get_scrip], read off the
    store before the call: its cached frame, or else its matching rows under
    their Name. *)
Definition entry (m : ScripMaster) (h : gmap loc Stock) (l : loc) : ScripFrame :=
  match h !! l with
  | Some s =>
      match scrip s with
      | Some d => d
      | None => set_index_Name (matching m s)
      end
  | None => []
  end.

(** [h'] holds the stock objects of [h], changed at most in the [scrip]
    attribute of objects listed in [touched] that had none. *)
Definition only_scrip_set (touched : list loc) (h h' : gmap loc Stock) : Prop :=
  ∀ l, (h !! l = None → h' !! l = None) ∧
       ∀ s, h !! l = Some s →
            ∃ s', h' !! l = Some s' ∧
                  symbol s' = symbol s ∧ exchange s' = exchange s ∧
                  exchange_type s' = exchange_type s ∧
                  option_chain s' = option_chain s ∧
                  (l ∉ touched → s' = s) ∧
                  (is_Some (scrip s) → s' = s).

(** One symbol on two exchanges. *)
Definition two_exchange_rows : list Row :=
  [ {| Exch := "N"; ExchType := "C"; Scripcode := 2885; Name := "RELIANCE";
       Series := "EQ"; Expiry := None; Symbol := "RELIANCE" |};
    {| Exch := "B"; ExchType := "C"; Scripcode := 500325; Name := "RELIANCE";
       Series := "EQ"; Expiry := None; Symbol := "RELIANCE" |} ].

Definition two_exchange_world : world :=
  a_world two_exchange_rows [new_stock "RELIANCE" "N" "C"; new_stock "RELIANCE" "B" "C"].

(** The client after the two header assignments of [historical_data]. *)
Definition with_auth_headers (c : Client) : Client :=
  set_jwt_header "x-auth-token" (Jwt_token c)
    (set_jwt_header "x-clientcode" (client_code c) c).

(** The cells of a candle. *)
Definition candle_cells (v : json) : list json :=
  match v with
  | JList cells => cells
  | _ => []
  end.

(** What the loops of [get_market_data] append to [d1] for the messages
    [msgs], each stripped of its first and last character and put between
    [pre] and [post]. *)
Definition fragments (pre post : string) (msgs : list string) : string :=
  foldr (λ m rest, pre +:+ PyStr.strip_ends m +:+ post +:+ rest) "" msgs.

(** The text around each message: [",{"] and ["}"] for "md", [","] and
    nothing for "mf". *)
Definition feed_affixes (feed_type : string) : string * string :=
  if decide (feed_type = "md") then (",{", "}") else (",", "").

(** The three outside calls of [get_market_data] before it reads. *)
Definition subscription (X : Externals) (c : Client) (feed_type : string)
    (a : ScripFrame) (mf_list : json) : list event :=
  [Request_Feed feed_type a; WsConnect (web_url1 c); WsSend (json_dumps X mf_list)].

(** [self.fetch_market_depth_by_symbol(a)] with the renamed columns. *)
Definition fetch_market_depth_by_symbol (a : ScripFrame) : event :=
  ApiCall "fetch_market_depth_by_symbol"
    [JList (records [("Exchange", λ r, JStr (Exch r));
                     ("ExchangeType", λ r, JStr (ExchType r));
                     ("Symbol", λ r, JStr (Symbol r))] a)].

(** [self.fetch_market_feed(a)] *)
Definition fetch_market_feed (a : ScripFrame) : event :=
  ApiCall "fetch_market_feed"
    [JList (records [("Exch", λ r, JStr (Exch r));
                     ("ExchType", λ r, JStr (ExchType r));
                     ("Symbol", λ r, JStr (Symbol r))] a)].

Definition is_recv (e : event) : bool :=
  match e with
  | WsRecv => true
  | _ => false
  end.

(** An outside world in which the feed delivers one message and then
    breaks, the expiry list has one entry, and the file has a bad row. *)
Definition breaking_externals : Externals :=
  {| to_datetime := to_datetime sample_externals;
     strptime_date := strptime_date sample_externals;
     strftime := strftime sample_externals;
     py_int := py_int sample_externals;
     date_fromtimestamp := date_fromtimestamp sample_externals;
     py_str := py_str sample_externals;
     json_loads := json_loads sample_externals;
     json_dumps := json_dumps sample_externals;
     DataFrame_other := DataFrame_other sample_externals;
     to_datetime_col := to_datetime_col sample_externals;
     read_csv_answer := λ _ _ _,
       Ret [ {| raw_Exch := "N"; raw_ExchType := "C"; raw_Scripcode := 2885;
                raw_Name := None; raw_Series := "EQ";
                raw_Expiry := Some "tomorrow"; raw_Symbol := None |} ];
     answer := λ t e,
       match e with
       | WsRecv => if existsb is_recv t then Raise (LibraryError "connection lost")
                   else Ret (JStr "[{}]")
       | _ => sample_answer t e
       end;
     save_historical_data := save_historical_data sample_externals |}.

(** An outside world whose feed answers with the same message every time
    and whose parser accepts the two texts that arise from it. *)
Definition feeding_externals : Externals :=
  {| to_datetime := to_datetime sample_externals;
     strptime_date := strptime_date sample_externals;
     strftime := strftime sample_externals;
     py_int := py_int sample_externals;
     date_fromtimestamp := date_fromtimestamp sample_externals;
     py_str := py_str sample_externals;
     json_loads := λ s, Ret (JList [JStr s]);
     json_dumps := json_dumps sample_externals;
     DataFrame_other := DataFrame_other sample_externals;
     to_datetime_col := to_datetime_col sample_externals;
     read_csv_answer := read_csv_answer sample_externals;
     answer := λ t e,
       match e with
       | WsRecv => Ret (JStr "[a]")
       | ApiCall _ _ =>
           match sample_answer t e with
           | Ret JNull => Ret (JDict [("Data", JList [JDict []])])
           | other => other
           end
       | _ => sample_answer t e
       end;
     save_historical_data := save_historical_data sample_externals |}.

(** An outside world in which the broker has nothing to report: every
    answer of the library holds an empty Data and an empty Expiry list. *)
Definition empty_externals : Externals :=
  {| to_datetime := to_datetime sample_externals;
     strptime_date := strptime_date sample_externals;
     strftime := strftime sample_externals;
     py_int := py_int sample_externals;
     date_fromtimestamp := date_fromtimestamp sample_externals;
     py_str := py_str sample_externals;
     json_loads := json_loads sample_externals;
     json_dumps := json_dumps sample_externals;
     DataFrame_other := DataFrame_other sample_externals;
     to_datetime_col := to_datetime_col sample_externals;
     read_csv_answer := read_csv_answer sample_externals;
     answer := λ t e,
       match e with
       | ApiCall _ _ => Ret (JDict [("Data", JList []); ("Expiry", JList [])])
       | _ => Ret JNull
       end;
     save_historical_data := save_historical_data sample_externals |}.

(** ** The loop of [get_scrip], one stock at a time *)

Ltac unfold_M :=
  unfold bind, ret, raise, lift, try_except, stock_attr, stock_opt_attr,
    stock_update, master_data, emit in *.

Section GetScrip.

Implicit Types (w : world) (self l : loc) (s : Stock) (m : ScripMaster)
  (acc : list ScripFrame) (stocklist : list loc).

Lemma body_cached self l acc w s d :
  stocks w !! l = Some s → scrip s = Some d →
  get_scrip_body self l acc w = (Ret (acc ++ [d]), w).
Proof.
  intros Hl Hd. unfold get_scrip_body. unfold_M. by rewrite Hl, Hd.
Qed.

Lemma body_miss self l acc w s m :
  stocks w !! l = Some s → scrip s = None → masters w !! self = Some m →
  matching m s = [] →
  get_scrip_body self l acc w = (Raise (ValueError (no_scrip_msg (symbol s))), w).
Proof.
  intros Hl Hd Hm Hnone. unfold get_scrip_body, resolve. unfold_M.
  rewrite Hl, Hd, Hm. cbn. rewrite !Hl. cbn. fold (matching m s).
  rewrite Hnone. destruct (decide (@nil Row = [])) as [_|?]; [|done].
  by rewrite Hl.
Qed.

Lemma body_hit self l acc w s m :
  stocks w !! l = Some s → scrip s = None → masters w !! self = Some m →
  matching m s ≠ [] →
  get_scrip_body self l acc w =
    (Ret (acc ++ [set_index_Name (matching m s)]),
     with_stocks (<[l := set_scrip (set_index_Name (matching m s)) s]> (stocks w)) w).
Proof.
  intros Hl Hd Hm Hsome. unfold get_scrip_body, resolve. unfold_M.
  rewrite Hl, Hd, Hm. cbn. rewrite !Hl. cbn. fold (matching m s).
  destruct (decide (matching m s = [])) as [E|_]; [done|].
  by rewrite Hl.
Qed.

(** Whatever the body does, it touches nothing but the [scrip] attribute
    of its own stock, and that only where there was none. *)
Lemma body_frame self l acc w o w' :
  get_scrip_body self l acc w = (o, w') →
  masters w' = masters w ∧ client w' = client w ∧ trace w' = trace w ∧
  (w' = w ∨ ∃ s d, stocks w !! l = Some s ∧ scrip s = None ∧
                   stocks w' = <[l := set_scrip d s]> (stocks w)).
Proof.
  destruct (stocks w !! l) as [s|] eqn:Hl.
  - destruct (scrip s) as [d|] eqn:Hd.
    { rewrite (body_cached _ _ _ _ _ _ Hl Hd). intros [= <- <-]. tauto. }
    destruct (masters w !! self) as [m|] eqn:Hm.
    + destruct (decide (matching m s = [])) as [E|E].
      * rewrite (body_miss _ _ _ _ _ _ Hl Hd Hm E). intros [= <- <-]. tauto.
      * rewrite (body_hit _ _ _ _ _ _ Hl Hd Hm E). intros [= <- <-].
        repeat split; try done. right. by exists s, (set_index_Name (matching m s)).
    + unfold get_scrip_body, resolve. unfold_M. rewrite Hl, Hd, Hm.
      intros [= <- <-]. tauto.
  - unfold get_scrip_body, resolve. unfold_M. rewrite Hl.
    destruct (masters w !! self); cbn; rewrite ?Hl; intros [= <- <-]; tauto.
Qed.

Lemma loop_cons self l stocklist acc w :
  get_scrip_loop self (l :: stocklist) acc w =
    match get_scrip_body self l acc w with
    | (Ret acc', w') => get_scrip_loop self stocklist acc' w'
    | (Raise e, w') => (Raise e, w')
    end.
Proof. reflexivity. Qed.

(** The loop leaves the table, the client and the trace alone, and a stock
    that carries a [scrip] is the same object after the loop. *)
Lemma loop_frame self stocklist acc w o w' :
  get_scrip_loop self stocklist acc w = (o, w') →
  masters w' = masters w ∧ client w' = client w ∧ trace w' = trace w ∧
  ∀ l s, stocks w !! l = Some s → is_Some (scrip s) → stocks w' !! l = Some s.
Proof.
  revert acc w. induction stocklist as [|l0 rest IH]; intros acc w.
  - cbn. unfold ret. intros [= <- <-]. done.
  - rewrite loop_cons. destruct (get_scrip_body self l0 acc w) as [[acc'|e] w1] eqn:Hb.
    + intros Hrest. apply IH in Hrest as (Hm & Hc & Ht & Hs).
      apply body_frame in Hb as (Hm1 & Hc1 & Ht1 & Hs1).
      repeat split; try congruence.
      intros l s Hl Hsome. apply Hs; [|done].
      destruct Hs1 as [->|(s0 & d & Hl0 & Hnone & ->)]; [done|].
      rewrite lookup_insert_ne; [done|].
      intros <-. rewrite Hl0 in Hl. injection Hl as <-.
      rewrite Hnone in Hsome. by destruct Hsome.
    + intros [= <- <-]. apply body_frame in Hb as (Hm1 & Hc1 & Ht1 & Hs1).
      repeat split; try done.
      intros l s Hl Hsome.
      destruct Hs1 as [->|(s0 & d & Hl0 & Hnone & ->)]; [done|].
      rewrite lookup_insert_ne; [done|].
      intros <-. rewrite Hl0 in Hl. injection Hl as <-.
      rewrite Hnone in Hsome. by destruct Hsome.
Qed.

Lemma resolvable_insert m (h : gmap loc Stock) l0 s0 d l :
  h !! l0 = Some s0 → resolvable m h l →
  resolvable m (<[l0 := set_scrip d s0]> h) l.
Proof.
  intros Hl0 (s & Hl & Hs). destruct (decide (l0 = l)) as [<-|Hne].
  - exists (set_scrip d s0). rewrite lookup_insert_eq. split; [done|]. left. by eexists.
  - exists s. by rewrite lookup_insert_ne.
Qed.

(** The loop up to the first stock that cannot be resolved: it raises there,
    and every stock before it that had no [scrip] has one now. *)
Lemma loop_abort self m pre l post s acc w :
  masters w !! self = Some m →
  Forall (resolvable m (stocks w)) pre →
  unresolvable m (stocks w) l s →
  ∃ w', get_scrip_loop self (pre ++ l :: post) acc w
          = (Raise (ValueError (no_scrip_msg (symbol s))), w') ∧
        ∀ l' s', l' ∈ pre → stocks w !! l' = Some s' → scrip s' = None →
                 stocks w' !! l' = Some (set_scrip (set_index_Name (matching m s')) s').
Proof.
  revert acc w. induction pre as [|l0 pre' IH]; intros acc w Hm Hpre (Hl & Hnone & Hno).
  - exists w. split.
    + cbn [app]. rewrite loop_cons. by rewrite (body_miss _ _ _ _ _ _ Hl Hnone Hm Hno).
    + intros l' s' Hin. by apply elem_of_nil in Hin.
  - apply Forall_cons in Hpre as [(s0 & Hl0 & Hs0) Hpre']. cbn [app]. rewrite loop_cons.
    destruct (scrip s0) as [d|] eqn:Hd.
    + rewrite (body_cached _ _ _ _ _ _ Hl0 Hd).
      destruct (IH (acc ++ [d]) w Hm Hpre') as (w' & Hrun & Hkeep); [done|].
      exists w'. split; [done|]. intros l' s' Hin Hl' Hnone'.
      apply elem_of_cons in Hin as [->|Hin]; [|by apply Hkeep].
      congruence.
    + destruct Hs0 as [[? ?]|Hsome]; [done|].
      rewrite (body_hit _ _ _ _ _ _ Hl0 Hd Hm Hsome).
      set (d := set_index_Name (matching m s0)).
      set (w1 := with_stocks (<[l0 := set_scrip d s0]> (stocks w)) w).
      assert (l ≠ l0) as Hne by (intros ->; congruence).
      destruct (IH (acc ++ [d]) w1) as (w' & Hrun & Hkeep).
      * done.
      * cbn. eapply Forall_impl; [exact Hpre'|]. intros l1. by apply resolvable_insert.
      * split; [|done]. cbn. by rewrite lookup_insert_ne.
      * exists w'. split; [done|]. intros l' s' Hin Hl' Hnone'.
        destruct (decide (l' = l0)) as [->|Hne'].
        -- assert (s' = s0) as -> by congruence.
           apply loop_frame in Hrun as (_ & _ & _ & Hs).
           apply Hs; [|by eexists]. cbn. by rewrite lookup_insert_eq.
        -- apply elem_of_cons in Hin as [?|Hin]; [done|].
           apply Hkeep; [done| |done]. cbn. by rewrite lookup_insert_ne.
Qed.

Lemma body_success self l acc w acc' w1 :
  get_scrip_body self l acc w = (Ret acc', w1) →
  ∃ d, acc' = acc ++ [d] ∧ cached (stocks w1) l d.
Proof.
  destruct (stocks w !! l) as [s|] eqn:Hl.
  - destruct (scrip s) as [d|] eqn:Hd.
    { rewrite (body_cached _ _ _ _ _ _ Hl Hd). intros [= <- <-].
      exists d. split; [done|]. by exists s. }
    destruct (masters w !! self) as [m|] eqn:Hm.
    + destruct (decide (matching m s = [])) as [E|E].
      * by rewrite (body_miss _ _ _ _ _ _ Hl Hd Hm E).
      * rewrite (body_hit _ _ _ _ _ _ Hl Hd Hm E). intros [= <- <-].
        eexists. split; [done|]. eexists. cbn. by rewrite lookup_insert_eq.
    + unfold get_scrip_body, resolve. unfold_M. by rewrite Hl, Hd, Hm.
  - unfold get_scrip_body, resolve. unfold_M. rewrite Hl.
    destruct (masters w !! self); cbn; by rewrite ?Hl.
Qed.

(** When every stock carries a [scrip], the loop collects these and reads
    nothing else. *)
Lemma loop_all_cached self stocklist ds acc w :
  Forall2 (cached (stocks w)) stocklist ds →
  get_scrip_loop self stocklist acc w = (Ret (acc ++ ds), w).
Proof.
  intros H. revert acc. induction H as [|l d ls ds (s & Hl & Hd) _ IH]; intros acc.
  - cbn. unfold ret. by rewrite app_nil_r.
  - rewrite loop_cons, (body_cached _ _ _ _ _ _ Hl Hd), IH.
    by rewrite <- app_assoc.
Qed.

(** After a loop that returned, every stock of the list carries its part
    of the result. *)
Lemma loop_success self stocklist acc w r w' :
  get_scrip_loop self stocklist acc w = (Ret r, w') →
  ∃ ds, r = acc ++ ds ∧ Forall2 (cached (stocks w')) stocklist ds.
Proof.
  revert acc w. induction stocklist as [|l rest IH]; intros acc w.
  - cbn. unfold ret. intros [= <- <-]. exists []. by rewrite app_nil_r.
  - rewrite loop_cons.
    destruct (get_scrip_body self l acc w) as [[acc'|e] w1] eqn:Hb; [|done].
    intros Hrest. apply body_success in Hb as (d & -> & s & Hl & Hd).
    destruct (IH _ _ Hrest) as (ds & -> & Hall).
    exists (d :: ds). split; [by rewrite <- app_assoc|].
    constructor; [|done]. exists s. split; [|done].
    apply loop_frame in Hrest as (_ & _ & _ & Hs). apply Hs; [done|by eexists].
Qed.

Lemma get_scrip_unfold self stocklist w :
  get_scrip self stocklist w =
    match get_scrip_loop self stocklist [] w with
    | (Ret ls, w') => (pd_concat ls, w')
    | (Raise e, w') => (Raise e, w')
    end.
Proof. reflexivity. Qed.

Lemma get_scrip_frame self stocklist w :
  masters (get_scrip self stocklist w).2 = masters w ∧
  client (get_scrip self stocklist w).2 = client w ∧
  trace (get_scrip self stocklist w).2 = trace w.
Proof.
  rewrite get_scrip_unfold.
  destruct (get_scrip_loop self stocklist [] w) as [[ls|e] w'] eqn:Hrun;
    apply loop_frame in Hrun as (? & ? & ? & _); done.
Qed.

Lemma elem_of_matching m s r :
  r ∈ matching m s ↔
    r ∈ data m ∧ Exch r = exchange s ∧ ExchType r = exchange_type s ∧
    Symbol r = symbol s ∧ (Series r = "EQ" ∨ Series r = "XX").
Proof.
  unfold matching, scrip_mask. rewrite list_elem_of_filter.
  rewrite !andb_true_iff, orb_true_iff, !String.eqb_eq. tauto.
Qed.

(** The loop returns when every stock of the list can be resolved. *)
Lemma loop_total self m stocklist acc w :
  masters w !! self = Some m →
  Forall (resolvable m (stocks w)) stocklist →
  ∃ ds w', get_scrip_loop self stocklist acc w = (Ret (acc ++ ds), w') ∧
           length ds = length stocklist.
Proof.
  revert acc w. induction stocklist as [|l0 rest IH]; intros acc w Hm Hall.
  - exists [], w. by rewrite app_nil_r.
  - apply Forall_cons in Hall as [(s0 & Hl0 & Hs0) Hrest]. rewrite loop_cons.
    destruct (scrip s0) as [d|] eqn:Hd.
    + rewrite (body_cached _ _ _ _ _ _ Hl0 Hd).
      destruct (IH (acc ++ [d]) w Hm Hrest) as (ds & w' & -> & Hlen).
      exists (d :: ds), w'. split; [by rewrite <- app_assoc|]. cbn. by rewrite Hlen.
    + destruct Hs0 as [[? ?]|Hsome]; [done|].
      rewrite (body_hit _ _ _ _ _ _ Hl0 Hd Hm Hsome).
      edestruct (IH (acc ++ [set_index_Name (matching m s0)])) as (ds & w' & -> & Hlen);
        [| |exists (set_index_Name (matching m s0) :: ds), w'].
      * done.
      * cbn. eapply Forall_impl; [exact Hrest|]. intros l1. by apply resolvable_insert.
      * split; [by rewrite <- app_assoc|]. cbn. by rewrite Hlen.
Qed.

(** [get_scrip] returns a frame for a list that is not empty and whose
    stocks can all be resolved. *)
Lemma get_scrip_total self m stocklist w :
  masters w !! self = Some m → stocklist ≠ [] →
  Forall (resolvable m (stocks w)) stocklist →
  is_Ret (get_scrip self stocklist w).1.
Proof.
  intros Hm Hne Hall. rewrite get_scrip_unfold.
  destruct (loop_total self m stocklist [] w Hm Hall) as (ds & w' & -> & Hlen).
  cbn [app]. destruct ds; [by destruct stocklist|]. by eexists.
Qed.

(** [pd.concat] of no frame at all raises. *)
Lemma get_scrip_nil self w :
  get_scrip self [] w = (Raise (ValueError "No objects to concatenate"), w).
Proof. reflexivity. Qed.

(** *** C1 *)

(** C1 (as amended).  If the stock list has a stock without a cached scrip
    that no row of the table matches under the EQ/XX filter, and every stock
    before it in the list can be resolved, then [get_scrip] raises a
    ValueError whose message names the symbol of that first unresolvable
    stock; the call yields an exception, not a frame, so no stock of the list
    gets a result. *)
Theorem get_scrip_raises_for_first_unresolvable self m pre l post s w :
  masters w !! self = Some m →
  Forall (resolvable m (stocks w)) pre →
  unresolvable m (stocks w) l s →
  (get_scrip self (pre ++ l :: post) w).1
    = Raise (ValueError ("No Scrip found for " +:+ symbol s +:+ " in scrip_master")) ∧
  ¬ is_Ret (get_scrip self (pre ++ l :: post) w).1.
Proof.
  intros Hm Hpre Hl.
  destruct (loop_abort self m pre l post s [] w Hm Hpre Hl) as (w' & Hrun & _).
  rewrite get_scrip_unfold, Hrun. split; [done|]. by intros [? ?].
Qed.

Lemma get_scrip_raises_for_first_unresolvable_witness :
  masters known_then_unknown !! 0 = Some {| data := nse_rows |} ∧
  Forall (resolvable {| data := nse_rows |} (stocks known_then_unknown)) [0] ∧
  unresolvable {| data := nse_rows |} (stocks known_then_unknown) 1
    (new_stock "BBB" "N" "C") ∧
  (get_scrip 0 ([0] ++ 1 :: []) known_then_unknown).1
    = Raise (ValueError "No Scrip found for BBB in scrip_master") ∧
  ¬ is_Ret (get_scrip 0 ([0] ++ 1 :: []) known_then_unknown).1.
Proof.
  assert (Forall (resolvable {| data := nse_rows |} (stocks known_then_unknown)) [0])
    as Hpre.
  { constructor; [|constructor].
    exists (new_stock "RELIANCE" "N" "C"). split; [reflexivity|].
    right. vm_compute. discriminate. }
  assert (unresolvable {| data := nse_rows |} (stocks known_then_unknown) 1
            (new_stock "BBB" "N" "C")) as Hl.
  { repeat split; reflexivity. }
  split; [reflexivity|]. split; [exact Hpre|]. split; [exact Hl|].
  exact (get_scrip_raises_for_first_unresolvable
           0 {| data := nse_rows |} [0] 1 [] (new_stock "BBB" "N" "C")
           known_then_unknown eq_refl Hpre Hl).
Defined.

(** C1 (as stated) fails: with two unresolvable stocks in the list, the
    second one is a stock without cached scrip and without a matching row,
    and the ValueError names the first one's symbol, not its own. *)
Lemma get_scrip_names_only_first_unresolvable :
  1 ∈ [0; 1] ∧
  masters two_unknown !! 0 = Some {| data := nse_rows |} ∧
  unresolvable {| data := nse_rows |} (stocks two_unknown) 1 (new_stock "BBB" "N" "C") ∧
  (get_scrip 0 [0; 1] two_unknown).1
    = Raise (ValueError "No Scrip found for AAA in scrip_master") ∧
  (get_scrip 0 [0; 1] two_unknown).1
    ≠ Raise (ValueError ("No Scrip found for " +:+ symbol (new_stock "BBB" "N" "C")
                         +:+ " in scrip_master")) ∧
  String.index 0 "BBB" "No Scrip found for AAA in scrip_master" = None.
Proof.
  split; [set_solver|]. split; [reflexivity|]. split; [repeat split; reflexivity|].
  split; [reflexivity|]. split; [|reflexivity].
  vm_compute. discriminate.
Qed.

(** *** C9 *)

(** C9.  When [get_scrip] raises at an unresolvable stock, every stock before
    it in the list that had no cached scrip when the call began carries, in
    the store the call leaves behind, the frame resolved for it during the
    call as its [scrip], and is otherwise the stock it was: the failure rolls
    nothing back. *)
Theorem get_scrip_failure_keeps_fresh_caches self m pre l post s w :
  masters w !! self = Some m →
  Forall (resolvable m (stocks w)) pre →
  unresolvable m (stocks w) l s →
  is_Raise (get_scrip self (pre ++ l :: post) w).1 ∧
  ∀ l' s', l' ∈ pre → stocks w !! l' = Some s' → scrip s' = None →
    stocks (get_scrip self (pre ++ l :: post) w).2 !! l'
      = Some (set_scrip (set_index_Name (matching m s')) s') ∧
    ∃ s'', stocks (get_scrip self (pre ++ l :: post) w).2 !! l' = Some s'' ∧
           scrip s'' = Some ((λ r, (Name r, r)) <$> matching m s') ∧
           symbol s'' = symbol s' ∧ exchange s'' = exchange s' ∧
           exchange_type s'' = exchange_type s' ∧
           option_chain s'' = option_chain s'.
Proof.
  intros Hm Hpre Hl.
  destruct (loop_abort self m pre l post s [] w Hm Hpre Hl) as (w' & Hrun & Hkeep).
  rewrite get_scrip_unfold, Hrun. split; [by eexists|].
  intros l' s' Hin Hl' Hnone. cbn [snd].
  pose proof (Hkeep l' s' Hin Hl' Hnone) as Hkept.
  split; [exact Hkept|].
  exists (set_scrip (set_index_Name (matching m s')) s'). split; [exact Hkept|].
  repeat split.
Qed.

Lemma get_scrip_failure_keeps_fresh_caches_witness :
  masters known_then_unknown !! 0 = Some {| data := nse_rows |} ∧
  Forall (resolvable {| data := nse_rows |} (stocks known_then_unknown)) [0] ∧
  unresolvable {| data := nse_rows |} (stocks known_then_unknown) 1
    (new_stock "BBB" "N" "C") ∧
  scrip (new_stock "RELIANCE" "N" "C") = None ∧
  is_Raise (get_scrip 0 ([0] ++ 1 :: []) known_then_unknown).1 ∧
  ∃ s'', stocks (get_scrip 0 ([0] ++ 1 :: []) known_then_unknown).2 !! 0 = Some s'' ∧
         scrip s'' = Some [("RELIANCE", equity "RELIANCE" 2885 "EQ")] ∧
         symbol s'' = "RELIANCE" ∧ exchange s'' = "N" ∧ exchange_type s'' = "C" ∧
         option_chain s'' = None.
Proof.
  assert (Forall (resolvable {| data := nse_rows |} (stocks known_then_unknown)) [0])
    as Hpre.
  { constructor; [|constructor].
    exists (new_stock "RELIANCE" "N" "C"). split; [reflexivity|].
    right. vm_compute. discriminate. }
  assert (unresolvable {| data := nse_rows |} (stocks known_then_unknown) 1
            (new_stock "BBB" "N" "C")) as Hl.
  { repeat split; reflexivity. }
  split; [reflexivity|]. split; [exact Hpre|]. split; [exact Hl|].
  split; [reflexivity|].
  destruct (get_scrip_failure_keeps_fresh_caches
              0 {| data := nse_rows |} [0] 1 [] (new_stock "BBB" "N" "C")
              known_then_unknown eq_refl Hpre Hl) as [Hraise Hkeep].
  split; [exact Hraise|].
  destruct (Hkeep 0 (new_stock "RELIANCE" "N" "C")) as [_ Hcached];
    [constructor|reflexivity|reflexivity|].
  exact Hcached.
Defined.

(** *** C7 *)

(** C7.  A stock that carries a cached scrip is answered from that cache:
    when every stock of the list carries one, [get_scrip] returns their
    concatenation and touches nothing, whatever ScripMaster it is called on
    (the table is not read).  And after any call that returned, every stock
    of the list carries its part of the result, a stock cached before the
    call contributed exactly its cached frame, and a second call on the same
    stocks returns the same frame again. *)
Theorem get_scrip_answers_from_cache :
  (∀ self stocklist ds w,
     stocklist ≠ [] → Forall2 (cached (stocks w)) stocklist ds →
     get_scrip self stocklist w = (Ret (concat ds), w)) ∧
  (∀ self stocklist w d w',
     get_scrip self stocklist w = (Ret d, w') →
     ∃ ds, d = concat ds ∧
       Forall2 (cached (stocks w')) stocklist ds ∧
       Forall2 (λ l e, ∀ e0, cached (stocks w) l e0 → e = e0) stocklist ds ∧
       ∀ self2 w2, stocks w2 = stocks w' →
                   get_scrip self2 stocklist w2 = (Ret d, w2)).
Proof.
  split.
  { intros self stocklist ds w Hne Hall. rewrite get_scrip_unfold.
    rewrite (loop_all_cached self stocklist ds [] w Hall). cbn [app].
    destruct ds; [by inversion Hall|done]. }
  intros self stocklist w d w'. rewrite get_scrip_unfold.
  destruct (get_scrip_loop self stocklist [] w) as [[ls|e] w1] eqn:Hrun; [|done].
  intros Hcat. assert (w1 = w') as -> by congruence.
  assert (pd_concat ls = Ret d) as Hd by congruence. clear Hcat.
  destruct (loop_success _ _ _ _ _ _ Hrun) as (ds & -> & Hall). cbn [app] in *.
  exists ds. split; [by destruct ds; inversion Hd|]. split; [done|]. split.
  - apply loop_frame in Hrun as (_ & _ & _ & Hs).
    eapply Forall2_impl; [exact Hall|]. intros l e (s' & Hl' & He') e0 (s & Hl & He0).
    rewrite (Hs l s Hl) in Hl' by (by eexists). congruence.
  - intros self2 w2 Hw2. rewrite get_scrip_unfold.
    rewrite (loop_all_cached self2 stocklist ds [] w2) by (by rewrite Hw2).
    cbn [app]. by rewrite Hd.
Qed.

Lemma get_scrip_answers_from_cache_witness :
  ∃ w', get_scrip 0 [0; 1] reliance_tcs_world
          = (Ret [("RELIANCE", equity "RELIANCE" 2885 "EQ");
                  ("TCS", equity "TCS" 11536 "EQ")], w') ∧
        get_scrip 7 [0; 1] (with_masters ∅ w')
          = (Ret [("RELIANCE", equity "RELIANCE" 2885 "EQ");
                  ("TCS", equity "TCS" 11536 "EQ")], with_masters ∅ w').
Proof.
  eexists. split; [reflexivity|].
  destruct (proj2 get_scrip_answers_from_cache 0 [0; 1] reliance_tcs_world _ _ eq_refl)
    as (ds & _ & _ & _ & Hagain).
  apply Hagain. reflexivity.
Defined.

(** *** C2 *)

(** C2 (as amended).  For a stock without a cached scrip, [get_scrip] yields
    all rows of the table that agree with the stock on exchange, exchange type
    and symbol and whose series is EQ or XX, one or more and in table order,
    or raises a ValueError when there is none; when exactly one row matches,
    the result is that row alone, with its broker code. *)
Theorem get_scrip_yields_all_matching_rows self m l s w :
  masters w !! self = Some m →
  stocks w !! l = Some s →
  scrip s = None →
  (∀ r, r ∈ matching m s ↔
        r ∈ data m ∧ Exch r = exchange s ∧ ExchType r = exchange_type s ∧
        Symbol r = symbol s ∧ (Series r = "EQ" ∨ Series r = "XX")) ∧
  (matching m s = [] →
     (get_scrip self [l] w).1
       = Raise (ValueError ("No Scrip found for " +:+ symbol s +:+ " in scrip_master"))) ∧
  (matching m s ≠ [] →
     (get_scrip self [l] w).1 = Ret ((λ r, (Name r, r)) <$> matching m s)) ∧
  (∀ r, matching m s = [r] →
     (get_scrip self [l] w).1 = Ret [(Name r, r)] ∧
     ∀ d, (get_scrip self [l] w).1 = Ret d → (Scripcode ∘ snd) <$> d = [Scripcode r]).
Proof.
  intros Hm Hl Hd. split; [intros r; apply elem_of_matching|].
  assert (matching m s ≠ [] →
          (get_scrip self [l] w).1 = Ret ((λ r, (Name r, r)) <$> matching m s)) as Hhit.
  { intros Hsome. rewrite get_scrip_unfold, loop_cons.
    rewrite (body_hit _ _ _ _ _ _ Hl Hd Hm Hsome). cbn.
    unfold set_index_Name. rewrite app_nil_r.
    by destruct (matching m s). }
  split; [|split; [exact Hhit|]].
  - intros Hnone. rewrite get_scrip_unfold, loop_cons.
    by rewrite (body_miss _ _ _ _ _ _ Hl Hd Hm Hnone).
  - intros r Hr. rewrite Hhit by (by rewrite Hr). rewrite Hr. cbn.
    split; [done|]. by intros d [= <-].
Qed.

Lemma get_scrip_yields_all_matching_rows_witness :
  masters reliance_world !! 0 = Some {| data := nse_rows |} ∧
  stocks reliance_world !! 0 = Some (new_stock "RELIANCE" "N" "C") ∧
  scrip (new_stock "RELIANCE" "N" "C") = None ∧
  matching {| data := nse_rows |} (new_stock "RELIANCE" "N" "C")
    = [equity "RELIANCE" 2885 "EQ"] ∧
  (get_scrip 0 [0] reliance_world).1
    = Ret [("RELIANCE", equity "RELIANCE" 2885 "EQ")] ∧
  ∀ d, (get_scrip 0 [0] reliance_world).1 = Ret d →
       (Scripcode ∘ snd) <$> d = [2885%Z].
Proof.
  destruct (get_scrip_yields_all_matching_rows
              0 {| data := nse_rows |} 0 (new_stock "RELIANCE" "N" "C") reliance_world
              eq_refl eq_refl eq_refl) as (_ & _ & _ & Hone).
  split; [reflexivity|]. split; [reflexivity|]. split; [reflexivity|].
  split; [reflexivity|].
  exact (Hone (equity "RELIANCE" 2885 "EQ") eq_refl).
Defined.

(** C2 (as stated) fails: against a table with an EQ row and an XX row for
    the same exchange, exchange type and symbol, the lookup neither fails nor
    resolves to exactly one row; it returns both. *)
Lemma get_scrip_returns_two_rows :
  (get_scrip 0 [0] two_series_world).1
    = Ret [("RELIANCE", equity "RELIANCE" 2885 "EQ");
           ("RELIANCE", equity "RELIANCE" 2886 "XX")] ∧
  ¬ is_Raise (get_scrip 0 [0] two_series_world).1 ∧
  ¬ ∃ row, (get_scrip 0 [0] two_series_world).1 = Ret [row].
Proof.
  split; [reflexivity|]. split.
  - intros [e He]. vm_compute in He. discriminate.
  - intros [row Hrow]. vm_compute in Hrow. discriminate.
Qed.

(** *** C8 *)

(** C8.  No method of a constructed ScripMaster changes its table:
    [get_scrip], whether it returns or raises, leaves every ScripMaster of
    the store as it was, and so do [save], [__call__] and [__repr__], which
    are all the methods there are. *)
Theorem ScripMaster_table_is_read_only :
  (∀ self stocklist w, masters (get_scrip self stocklist w).2 = masters w) ∧
  (∀ self op w, masters (invoke self op w) = masters w).
Proof.
  split; [intros; apply get_scrip_frame|].
  intros self [| |filepath|stocklist] w; cbn.
  - done.
  - unfold ScripMaster_call, master_data. by destruct (masters w !! self).
  - unfold ScripMaster_save. unfold_M. by destruct (masters w !! self).
  - apply get_scrip_frame.
Qed.

End GetScrip.

(** ** Construction of a ScripMaster *)

Lemma upper_ascii_idemp c : PyStr.upper_ascii (PyStr.upper_ascii c) = PyStr.upper_ascii c.
Proof. by destruct c as [[] [] [] [] [] [] [] []]. Qed.

Lemma upper_idemp s : PyStr.upper (PyStr.upper s) = PyStr.upper s.
Proof.
  induction s as [|c r IH]; [done|]. cbn. by rewrite upper_ascii_idemp, IH.
Qed.

Lemma mapM_Ret_inv {A B} (f : A → outcome B) l bs :
  mapM f l = Ret bs → Forall2 (λ a b, f a = Ret b) l bs.
Proof.
  revert bs. induction l as [|a r IH]; intros bs; cbn.
  - intros [= <-]. constructor.
  - destruct (f a) as [b|e] eqn:Hf; [|done].
    destruct (mapM f r) as [bs'|e]; [|done].
    intros [= <-]. constructor; [done|]. by apply IH.
Qed.

Lemma mapM_total {A B} (f : A → outcome B) l :
  Forall (λ a, is_Ret (f a)) l → is_Ret (mapM f l).
Proof.
  induction 1 as [|a r [b Hb] _ [bs Hbs]]; cbn.
  - by eexists.
  - rewrite Hb, Hbs. by eexists.
Qed.

Lemma assemble_lookup raw expiry name symbol i r :
  length expiry = length raw → length name = length raw →
  length symbol = length raw → raw !! i = Some r →
  ∃ e n y, expiry !! i = Some e ∧ name !! i = Some n ∧ symbol !! i = Some y ∧
    assemble raw expiry name symbol !! i
      = Some {| Exch := raw_Exch r; ExchType := raw_ExchType r;
                Scripcode := raw_Scripcode r; Name := n; Series := raw_Series r;
                Expiry := e; Symbol := y |}.
Proof.
  revert expiry name symbol i.
  induction raw as [|r0 raw' IH]; intros [|e es] [|n ns] [|y ys] i; try done.
  cbn [length]. intros [= He] [= Hn] [= Hy]. destruct i as [|i]; cbn.
  - intros [= ->]. by exists e, n, y.
  - intros Hi. by apply IH.
Qed.

Lemma assemble_length raw expiry name symbol :
  length expiry = length raw → length name = length raw →
  length symbol = length raw →
  length (assemble raw expiry name symbol) = length raw.
Proof.
  revert expiry name symbol.
  induction raw as [|r0 raw' IH]; intros [|e es] [|n ns] [|y ys]; try done.
  cbn [length assemble]. intros [= He] [= Hn] [= Hy]. by rewrite IH.
Qed.

Section Construction.

Context (X : Externals).

(** What [__init__] makes of the rows that [read_csv] delivered. *)
Lemma normalise_Ret raw d :
  normalise X raw = Ret d →
  length d = length raw ∧
  ∀ i r, raw !! i = Some r →
    ∃ r' n, d !! i = Some r' ∧ raw_Name r = Some n ∧
      Name r' = PyStr.upper n ∧ Symbol r' = PyStr.upper n ∧
      Expiry r' = raw_Expiry r ≫= to_datetime X ∧
      (raw_Expiry r = None ∨ is_Some (Expiry r')) ∧
      Exch r' = raw_Exch r ∧ ExchType r' = raw_ExchType r ∧
      Scripcode r' = raw_Scripcode r ∧ Series r' = raw_Series r.
Proof.
  unfold normalise.
  destruct (mapM (Expiry_cell X) (raw_Expiry <$> raw)) as [expiry|] eqn:He; [|done].
  destruct (mapM Name_cell (raw_Name <$> raw)) as [name|] eqn:Hn; [|done].
  intros [= <-].
  apply mapM_Ret_inv in He, Hn.
  pose proof (Forall2_length _ _ _ He) as Hle.
  pose proof (Forall2_length _ _ _ Hn) as Hln.
  rewrite length_fmap in Hle, Hln.
  split; [by apply assemble_length|].
  intros i r Hi.
  destruct (assemble_lookup raw expiry name name i r) as (e & n & y & Hei & Hni & Hyi & Hrow);
    [done..|].
  assert (y = n) as -> by congruence.
  eapply Forall2_lookup_r in He as (c & Hc & Hcell); [|exact Hei].
  eapply Forall2_lookup_r in Hn as (c' & Hc' & Hcell'); [|exact Hni].
  rewrite list_lookup_fmap, Hi in Hc, Hc'. cbn in Hc, Hc'.
  injection Hc as <-. injection Hc' as <-.
  unfold Name_cell in Hcell'. destruct (raw_Name r) as [n0|]; [|done].
  injection Hcell' as <-.
  eexists _, n0. split; [exact Hrow|]. cbn.
  unfold Expiry_cell in Hcell. destruct (raw_Expiry r) as [x|]; cbn.
  - destruct (to_datetime X x) as [t|]; [|done]. injection Hcell as <-.
    repeat split; try done. right. by eexists.
  - injection Hcell as <-. repeat split; try done. by left.
Qed.

Lemma normalise_total raw :
  Forall (λ r, is_Some (raw_Name r) ∧
               ∀ e, raw_Expiry r = Some e → is_Some (to_datetime X e)) raw →
  is_Ret (normalise X raw).
Proof.
  intros Hok. unfold normalise.
  destruct (mapM_total (Expiry_cell X) (raw_Expiry <$> raw)) as [expiry ->].
  { apply Forall_fmap. eapply Forall_impl; [exact Hok|]. intros r [_ He]. cbn.
    unfold Expiry_cell. destruct (raw_Expiry r) as [x|]; [|by eexists].
    destruct (He x eq_refl) as [t ->]. by eexists. }
  destruct (mapM_total Name_cell (raw_Name <$> raw)) as [name ->].
  { apply Forall_fmap. eapply Forall_impl; [exact Hok|]. intros r [[n Hn] _]. cbn.
    rewrite Hn. by eexists. }
  by eexists.
Qed.

(** *** C6 *)

(** C6.  Constructing a ScripMaster from the rows that [read_csv] delivers
    keeps every row, in order: the table has as many rows as the file, row
    by row the Name is the upper-cased Name of the file, the Symbol is that
    same upper-cased text (so upper-casing it again changes nothing), the
    Expiry is the parsed date (NaT for an empty cell), and the other columns
    are as in the file.  Construction returns whenever every Name is a
    string and every Expiry cell that is not empty parses. *)
Theorem ScripMaster_init_normalises_and_keeps_rows filepath w raw :
  read_csv_answer X (trace w) (default scripmaster_url filepath)
    (bool_decide (is_Some filepath)) = Ret raw →
  (∀ self w', ScripMaster_init X filepath w = (Ret self, w') →
     masters w !! self = None ∧
     ∃ d, masters w' !! self = Some {| data := d |} ∧
       length d = length raw ∧
       ∀ i r, raw !! i = Some r →
         ∃ r' n, d !! i = Some r' ∧ raw_Name r = Some n ∧
           Name r' = PyStr.upper n ∧ Symbol r' = PyStr.upper n ∧
           PyStr.upper (Symbol r') = Symbol r' ∧
           Expiry r' = raw_Expiry r ≫= to_datetime X ∧
           (raw_Expiry r = None ∨ is_Some (Expiry r')) ∧
           Exch r' = raw_Exch r ∧ ExchType r' = raw_ExchType r ∧
           Scripcode r' = raw_Scripcode r ∧ Series r' = raw_Series r) ∧
  (Forall (λ r, is_Some (raw_Name r) ∧
                ∀ e, raw_Expiry r = Some e → is_Some (to_datetime X e)) raw →
   is_Ret (ScripMaster_init X filepath w).1).
Proof.
  intros Hread.
  assert (∀ k : list RawRow → M loc,
            bind (match filepath with
                  | Some p => read_csv X p true
                  | None => read_csv X scripmaster_url false
                  end) k w
            = k raw (with_trace
                       (trace w ++ [ReadCsv (default scripmaster_url filepath)
                                      (bool_decide (is_Some filepath))]) w)) as Hstep.
  { intros k. unfold bind, read_csv. destruct filepath as [p|]; cbn in *; by rewrite Hread. }
  unfold ScripMaster_init. rewrite Hstep. unfold bind, lift, new_master. split.
  - intros self w'. destruct (normalise X raw) as [d|e] eqn:Hd; [|done].
    intros [= <- <-]. cbn. split.
    { apply not_elem_of_dom. apply is_fresh. }
    exists d. rewrite lookup_insert_eq. split; [done|].
    apply normalise_Ret in Hd as [Hlen Hrows]. split; [done|].
    intros i r Hi. destruct (Hrows i r Hi) as (r' & n & ? & ? & ? & Hsym & ? & ? & ? & ? & ? & ?).
    exists r', n. repeat split; try done. rewrite Hsym. apply upper_idemp.
  - intros Hok. destruct (normalise_total raw Hok) as [d ->]. by eexists.
Qed.

End Construction.

Lemma ScripMaster_init_normalises_and_keeps_rows_witness :
  read_csv_answer sample_externals (trace reliance_world) "scrips.csv" true
    = Ret sample_raw ∧
  masters (ScripMaster_init sample_externals (Some "scrips.csv") reliance_world).2 !! 1
    = Some {| data :=
        [ {| Exch := "N"; ExchType := "C"; Scripcode := 2885; Name := "RELIANCE";
             Series := "EQ"; Expiry := Some 0%Z; Symbol := "RELIANCE" |};
          {| Exch := "N"; ExchType := "D"; Scripcode := 57919;
             Name := "NIFTY 30 MAR 2023"; Series := "XX"; Expiry := None;
             Symbol := "NIFTY 30 MAR 2023" |} ] |} ∧
  is_Ret (ScripMaster_init sample_externals (Some "scrips.csv") reliance_world).1.
Proof.
  split; [reflexivity|]. split; [reflexivity|].
  apply (ScripMaster_init_normalises_and_keeps_rows
           sample_externals (Some "scrips.csv") reliance_world sample_raw eq_refl).
  apply Forall_cons; split.
  { split; [by eexists|]. intros e [= <-]. vm_compute. by eexists. }
  apply Forall_cons; split; [|apply Forall_nil_2].
  split; [by eexists|]. intros e [=].
Defined.

(** ** The client *)

Lemma bind_Ret {A B} (m : M A) (k : A → M B) w a w' :
  m w = (Ret a, w') → bind m k w = k a w'.
Proof. unfold bind. by intros ->. Qed.

Lemma bind_Raise {A B} (m : M A) (k : A → M B) w e w' :
  m w = (Raise e, w') → bind m k w = (Raise e, w').
Proof. unfold bind. by intros ->. Qed.

Lemma scrip_master_get_scrip_frame stocklist w :
  masters (scrip_master_get_scrip stocklist w).2 = masters w ∧
  client (scrip_master_get_scrip stocklist w).2 = client w ∧
  trace (scrip_master_get_scrip stocklist w).2 = trace w.
Proof.
  unfold scrip_master_get_scrip, bind, get_client, raise.
  destruct (scrip_master (client w)) as [self|]; [|done].
  apply get_scrip_frame.
Qed.

Lemma scrip_master_get_scrip_None stocklist w :
  scrip_master (client w) = None →
  scrip_master_get_scrip stocklist w
    = (Raise (AttributeError "'NoneType' object has no attribute 'get_scrip'"), w).
Proof.
  intros Hnone. unfold scrip_master_get_scrip, bind, get_client, raise. by rewrite Hnone.
Qed.

Section Client5paisa.

Context (X : Externals).

Lemma call_eq e w :
  call X e w = (answer X (trace w) e, with_trace (trace w ++ [e]) w).
Proof. reflexivity. Qed.

(** *** C3 *)

(** C3.  For a time granularity outside 1m, 5m, 10m, 15m, 30m, 60m, 1d,
    [historical_data] raises nothing and returns the fixed sentence instead
    of a table; the trace of the call is the trace before it, so no HTTP
    request (nor any other outside call) was issued. *)
Theorem historical_data_invalid_time_returns_sentinel
    Exch ExchangeSegment ScripCode time From To w :
  time ∉ ["1m"; "5m"; "10m"; "15m"; "30m"; "60m"; "1d"] →
  (historical_data X Exch ExchangeSegment ScripCode time From To w).1
    = Ret (inl "Invalid Time Frame. it should be within [1m,5m,10m,15m,30m,60m,1d].") ∧
  trace (historical_data X Exch ExchangeSegment ScripCode time From To w).2 = trace w.
Proof.
  intros Hbad. unfold historical_data, bind, get_client, update_client, ret. cbn.
  fold timeList. by destruct (decide (time ∉ timeList)).
Qed.

(** *** C4 *)

(** C4 (what the code does).  With [scrip_master] None, only
    [download_historical_data] raises the TypeError of
    [__check_scrip_master]; [get_market_depth], [get_market_feed] and
    [get_market_data] do not run that check and raise an AttributeError from
    the attribute access on None.  All four stop before any outside call. *)
Theorem None_scrip_master_raises stocklist interval start end_ feed_type w :
  scrip_master (client w) = None →
  download_historical_data X stocklist interval start end_ w
    = (Raise (TypeError "scrip_master is None. Please provide ScripMaster instance."), w) ∧
  get_market_depth X stocklist w
    = (Raise (AttributeError "'NoneType' object has no attribute 'get_scrip'"), w) ∧
  get_market_feed X stocklist w
    = (Raise (AttributeError "'NoneType' object has no attribute 'get_scrip'"), w) ∧
  get_market_data X stocklist feed_type w
    = (Raise (AttributeError "'NoneType' object has no attribute 'get_scrip'"), w).
Proof.
  intros Hnone. repeat split.
  - unfold download_historical_data, check_scrip_master, bind, get_client, raise.
    by rewrite Hnone.
  - unfold get_market_depth.
    by rewrite (bind_Raise _ _ _ _ _ (scrip_master_get_scrip_None stocklist w Hnone)).
  - unfold get_market_feed.
    by rewrite (bind_Raise _ _ _ _ _ (scrip_master_get_scrip_None stocklist w Hnone)).
  - unfold get_market_data.
    by rewrite (bind_Raise _ _ _ _ _ (scrip_master_get_scrip_None stocklist w Hnone)).
Qed.

(** *** C5 *)

Lemma get_option_chain_fetches stock expiry_date update w s :
  stocks w !! stock = Some s →
  update = true ∨ option_chain s = None →
  get_option_chain X stock expiry_date update w = fetch_option_chain X stock expiry_date w.
Proof.
  intros Hs Hwhy. unfold get_option_chain, try_except.
  destruct update.
  - done.
  - destruct Hwhy as [?|Hnone]; [done|].
    unfold stock_opt_attr. by rewrite Hs, Hnone.
Qed.

(** Rows that the two [apply] calls accepted have the column they read. *)
Lemma expiry_rows_have_column rows erows :
  mapM (expiry_row X) rows = Ret erows → erows ≠ [] →
  has_column "ExpiryDate" rows = true.
Proof.
  destruct rows as [|v rows]; cbn [mapM]; [by intros [= <-]|].
  destruct (expiry_row X v) as [r0|] eqn:Hv; [|done]. intros _ _.
  unfold expiry_row in Hv. destruct v as [| | | |d]; try done.
  cbn in Hv. cbn. by destruct (assoc "ExpiryDate" d).
Qed.

(** The fetch, when the outside answers: the expiry list is requested, then
    the option chain for the time stamp of the first expiry on the given
    date, and the table is stored on the stock and returned. *)
Lemma fetch_option_chain_run stock expiry_date w s d resp e rows erows r rest resp2 opts t :
  stocks w !! stock = Some s →
  as_date X expiry_date = Some d →
  answer X (trace w) (get_expiry "NIFTY") = Ret resp →
  getitem resp "Expiry" = Ret e →
  DataFrame X e = Ret rows →
  mapM (expiry_row X) rows = Ret erows →
  filter (λ r, Date r = d) erows = r :: rest →
  answer X (trace w ++ [get_expiry "NIFTY"])
    (super_get_option_chain (exchange s) (symbol s) (Timestamp r)) = Ret resp2 →
  getitem resp2 "Options" = Ret opts →
  DataFrame X opts = Ret t →
  fetch_option_chain X stock expiry_date w
    = (Ret t,
       with_stocks (<[stock := set_option_chain t s]> (stocks w))
         (with_trace (trace w ++ [get_expiry "NIFTY";
                                  super_get_option_chain (exchange s) (symbol s)
                                    (Timestamp r)]) w)).
Proof.
  intros Hs Hd Hresp He Hrows Herows Hfilter Hresp2 Hopts Ht.
  unfold fetch_option_chain. rewrite Hd.
  erewrite bind_Ret by reflexivity.
  erewrite (bind_Ret (get_weekly_option_expiry X)).
  2:{ unfold get_weekly_option_expiry, option_expiry.
      erewrite bind_Ret by (rewrite call_eq, Hresp; reflexivity).
      erewrite bind_Ret by (unfold lift; rewrite He; reflexivity).
      erewrite bind_Ret by (unfold lift; rewrite Hrows; reflexivity).
      rewrite (expiry_rows_have_column rows erows Herows)
        by (intros ->; by rewrite filter_nil in Hfilter).
      unfold lift. rewrite Herows. reflexivity. }
  rewrite Hfilter.
  erewrite bind_Ret by reflexivity.
  erewrite bind_Ret by (unfold stock_attr; cbn; rewrite Hs; reflexivity).
  erewrite bind_Ret by (unfold stock_attr; cbn; rewrite Hs; reflexivity).
  erewrite bind_Ret by (rewrite call_eq; cbn; rewrite Hresp2; reflexivity).
  erewrite bind_Ret by (unfold lift; rewrite Hopts; reflexivity).
  erewrite bind_Ret by (unfold lift; rewrite Ht; reflexivity).
  erewrite bind_Ret by (unfold stock_update; cbn; rewrite Hs; reflexivity).
  unfold ret, with_stocks, with_trace. cbn. by rewrite <- app_assoc.
Qed.

(** C5.  With [update=False], a stock that carries an option chain gets that
    table back and the store, trace included, is untouched: no request is
    issued.  With [update=False] and no option chain on the stock, and with
    [update=True] whatever the stock carries, the call is the fetch: when the
    date is listed among the expiries and the broker answers, the expiry list
    and the option chain are requested, and the fetched table is returned and
    is the stock's option chain afterwards. *)
Theorem get_option_chain_cache_policy stock expiry_date w s :
  stocks w !! stock = Some s →
  (∀ t, option_chain s = Some t →
        get_option_chain X stock expiry_date false w = (Ret t, w)) ∧
  (∀ update, update = true ∨ option_chain s = None →
        get_option_chain X stock expiry_date update w
          = fetch_option_chain X stock expiry_date w) ∧
  (∀ update d resp e rows erows r rest resp2 opts t,
     update = true ∨ option_chain s = None →
     as_date X expiry_date = Some d →
     answer X (trace w) (get_expiry "NIFTY") = Ret resp →
     getitem resp "Expiry" = Ret e →
     DataFrame X e = Ret rows →
     mapM (expiry_row X) rows = Ret erows →
     filter (λ r, Date r = d) erows = r :: rest →
     answer X (trace w ++ [get_expiry "NIFTY"])
       (super_get_option_chain (exchange s) (symbol s) (Timestamp r)) = Ret resp2 →
     getitem resp2 "Options" = Ret opts →
     DataFrame X opts = Ret t →
     ∃ w', get_option_chain X stock expiry_date update w = (Ret t, w') ∧
           trace w' = trace w ++ [get_expiry "NIFTY";
                                  super_get_option_chain (exchange s) (symbol s)
                                    (Timestamp r)] ∧
           stocks w' !! stock = Some (set_option_chain t s) ∧
           option_chain (set_option_chain t s) = Some t).
Proof.
  intros Hs. split; [|split].
  - intros t Ht. unfold get_option_chain, try_except, stock_opt_attr. by rewrite Hs, Ht.
  - intros update Hwhy. by apply get_option_chain_fetches with s.
  - intros update d resp e rows erows r rest resp2 opts t Hwhy **.
    rewrite (get_option_chain_fetches stock expiry_date update w s Hs Hwhy).
    erewrite fetch_option_chain_run by eassumption.
    eexists. split; [reflexivity|]. cbn. by rewrite lookup_insert_eq.
Qed.

(** *** Feed types without a read loop *)

(** For a feed type that is neither "md" nor "mf", once the stocks are
    resolved and the broker library has built the request,
    [get_market_data] opens the connection, sends the subscription, reads no
    message, closes the connection and returns the empty table parsed from
    "[]". *)
Lemma get_market_data_skips_reads stocklist feed_type w a w1 mf_list h r1 r2 :
  feed_type ≠ "md" → feed_type ≠ "mf" →
  scrip_master_get_scrip stocklist w = (Ret a, w1) →
  answer X (trace w) (Request_Feed feed_type a) = Ret mf_list →
  answer X (trace w ++ [Request_Feed feed_type a]) (WsConnect (web_url1 (client w)))
    = Ret h →
  answer X (trace w ++ [Request_Feed feed_type a; WsConnect (web_url1 (client w))])
    (WsSend (json_dumps X mf_list)) = Ret r1 →
  answer X (trace w ++ [Request_Feed feed_type a; WsConnect (web_url1 (client w));
                        WsSend (json_dumps X mf_list)]) WsClose = Ret r2 →
  json_loads X "[]" = Ret (JList []) →
  stocklist ≠ [] ∧
  (get_market_data X stocklist feed_type w).1 = Ret [] ∧
  trace (get_market_data X stocklist feed_type w).2
    = trace w ++ [Request_Feed feed_type a; WsConnect (web_url1 (client w));
                  WsSend (json_dumps X mf_list); WsClose] ∧
  WsRecv ∉ [Request_Feed feed_type a; WsConnect (web_url1 (client w));
            WsSend (json_dumps X mf_list); WsClose].
Proof.
  intros Hmd Hmf Hscrip Hreq Hconn Hsend Hclose Hloads.
  destruct (scrip_master_get_scrip_frame stocklist w) as (_ & Hc & Ht).
  rewrite Hscrip in Hc, Ht. cbn in Hc, Ht.
  split.
  { intros ->. unfold scrip_master_get_scrip, bind, get_client, raise in Hscrip.
    destruct (scrip_master (client w)); [|done]. by rewrite get_scrip_nil in Hscrip. }
  assert (get_market_data X stocklist feed_type w
          = (Ret [], with_client (set_ws_feed h (client w))
                       (with_trace (trace w ++ [Request_Feed feed_type a;
                           WsConnect (web_url1 (client w));
                           WsSend (json_dumps X mf_list); WsClose]) w1))) as ->.
  { unfold get_market_data.
    erewrite bind_Ret by exact Hscrip.
    erewrite bind_Ret by (rewrite call_eq, Ht, Hreq; reflexivity).
    erewrite bind_Ret by reflexivity. cbn [client with_trace]. rewrite Hc.
    erewrite bind_Ret by (rewrite call_eq; cbn [trace with_trace]; rewrite Hconn; reflexivity).
    erewrite bind_Ret by reflexivity.
    erewrite bind_Ret.
    2:{ rewrite call_eq. cbn. rewrite <- app_assoc. cbn. rewrite Hsend. reflexivity. }
    destruct (decide (feed_type = "md")) as [?|_]; [done|].
    destruct (decide (feed_type = "mf")) as [?|_]; [done|].
    erewrite bind_Ret by reflexivity.
    erewrite bind_Ret by reflexivity.
    erewrite bind_Ret.
    2:{ rewrite call_eq. cbn. rewrite <- !app_assoc. cbn. rewrite Hclose. reflexivity. }
    change ("[" +:+ PyStr.drop_first "" +:+ "]") with "[]".
    erewrite bind_Ret by (unfold lift; rewrite Hloads; reflexivity).
    unfold lift, DataFrame, with_client, with_trace. cbn.
    by rewrite Hc. }
  split; [done|]. split; [done|].
  intros Hin. repeat (apply elem_of_cons in Hin as [Hin|Hin]; [discriminate|]).
  by apply elem_of_nil in Hin.
Qed.

End Client5paisa.

Lemma historical_data_invalid_time_returns_sentinel_witness :
  ("2h" ∉ ["1m"; "5m"; "10m"; "15m"; "30m"; "60m"; "1d"]) ∧
  (historical_data sample_externals "N" "C" (JNum 2885) "2h" "2023-01-01" "2023-03-30"
     reliance_world).1
    = Ret (inl "Invalid Time Frame. it should be within [1m,5m,10m,15m,30m,60m,1d].") ∧
  trace (historical_data sample_externals "N" "C" (JNum 2885) "2h" "2023-01-01"
           "2023-03-30" reliance_world).2 = [].
Proof.
  assert ("2h" ∉ ["1m"; "5m"; "10m"; "15m"; "30m"; "60m"; "1d"]) as Hbad.
  { intros Hin. repeat (apply elem_of_cons in Hin as [Hin|Hin]; [discriminate|]).
    by apply elem_of_nil in Hin. }
  split; [exact Hbad|].
  exact (historical_data_invalid_time_returns_sentinel sample_externals
           "N" "C" (JNum 2885) "2h" "2023-01-01" "2023-03-30" reliance_world Hbad).
Defined.

Lemma None_scrip_master_raises_witness :
  scrip_master (client no_master_world) = None ∧
  download_historical_data sample_externals [0] "1d" (inl "2023-01-01") (inl "2023-03-30")
      no_master_world
    = (Raise (TypeError "scrip_master is None. Please provide ScripMaster instance."),
       no_master_world) ∧
  get_market_depth sample_externals [0] no_master_world
    = (Raise (AttributeError "'NoneType' object has no attribute 'get_scrip'"),
       no_master_world) ∧
  get_market_feed sample_externals [0] no_master_world
    = (Raise (AttributeError "'NoneType' object has no attribute 'get_scrip'"),
       no_master_world) ∧
  get_market_data sample_externals [0] "md" no_master_world
    = (Raise (AttributeError "'NoneType' object has no attribute 'get_scrip'"),
       no_master_world).
Proof.
  split; [reflexivity|].
  exact (None_scrip_master_raises sample_externals [0] "1d" (inl "2023-01-01")
           (inl "2023-03-30") "md" no_master_world eq_refl).
Defined.

Lemma get_option_chain_cache_policy_witness :
  get_option_chain sample_externals 0 (inl "2023-03-30") false nifty_with_chain
    = (Ret chain_rows, nifty_with_chain) ∧
  (∃ w', get_option_chain sample_externals 0 (inl "2023-03-30") false nifty_without_chain
           = (Ret chain_rows, w') ∧
         trace w' = [get_expiry "NIFTY"; super_get_option_chain "N" "NIFTY" 1680172200000] ∧
         stocks w' !! 0 = Some (set_option_chain chain_rows (new_stock "NIFTY" "N" "D"))) ∧
  (∃ w', get_option_chain sample_externals 0 (inl "2023-03-30") true nifty_with_chain
           = (Ret chain_rows, w') ∧
         trace w' = [get_expiry "NIFTY"; super_get_option_chain "N" "NIFTY" 1680172200000]).
Proof.
  split; [|split].
  - exact (proj1 (get_option_chain_cache_policy sample_externals 0 (inl "2023-03-30")
                    nifty_with_chain _ eq_refl) chain_rows eq_refl).
  - destruct (proj2 (proj2 (get_option_chain_cache_policy sample_externals 0
                              (inl "2023-03-30") nifty_without_chain _ eq_refl))
                false _ _ _ _ _ _ _ _ _ _
                (or_intror eq_refl) eq_refl eq_refl eq_refl eq_refl eq_refl eq_refl
                eq_refl eq_refl eq_refl) as (w' & Hrun & Htrace & Hstock & _).
    exists w'. split; [exact Hrun|]. split; [exact Htrace|exact Hstock].
  - destruct (proj2 (proj2 (get_option_chain_cache_policy sample_externals 0
                              (inl "2023-03-30") nifty_with_chain _ eq_refl))
                true _ _ _ _ _ _ _ _ _ _
                (or_introl eq_refl) eq_refl eq_refl eq_refl eq_refl eq_refl eq_refl
                eq_refl eq_refl eq_refl) as (w' & Hrun & Htrace & _).
    exists w'. split; [exact Hrun|exact Htrace].
Defined.

(** ** More about [get_scrip] *)

Section GetScripMore.

Implicit Types (w : world) (self l : loc) (s : Stock) (m : ScripMaster)
  (acc : list ScripFrame) (stocklist : list loc).

Lemma entry_insert m (h : gmap loc Stock) l0 s0 l :
  h !! l0 = Some s0 → scrip s0 = None →
  entry m (<[l0 := set_scrip (set_index_Name (matching m s0)) s0]> h) l = entry m h l.
Proof.
  intros Hl0 Hnone. unfold entry. destruct (decide (l0 = l)) as [<-|Hne].
  - by rewrite lookup_insert_eq, Hl0, Hnone.
  - by rewrite lookup_insert_ne.
Qed.

(** The loop on stocks that can all be resolved: each contributes its entry,
    in list order. *)
Lemma loop_result self m stocklist acc w :
  masters w !! self = Some m →
  Forall (resolvable m (stocks w)) stocklist →
  ∃ w', get_scrip_loop self stocklist acc w
          = (Ret (acc ++ (entry m (stocks w) <$> stocklist)), w') ∧
        ∀ l, l ∈ stocklist → cached (stocks w') l (entry m (stocks w) l).
Proof.
  revert acc w. induction stocklist as [|l0 rest IH]; intros acc w Hm Hall.
  - exists w. cbn. rewrite app_nil_r. split; [done|]. intros l Hin.
    by apply elem_of_nil in Hin.
  - apply Forall_cons in Hall as [(s0 & Hl0 & Hs0) Hrest]. rewrite loop_cons.
    destruct (scrip s0) as [d|] eqn:Hd.
    + rewrite (body_cached _ _ _ _ _ _ Hl0 Hd).
      destruct (IH (acc ++ [d]) w Hm Hrest) as (w' & Hrun & Hc).
      exists w'. rewrite Hrun. cbn [fmap list_fmap].
      assert (entry m (stocks w) l0 = d) as He by (unfold entry; by rewrite Hl0, Hd).
      rewrite He, <- app_assoc. split; [done|].
      intros l Hin. apply elem_of_cons in Hin as [->|Hin]; [|by apply Hc].
      rewrite He. exists s0. split; [|done].
      apply loop_frame in Hrun as (_ & _ & _ & Hs). apply Hs; [done|by eexists].
    + destruct Hs0 as [[? ?]|Hsome]; [done|].
      rewrite (body_hit _ _ _ _ _ _ Hl0 Hd Hm Hsome).
      set (d := set_index_Name (matching m s0)).
      set (w1 := with_stocks (<[l0 := set_scrip d s0]> (stocks w)) w).
      assert (∀ l, entry m (stocks w1) l = entry m (stocks w) l) as Hentry.
      { intros l. by apply entry_insert. }
      destruct (IH (acc ++ [d]) w1) as (w' & Hrun & Hc).
      * done.
      * cbn. eapply Forall_impl; [exact Hrest|]. intros l1. by apply resolvable_insert.
      * assert (entry m (stocks w1) <$> rest = entry m (stocks w) <$> rest) as Hmap.
        { apply list_fmap_ext. intros i l _. apply Hentry. }
        rewrite Hmap in Hrun.
        exists w'. rewrite Hrun. cbn [fmap list_fmap].
        assert (entry m (stocks w) l0 = d) as He by (unfold entry; by rewrite Hl0, Hd).
        rewrite He, <- app_assoc.
        split; [done|].
        intros l Hin. apply elem_of_cons in Hin as [->|Hin].
        -- rewrite He. exists (set_scrip d s0). split; [|done].
           apply loop_frame in Hrun as (_ & _ & _ & Hs).
           apply Hs; [|by eexists]. cbn. by rewrite lookup_insert_eq.
        -- rewrite <- Hentry. by apply Hc.
Qed.

(** X1.  For a list that is not empty and whose stocks can all be resolved,
    [get_scrip] returns the concatenation, in list order, of what each stock
    contributes: the frame it carried before the call, or else its matching
    rows.  A stock listed twice contributes twice.  Afterwards every listed
    stock carries its contribution as its [scrip]. *)
Theorem get_scrip_result self m stocklist w :
  masters w !! self = Some m →
  stocklist ≠ [] →
  Forall (resolvable m (stocks w)) stocklist →
  (get_scrip self stocklist w).1 = Ret (concat (entry m (stocks w) <$> stocklist)) ∧
  ∀ l, l ∈ stocklist →
       cached (stocks (get_scrip self stocklist w).2) l (entry m (stocks w) l).
Proof.
  intros Hm Hne Hall. rewrite get_scrip_unfold.
  destruct (loop_result self m stocklist [] w Hm Hall) as (w' & -> & Hc).
  cbn [app]. destruct stocklist as [|l0 rest]; [done|]. done.
Qed.

Lemma get_scrip_result_witness :
  masters reliance_tcs_world !! 0 = Some {| data := nse_rows |} ∧
  [1; 0; 1] ≠ [] ∧
  Forall (resolvable {| data := nse_rows |} (stocks reliance_tcs_world)) [1; 0; 1] ∧
  (get_scrip 0 [1; 0; 1] reliance_tcs_world).1
    = Ret [("TCS", equity "TCS" 11536 "EQ"); ("RELIANCE", equity "RELIANCE" 2885 "EQ");
           ("TCS", equity "TCS" 11536 "EQ")].
Proof.
  assert (Forall (resolvable {| data := nse_rows |} (stocks reliance_tcs_world)) [1; 0; 1])
    as Hall.
  { repeat constructor.
    - exists (new_stock "TCS" "N" "C"). split; [reflexivity|]. right. vm_compute. discriminate.
    - exists (new_stock "RELIANCE" "N" "C"). split; [reflexivity|]. right. vm_compute.
      discriminate.
    - exists (new_stock "TCS" "N" "C"). split; [reflexivity|]. right. vm_compute. discriminate. }
  split; [reflexivity|]. split; [discriminate|]. split; [exact Hall|].
  exact (proj1 (get_scrip_result 0 {| data := nse_rows |} [1; 0; 1] reliance_tcs_world
                  eq_refl ltac:(discriminate) Hall)).
Defined.

(** A list of stock objects either can be resolved throughout or has a first
    stock that cannot. *)
Lemma first_unresolvable m (h : gmap loc Stock) stocklist :
  Forall (λ l, is_Some (h !! l)) stocklist →
  Forall (resolvable m h) stocklist ∨
  ∃ pre l post s, stocklist = pre ++ l :: post ∧
                  Forall (resolvable m h) pre ∧ unresolvable m h l s.
Proof.
  induction 1 as [|l0 rest [s0 Hl0] _ IH]; [by left|].
  destruct (scrip s0) as [d|] eqn:Hd.
  - destruct IH as [Hall|(pre & l & post & s & -> & Hpre & Hl)].
    + left. constructor; [|done]. exists s0. split; [done|]. left. by eexists.
    + right. exists (l0 :: pre), l, post, s. split; [done|]. split; [|done].
      constructor; [|done]. exists s0. split; [done|]. left. by eexists.
  - destruct (decide (matching m s0 = [])) as [Hno|Hsome].
    + right. by exists [], l0, rest, s0.
    + destruct IH as [Hall|(pre & l & post & s & -> & Hpre & Hl)].
      * left. constructor; [|done]. exists s0. split; [done|]. by right.
      * right. exists (l0 :: pre), l, post, s. split; [done|]. split; [|done].
        constructor; [|done]. exists s0. split; [done|]. by right.
Qed.

(** X2.  On a list of stock objects, [get_scrip] returns a frame exactly
    when the list is not empty and every stock carries a scrip or has a
    matching row; in every other case it raises. *)
Theorem get_scrip_returns_iff self m stocklist w :
  masters w !! self = Some m →
  Forall (λ l, is_Some (stocks w !! l)) stocklist →
  (is_Ret (get_scrip self stocklist w).1 ↔
     stocklist ≠ [] ∧ Forall (resolvable m (stocks w)) stocklist) ∧
  (is_Raise (get_scrip self stocklist w).1 ↔
     ¬ (stocklist ≠ [] ∧ Forall (resolvable m (stocks w)) stocklist)).
Proof.
  intros Hm Hvalid.
  assert (is_Ret (get_scrip self stocklist w).1 →
          stocklist ≠ [] ∧ Forall (resolvable m (stocks w)) stocklist) as Hfwd.
  { intros [d Hd]. split.
    - intros ->. by rewrite get_scrip_nil in Hd.
    - destruct (first_unresolvable m (stocks w) stocklist Hvalid)
        as [Hall|(pre & l & post & s & -> & Hpre & Hl)]; [done|].
      destruct (loop_abort self m pre l post s [] w Hm Hpre Hl) as (w' & Hrun & _).
      rewrite get_scrip_unfold, Hrun in Hd. done. }
  split.
  - split; [exact Hfwd|]. intros [Hne Hall]. by apply get_scrip_total with m.
  - split.
    + intros [e He] [Hne Hall].
      destruct (get_scrip_total self m stocklist w Hm Hne Hall) as [d Hd]. congruence.
    + intros Hnot. destruct (get_scrip self stocklist w).1 as [d|e] eqn:Hres; [|by eexists].
      destruct Hnot. apply Hfwd. by eexists.
Qed.

Lemma get_scrip_returns_iff_witness :
  masters known_then_unknown !! 0 = Some {| data := nse_rows |} ∧
  Forall (λ l, is_Some (stocks known_then_unknown !! l)) [0; 1] ∧
  is_Raise (get_scrip 0 [0; 1] known_then_unknown).1.
Proof.
  assert (Forall (λ l, is_Some (stocks known_then_unknown !! l)) [0; 1]) as Hvalid.
  { repeat constructor; by eexists. }
  split; [reflexivity|]. split; [exact Hvalid|].
  apply (proj2 (get_scrip_returns_iff 0 {| data := nse_rows |} [0; 1] known_then_unknown
                  eq_refl Hvalid)).
  intros [_ Hall]. apply Forall_cons in Hall as [_ Hall].
  apply Forall_cons in Hall as [(s & Hs & Hr) _].
  injection Hs as <-. destruct Hr as [[d Hd]|Hr]; [discriminate|].
  apply Hr. reflexivity.
Defined.

(** *** What [get_scrip] leaves alone *)

Lemma only_scrip_set_refl touched (h : gmap loc Stock) : only_scrip_set touched h h.
Proof. intros l. split; [done|]. intros s Hs. by exists s. Qed.

Lemma loop_only_scrip_set self stocklist acc w o w' :
  get_scrip_loop self stocklist acc w = (o, w') →
  only_scrip_set stocklist (stocks w) (stocks w').
Proof.
  revert acc w. induction stocklist as [|l0 rest IH]; intros acc w.
  - cbn. unfold ret. intros [= <- <-]. apply only_scrip_set_refl.
  - rewrite loop_cons.
    destruct (get_scrip_body self l0 acc w) as [[acc'|e] w1] eqn:Hb.
    + intros Hrest. apply IH in Hrest.
      apply body_frame in Hb as (_ & _ & _ & [->|(s0 & d & Hl0 & Hnone & Hst)]).
      * intros l. destruct (Hrest l) as [HN HS]. split; [done|].
        intros s Hs. destruct (HS s Hs) as (s' & ? & ? & ? & ? & ? & Hout & Hkeep).
        exists s'. repeat split; try done. intros Hnin. apply Hout.
        intros Hin. apply Hnin. by apply elem_of_cons; right.
      * intros l. destruct (Hrest l) as [HN HS]. rewrite Hst in HN, HS.
        destruct (decide (l0 = l)) as [<-|Hne].
        -- split; [by rewrite Hl0|]. intros s Hs. assert (s = s0) as -> by congruence.
           rewrite lookup_insert_eq in HS.
           destruct (HS _ eq_refl) as (s' & ? & ? & ? & ? & ? & Hout & Hkeep).
           exists s'. repeat split; try done.
           ++ intros Hnin. destruct Hnin. by apply elem_of_cons; left.
           ++ intros [? ?]. congruence.
        -- rewrite lookup_insert_ne in HN, HS by done. split; [done|].
           intros s Hs. destruct (HS s Hs) as (s' & ? & ? & ? & ? & ? & Hout & Hkeep).
           exists s'. repeat split; try done. intros Hnin. apply Hout.
           intros Hin. apply Hnin. by apply elem_of_cons; right.
    + intros [= <- <-].
      apply body_frame in Hb as (_ & _ & _ & [->|(s0 & d & Hl0 & Hnone & Hst)]).
      * apply only_scrip_set_refl.
      * rewrite Hst. intros l. destruct (decide (l0 = l)) as [<-|Hne].
        -- rewrite lookup_insert_eq. split; [by rewrite Hl0|].
           intros s Hs. assert (s = s0) as -> by congruence.
           exists (set_scrip d s0). repeat split; try done.
           ++ intros Hnin. destruct Hnin. by apply elem_of_cons; left.
           ++ intros [? ?]. congruence.
        -- rewrite lookup_insert_ne by done. split; [done|].
           intros s Hs. by exists s.
Qed.

(** X3.  Whether it returns or raises, [get_scrip] issues no outside call
    and changes neither a ScripMaster nor the client; of the stock objects it
    changes nothing but the [scrip] attribute, and that only on listed
    stocks that had none: symbol, exchange, exchange type and option chain
    stay, and so does every stock that is not listed or already carries a
    scrip. *)
Theorem get_scrip_only_sets_scrip self stocklist w :
  trace (get_scrip self stocklist w).2 = trace w ∧
  masters (get_scrip self stocklist w).2 = masters w ∧
  client (get_scrip self stocklist w).2 = client w ∧
  only_scrip_set stocklist (stocks w) (stocks (get_scrip self stocklist w).2).
Proof.
  destruct (get_scrip_frame self stocklist w) as (Hm & Hc & Ht).
  split; [done|]. split; [done|]. split; [done|].
  rewrite get_scrip_unfold.
  destruct (get_scrip_loop self stocklist [] w) as [[ls|e] w'] eqn:Hrun;
    by apply loop_only_scrip_set in Hrun.
Qed.

(** *** Batches *)

Lemma body_acc self l acc w :
  get_scrip_body self l acc w =
    match get_scrip_body self l [] w with
    | (Ret r, w') => (Ret (acc ++ r), w')
    | (Raise e, w') => (Raise e, w')
    end.
Proof.
  destruct (stocks w !! l) as [s|] eqn:Hl.
  - destruct (scrip s) as [d|] eqn:Hd.
    { by rewrite !(body_cached _ _ _ _ _ _ Hl Hd). }
    destruct (masters w !! self) as [m|] eqn:Hm.
    + destruct (decide (matching m s = [])) as [E|E].
      * by rewrite !(body_miss _ _ _ _ _ _ Hl Hd Hm E).
      * by rewrite !(body_hit _ _ _ _ _ _ Hl Hd Hm E).
    + unfold get_scrip_body, resolve. unfold_M. by rewrite Hl, Hd, Hm.
  - unfold get_scrip_body, resolve. unfold_M. rewrite Hl.
    destruct (masters w !! self); cbn; by rewrite ?Hl.
Qed.

Lemma loop_acc self stocklist acc w :
  get_scrip_loop self stocklist acc w =
    match get_scrip_loop self stocklist [] w with
    | (Ret r, w') => (Ret (acc ++ r), w')
    | (Raise e, w') => (Raise e, w')
    end.
Proof.
  revert acc w. induction stocklist as [|l0 rest IH]; intros acc w.
  - cbn. unfold ret. by rewrite app_nil_r.
  - rewrite !loop_cons, body_acc.
    destruct (get_scrip_body self l0 [] w) as [[r|e] w1]; [|done].
    rewrite (IH (acc ++ r)), (IH ([] ++ r)).
    destruct (get_scrip_loop self rest [] w1) as [[r'|e] w2]; [|done].
    by rewrite <- app_assoc.
Qed.

Lemma loop_app self a b acc w :
  get_scrip_loop self (a ++ b) acc w =
    match get_scrip_loop self a acc w with
    | (Ret acc', w') => get_scrip_loop self b acc' w'
    | (Raise e, w') => (Raise e, w')
    end.
Proof.
  revert acc w. induction a as [|l0 rest IH]; intros acc w; [done|].
  cbn [app]. rewrite !loop_cons.
  destruct (get_scrip_body self l0 acc w) as [[acc'|e] w1]; [|done]. apply IH.
Qed.

(** X4.  Resolving a batch is resolving its parts one after the other: when
    [get_scrip] returns for a first list and then, in the store it left, for
    a second list, it returns for the two lists joined the two frames
    joined, and leaves the same store.  When it raises for a first list that
    is not empty, it raises the same exception for the joined list, with the
    same store. *)
Theorem get_scrip_app self a b w :
  (∀ da wa db wb,
     get_scrip self a w = (Ret da, wa) →
     get_scrip self b wa = (Ret db, wb) →
     get_scrip self (a ++ b) w = (Ret (da ++ db), wb)) ∧
  (∀ e wa, a ≠ [] →
     get_scrip self a w = (Raise e, wa) →
     get_scrip self (a ++ b) w = (Raise e, wa)).
Proof.
  split.
  - intros da wa db wb. rewrite !get_scrip_unfold, loop_app.
    destruct (get_scrip_loop self a [] w) as [[la|e] w1]; [|done].
    intros Ha. assert (w1 = wa) as -> by congruence.
    assert (pd_concat la = Ret da) as Hda by congruence. clear Ha.
    rewrite (loop_acc self b la).
    destruct (get_scrip_loop self b [] wa) as [[lb|e] w2]; [|done].
    intros Hb. assert (w2 = wb) as -> by congruence.
    assert (pd_concat lb = Ret db) as Hdb by congruence. clear Hb.
    destruct la as [|x la]; [done|]. destruct lb as [|y lb]; [done|].
    cbn in *. injection Hda as <-. injection Hdb as <-.
    by rewrite concat_app, app_assoc.
  - intros e wa Hne. rewrite !get_scrip_unfold, loop_app.
    destruct (get_scrip_loop self a [] w) as [[la|e'] w1] eqn:Hrun; [|done].
    apply loop_success in Hrun as (ds & -> & Hall). cbn [app].
    destruct ds; [|done]. apply Forall2_length in Hall. by destruct a.
Qed.

Lemma get_scrip_app_witness :
  ∃ wa wb,
    get_scrip 0 [1] reliance_tcs_world = (Ret [("TCS", equity "TCS" 11536 "EQ")], wa) ∧
    get_scrip 0 [0] wa = (Ret [("RELIANCE", equity "RELIANCE" 2885 "EQ")], wb) ∧
    get_scrip 0 ([1] ++ [0]) reliance_tcs_world
      = (Ret ([("TCS", equity "TCS" 11536 "EQ")]
              ++ [("RELIANCE", equity "RELIANCE" 2885 "EQ")]), wb).
Proof.
  eexists _, _. split; [reflexivity|]. split; [reflexivity|].
  exact (proj1 (get_scrip_app 0 [1] [0] reliance_tcs_world) _ _ _ _ eq_refl eq_refl).
Defined.

(** *** The rows of a fresh resolution *)

Lemma elem_of_concat {A} (x : A) (xss : list (list A)) :
  x ∈ concat xss ↔ ∃ xs, xs ∈ xss ∧ x ∈ xs.
Proof.
  induction xss as [|xs0 xss IH]; cbn.
  - split; [by intros ?%elem_of_nil|]. by intros (xs & ?%elem_of_nil & _).
  - rewrite elem_of_app, IH. split.
    + intros [?|(xs & ? & ?)]; [exists xs0|exists xs]; split; try done.
      * by apply elem_of_cons; left.
      * by apply elem_of_cons; right.
    + intros (xs & [->|?]%elem_of_cons & ?); [by left|]. right. by exists xs.
Qed.

Lemma uncached_valid (h : gmap loc Stock) stocklist :
  Forall (λ l, ∃ s, h !! l = Some s ∧ scrip s = None) stocklist →
  Forall (λ l, is_Some (h !! l)) stocklist.
Proof.
  intros Hfresh. eapply Forall_impl; [exact Hfresh|]. intros l (s & Hs & _). by exists s.
Qed.

(** The result of [get_scrip] on stocks that all lack a scrip. *)
Lemma get_scrip_fresh_result self m stocklist w d :
  masters w !! self = Some m →
  Forall (λ l, ∃ s, stocks w !! l = Some s ∧ scrip s = None) stocklist →
  (get_scrip self stocklist w).1 = Ret d →
  Forall (resolvable m (stocks w)) stocklist ∧
  d = concat (entry m (stocks w) <$> stocklist).
Proof.
  intros Hm Hfresh Hd.
  destruct (proj1 (get_scrip_returns_iff self m stocklist w Hm (uncached_valid _ _ Hfresh)))
    as [Hfwd _].
  destruct Hfwd as [Hne Hall]; [by eexists|].
  split; [done|].
  destruct (get_scrip_result self m stocklist w Hm Hne Hall) as [Hres _]. congruence.
Qed.

(** X5.  When no listed stock carries a scrip before the call, every row of
    the frame that [get_scrip] returns is a row of the table, stands under
    its own Name as index label, has series EQ or XX, and agrees in exchange,
    exchange type and symbol with a listed stock: rows of other series
    never get into the result. *)
Theorem get_scrip_rows_are_cash_rows self m stocklist w d :
  masters w !! self = Some m →
  Forall (λ l, ∃ s, stocks w !! l = Some s ∧ scrip s = None) stocklist →
  (get_scrip self stocklist w).1 = Ret d →
  ∀ label r, (label, r) ∈ d →
    label = Name r ∧ r ∈ data m ∧ (Series r = "EQ" ∨ Series r = "XX") ∧
    ∃ l s, l ∈ stocklist ∧ stocks w !! l = Some s ∧
           Exch r = exchange s ∧ ExchType r = exchange_type s ∧ Symbol r = symbol s.
Proof.
  intros Hm Hfresh Hd label r Hin.
  destruct (get_scrip_fresh_result self m stocklist w d Hm Hfresh Hd) as [_ ->].
  apply elem_of_concat in Hin as (fr & Hfr & Hin).
  apply list_elem_of_fmap in Hfr as (l & -> & Hl).
  rewrite Forall_forall in Hfresh. destruct (Hfresh l Hl) as (s & Hs & Hnone).
  unfold entry in Hin. rewrite Hs, Hnone in Hin.
  apply list_elem_of_fmap in Hin as (r' & [= -> ->] & Hr).
  apply elem_of_matching in Hr as (? & ? & ? & ? & ?).
  repeat split; try done. by exists l, s.
Qed.

Lemma get_scrip_rows_are_cash_rows_witness :
  masters reliance_world !! 0 = Some {| data := nse_rows |} ∧
  Forall (λ l, ∃ s, stocks reliance_world !! l = Some s ∧ scrip s = None) [0] ∧
  (get_scrip 0 [0] reliance_world).1 = Ret [("RELIANCE", equity "RELIANCE" 2885 "EQ")] ∧
  (Series (equity "RELIANCE" 2885 "EQ") = "EQ" ∨ Series (equity "RELIANCE" 2885 "EQ") = "XX").
Proof.
  assert (Forall (λ l, ∃ s, stocks reliance_world !! l = Some s ∧ scrip s = None) [0])
    as Hfresh.
  { repeat constructor. by exists (new_stock "RELIANCE" "N" "C"). }
  split; [reflexivity|]. split; [exact Hfresh|]. split; [reflexivity|].
  destruct (get_scrip_rows_are_cash_rows 0 {| data := nse_rows |} [0] reliance_world
              _ eq_refl Hfresh eq_refl "RELIANCE" (equity "RELIANCE" 2885 "EQ"))
    as (_ & _ & Hseries & _); [constructor|exact Hseries].
Defined.

(** *** The broker code that [download_historical_data] looks up *)

Lemma filter_label_rows (rows : list Row) x sym :
  Forall (λ r, Name r = x) rows →
  filter (λ p : string * Row, p.1 = sym) (set_index_Name rows)
    = if decide (x = sym) then set_index_Name rows else [].
Proof.
  unfold set_index_Name, ScripFrame.
  induction 1 as [|r rs Hr _ IH]; [by destruct (decide _)|].
  rewrite fmap_cons, filter_cons, IH. cbn [fst]. rewrite Hr.
  by destruct (decide (x = sym)).
Qed.

Lemma filter_label_entry m s sym :
  (∀ r, r ∈ data m → Name r = Symbol r) →
  filter (λ p : string * Row, p.1 = sym) (set_index_Name (matching m s))
    = if decide (symbol s = sym) then set_index_Name (matching m s) else [].
Proof.
  intros Hinv. apply filter_label_rows.
  apply Forall_forall. intros r Hr. apply elem_of_matching in Hr as (Hd & _ & _ & Hsym & _).
  by rewrite (Hinv r Hd).
Qed.

Lemma filter_label_others m (h : gmap loc Stock) sym ls :
  (∀ r, r ∈ data m → Name r = Symbol r) →
  Forall (λ l, ∃ s, h !! l = Some s ∧ scrip s = None ∧ symbol s ≠ sym) ls →
  filter (λ p : string * Row, p.1 = sym) (concat (entry m h <$> ls)) = [].
Proof.
  intros Hinv. induction 1 as [|l ls (s & Hs & Hnone & Hne) _ IH]; [done|].
  pose proof (filter_label_entry m s sym Hinv) as Hfl.
  cbn. unfold entry at 1. rewrite Hs, Hnone.
  unfold ScripFrame in *. rewrite filter_app, IH, app_nil_r, Hfl.
  by destruct (decide (symbol s = sym)).
Qed.

(** X6.  On a table whose rows have equal Name and Symbol, as [__init__]
    builds it, and for stocks that all lacked a scrip: when the symbol of a
    listed stock is no other listed stock's symbol and exactly one row
    matches the stock, the lookup [scrip.loc[symbol, "Scripcode"]] in the
    frame that [get_scrip] returned gives that row's broker code, as a
    scalar. *)
Theorem loc_Scripcode_of_unique_symbol self m pre l post w d s r :
  masters w !! self = Some m →
  (∀ r, r ∈ data m → Name r = Symbol r) →
  Forall (λ l', ∃ s', stocks w !! l' = Some s' ∧ scrip s' = None ∧ symbol s' ≠ symbol s)
    (pre ++ post) →
  stocks w !! l = Some s → scrip s = None →
  matching m s = [r] →
  (get_scrip self (pre ++ l :: post) w).1 = Ret d →
  loc_Scripcode d (symbol s) = Ret (JNum (Scripcode r)).
Proof.
  intros Hm Hinv Hothers Hs Hnone Hr Hd.
  apply Forall_app in Hothers as [Hpre Hpost].
  assert (Forall (λ l, ∃ s, stocks w !! l = Some s ∧ scrip s = None) (pre ++ l :: post))
    as Hfresh.
  { apply Forall_app. split; [|constructor; [by exists s|]].
    - eapply Forall_impl; [exact Hpre|]. intros l' (s' & ? & ? & _). by exists s'.
    - eapply Forall_impl; [exact Hpost|]. intros l' (s' & ? & ? & _). by exists s'. }
  destruct (get_scrip_fresh_result self m _ w d Hm Hfresh Hd) as [_ ->].
  pose proof (filter_label_others m (stocks w) (symbol s) pre Hinv Hpre) as Fpre.
  pose proof (filter_label_others m (stocks w) (symbol s) post Hinv Hpost) as Fpost.
  pose proof (filter_label_entry m s (symbol s) Hinv) as Fl.
  rewrite fmap_app, concat_app. cbn [fmap list_fmap concat].
  unfold entry at 2. rewrite Hs, Hnone.
  unfold loc_Scripcode, ScripFrame in *.
  rewrite !filter_app, Fpre, Fpost, Fl.
  destruct (decide (symbol s = symbol s)); [|done]. by rewrite Hr.
Qed.

Lemma loc_Scripcode_of_unique_symbol_witness :
  loc_Scripcode [("TCS", equity "TCS" 11536 "EQ");
                 ("RELIANCE", equity "RELIANCE" 2885 "EQ")] "RELIANCE"
    = Ret (JNum 2885).
Proof.
  refine (loc_Scripcode_of_unique_symbol 0 {| data := nse_rows |} [1] 0 [] reliance_tcs_world
            _ (new_stock "RELIANCE" "N" "C") (equity "RELIANCE" 2885 "EQ")
            eq_refl _ _ eq_refl eq_refl eq_refl eq_refl).
  - intros r Hr. unfold nse_rows in Hr. cbn in Hr.
    repeat (apply elem_of_cons in Hr as [->|Hr]; [reflexivity|]).
    by apply elem_of_nil in Hr.
  - repeat constructor. exists (new_stock "TCS" "N" "C").
    split; [reflexivity|]. split; [reflexivity|]. discriminate.
Defined.

Lemma loc_Scripcode_column (d : list (string * Row)) sym :
  2 ≤ length (filter (λ p : string * Row, p.1 = sym) d) →
  ∃ codes, loc_Scripcode d sym = Ret (JList codes) ∧ 2 ≤ length codes.
Proof.
  unfold loc_Scripcode, ScripFrame. intros Hlen.
  destruct (filter (λ p : string * Row, p.1 = sym) d) as [|p [|q ps]];
    [cbn in Hlen; lia..|].
  eexists. split; [reflexivity|]. cbn. lia.
Qed.

(** X7.  Under the same conditions on the table, when two places of the
    list hold stocks of one symbol (two exchanges, or one stock listed
    twice), the lookup of that symbol in the returned frame is not a single
    broker code: it yields a column of two or more codes. *)
Theorem loc_Scripcode_of_shared_symbol self m a l1 b l2 c w d s1 s2 :
  masters w !! self = Some m →
  (∀ r, r ∈ data m → Name r = Symbol r) →
  Forall (λ l, ∃ s, stocks w !! l = Some s ∧ scrip s = None) (a ++ l1 :: b ++ l2 :: c) →
  stocks w !! l1 = Some s1 → stocks w !! l2 = Some s2 →
  symbol s1 = symbol s2 →
  (get_scrip self (a ++ l1 :: b ++ l2 :: c) w).1 = Ret d →
  ∃ codes, loc_Scripcode d (symbol s1) = Ret (JList codes) ∧ 2 ≤ length codes.
Proof.
  intros Hm Hinv Hfresh Hs1 Hs2 Hsym Hd.
  destruct (get_scrip_fresh_result self m _ w d Hm Hfresh Hd) as [Hall ->].
  assert (∀ l s, l ∈ a ++ l1 :: b ++ l2 :: c → stocks w !! l = Some s →
                 symbol s = symbol s1 →
                 entry m (stocks w) l ≠ [] ∧
                 filter (λ p : string * Row, p.1 = symbol s1) (entry m (stocks w) l)
                   = entry m (stocks w) l) as Hentry.
  { intros l s Hin Hs Heq.
    rewrite Forall_forall in Hfresh. destruct (Hfresh l Hin) as (s' & Hs' & Hnone).
    assert (s' = s) as -> by congruence.
    rewrite Forall_forall in Hall. destruct (Hall l Hin) as (s' & Hs'' & Hres).
    assert (s' = s) as -> by congruence.
    destruct Hres as [[? ?]|Hres]; [congruence|].
    pose proof (filter_label_entry m s (symbol s1) Hinv) as Fl.
    unfold entry. rewrite Hs, Hnone. unfold ScripFrame in *. rewrite Fl.
    destruct (decide (symbol s = symbol s1)); [|done]. split; [|done].
    unfold set_index_Name. by destruct (matching m s). }
  destruct (Hentry l1 s1) as [Hne1 Hf1]; [|done|done|].
  { apply elem_of_app. right. by apply elem_of_cons; left. }
  destruct (Hentry l2 s2) as [Hne2 Hf2]; [|done|done|].
  { apply elem_of_app. right. apply elem_of_cons. right.
    apply elem_of_app. right. by apply elem_of_cons; left. }
  apply loc_Scripcode_column.
  rewrite fmap_app, concat_app. cbn [fmap list_fmap concat].
  rewrite fmap_app, concat_app. cbn [fmap list_fmap concat].
  unfold ScripFrame in *.
  rewrite !filter_app, Hf1, Hf2, !length_app.
  destruct (entry m (stocks w) l1); [done|].
  destruct (entry m (stocks w) l2); [done|]. cbn. lia.
Qed.

Lemma loc_Scripcode_of_shared_symbol_witness :
  (get_scrip 0 ([] ++ 0 :: [] ++ 1 :: []) two_exchange_world).1
    = Ret (set_index_Name two_exchange_rows) ∧
  ∃ codes, loc_Scripcode (set_index_Name two_exchange_rows) "RELIANCE"
             = Ret (JList codes) ∧ 2 ≤ length codes.
Proof.
  split; [reflexivity|].
  apply (loc_Scripcode_of_shared_symbol 0 {| data := two_exchange_rows |}
           [] 0 [] 1 [] two_exchange_world (set_index_Name two_exchange_rows)
           (new_stock "RELIANCE" "N" "C") (new_stock "RELIANCE" "B" "C")); try reflexivity.
  - intros r Hr. unfold two_exchange_rows in Hr. cbn in Hr.
    repeat (apply elem_of_cons in Hr as [->|Hr]; [reflexivity|]).
    by apply elem_of_nil in Hr.
  - repeat constructor; by eexists.
Defined.

End GetScripMore.

(** ** More about the client *)

Lemma scrip_master_get_scrip_abort self m pre l post s w :
  scrip_master (client w) = Some self →
  masters w !! self = Some m →
  Forall (resolvable m (stocks w)) pre →
  unresolvable m (stocks w) l s →
  ∃ w', scrip_master_get_scrip (pre ++ l :: post) w
          = (Raise (ValueError (no_scrip_msg (symbol s))), w') ∧
        trace w' = trace w.
Proof.
  intros Hsm Hm Hpre Hl.
  destruct (scrip_master_get_scrip_frame (pre ++ l :: post) w) as (_ & _ & Ht).
  revert Ht. unfold scrip_master_get_scrip, bind, get_client. rewrite Hsm.
  destruct (loop_abort self m pre l post s [] w Hm Hpre Hl) as (w' & Hrun & _).
  rewrite get_scrip_unfold, Hrun. cbn. intros Ht. by exists w'.
Qed.

Lemma check_scrip_master_Some self w :
  scrip_master (client w) = Some self → check_scrip_master w = (Ret true, w).
Proof. intros Hsm. unfold check_scrip_master, bind, get_client, ret. by rewrite Hsm. Qed.

Section Client5paisaMore.

Context (X : Externals).

(** X8.  When the first stock of the list that cannot be resolved is
    reached, each of [download_historical_data], [get_market_depth],
    [get_market_feed] and [get_market_data] raises the ValueError of
    [get_scrip] naming that stock, and has issued no outside call: nothing
    is printed, requested, sent or saved for any stock of the list. *)
Theorem client_calls_abort_before_any_request
    self m pre l post s interval start end_ feed_type w :
  scrip_master (client w) = Some self →
  masters w !! self = Some m →
  Forall (resolvable m (stocks w)) pre →
  unresolvable m (stocks w) l s →
  ((download_historical_data X (pre ++ l :: post) interval start end_ w).1 = Raise (ValueError (no_scrip_msg (symbol s))) ∧
   trace (download_historical_data X (pre ++ l :: post) interval start end_ w).2 = trace w) ∧
  ((get_market_depth X (pre ++ l :: post) w).1 = Raise (ValueError (no_scrip_msg (symbol s))) ∧
   trace (get_market_depth X (pre ++ l :: post) w).2 = trace w) ∧
  ((get_market_feed X (pre ++ l :: post) w).1 = Raise (ValueError (no_scrip_msg (symbol s))) ∧
   trace (get_market_feed X (pre ++ l :: post) w).2 = trace w) ∧
  ((get_market_data X (pre ++ l :: post) feed_type w).1 = Raise (ValueError (no_scrip_msg (symbol s))) ∧
   trace (get_market_data X (pre ++ l :: post) feed_type w).2 = trace w).
Proof.
  intros Hsm Hm Hpre Hl.
  destruct (scrip_master_get_scrip_abort self m pre l post s w Hsm Hm Hpre Hl)
    as (w' & Hrun & Ht).
  repeat split.
  - unfold download_historical_data.
    rewrite (bind_Ret _ _ _ _ _ (check_scrip_master_Some self w Hsm)).
    by rewrite (bind_Raise _ _ _ _ _ Hrun).
  - unfold download_historical_data.
    rewrite (bind_Ret _ _ _ _ _ (check_scrip_master_Some self w Hsm)).
    by rewrite (bind_Raise _ _ _ _ _ Hrun).
  - unfold get_market_depth. by rewrite (bind_Raise _ _ _ _ _ Hrun).
  - unfold get_market_depth. by rewrite (bind_Raise _ _ _ _ _ Hrun).
  - unfold get_market_feed. by rewrite (bind_Raise _ _ _ _ _ Hrun).
  - unfold get_market_feed. by rewrite (bind_Raise _ _ _ _ _ Hrun).
  - unfold get_market_data. by rewrite (bind_Raise _ _ _ _ _ Hrun).
  - unfold get_market_data. by rewrite (bind_Raise _ _ _ _ _ Hrun).
Qed.

(** X9.  On the empty stock list, with a ScripMaster in place, each of the
    four calls raises the ValueError of [pd.concat] ("No objects to
    concatenate") and leaves the store as it was: no outside call is
    issued. *)
Theorem client_calls_on_empty_list self interval start end_ feed_type w :
  scrip_master (client w) = Some self →
  download_historical_data X [] interval start end_ w
    = (Raise (ValueError "No objects to concatenate"), w) ∧
  get_market_depth X [] w = (Raise (ValueError "No objects to concatenate"), w) ∧
  get_market_feed X [] w = (Raise (ValueError "No objects to concatenate"), w) ∧
  get_market_data X [] feed_type w = (Raise (ValueError "No objects to concatenate"), w).
Proof.
  intros Hsm.
  assert (scrip_master_get_scrip [] w
          = (Raise (ValueError "No objects to concatenate"), w)) as Hrun.
  { unfold scrip_master_get_scrip, bind, get_client. by rewrite Hsm. }
  repeat split.
  - unfold download_historical_data.
    rewrite (bind_Ret _ _ _ _ _ (check_scrip_master_Some self w Hsm)).
    by rewrite (bind_Raise _ _ _ _ _ Hrun).
  - unfold get_market_depth. by rewrite (bind_Raise _ _ _ _ _ Hrun).
  - unfold get_market_feed. by rewrite (bind_Raise _ _ _ _ _ Hrun).
  - unfold get_market_data. by rewrite (bind_Raise _ _ _ _ _ Hrun).
Qed.

(** *** [historical_data] *)

Lemma historical_data_unfold Exch ExchangeSegment ScripCode time From To w :
  historical_data X Exch ExchangeSegment ScripCode time From To w =
    let c := with_auth_headers (client w) in
    let url := HISTORICAL_DATA_ROUTE c +:+ Exch +:+ "/" +:+ ExchangeSegment +:+ "/"
               +:+ py_str X ScripCode +:+ "/" +:+ time +:+ "?from=" +:+ From
               +:+ "&end=" +:+ To in
    if decide (time ∉ timeList) then (Ret (inl invalid_time_frame), with_client c w)
    else
      match answer X (trace w) (HttpGet url (jwt_headers c)) with
      | Raise e => (Raise e, with_trace (trace w ++ [HttpGet url (jwt_headers c)])
                               (with_client c w))
      | Ret response =>
          ((let* d := lift (getitem response "data") in
            let* candleList := lift (getitem d "candles") in
            let* cl := lift (DataFrame X candleList) in
            let* rows := lift (candle_frame cl) in
            let* dt := lift (to_datetime_col X
                               ((λ r, default JNull (assoc "Datetime" r)) <$> rows)) in
            ret (inr (JDict <$> set_column "Datetime" dt rows)))
             (with_trace (trace w ++ [HttpGet url (jwt_headers c)]) (with_client c w)))
      end.
Proof.
  unfold historical_data, bind, get_client, update_client, ret, call. cbn.
  destruct (decide (time ∉ timeList)); [done|].
  by destruct (answer X _ _).
Qed.

(** X10.  [historical_data] writes the client code and the token into the
    client's headers whether the time granularity is valid or not.  For a
    valid granularity it issues exactly one outside call, the GET of the
    candle URL built from its arguments with those headers, whatever comes
    back and whatever becomes of it. *)
Theorem historical_data_requests_once Exch ExchangeSegment ScripCode time From To w :
  client (historical_data X Exch ExchangeSegment ScripCode time From To w).2
    = with_auth_headers (client w) ∧
  jwt_headers (with_auth_headers (client w)) !! "x-clientcode"
    = Some (client_code (client w)) ∧
  jwt_headers (with_auth_headers (client w)) !! "x-auth-token"
    = Some (Jwt_token (client w)) ∧
  (time ∈ timeList →
   trace (historical_data X Exch ExchangeSegment ScripCode time From To w).2
     = trace w ++
       [HttpGet (HISTORICAL_DATA_ROUTE (client w) +:+ Exch +:+ "/" +:+ ExchangeSegment
                 +:+ "/" +:+ py_str X ScripCode +:+ "/" +:+ time +:+ "?from=" +:+ From
                 +:+ "&end=" +:+ To)
          (jwt_headers (with_auth_headers (client w)))]).
Proof.
  rewrite historical_data_unfold. cbn zeta.
  split; [|split; [|split]].
  - destruct (decide (time ∉ timeList)); [done|].
    destruct (answer X _ _) as [resp|e]; [|done].
    unfold bind, lift, ret.
    destruct (getitem resp "data") as [d|]; [|done].
    destruct (getitem d "candles") as [cl|]; [|done].
    destruct (DataFrame X cl) as [cs|]; [|done].
    destruct (candle_frame cs) as [rows|]; [|done].
    by destruct (to_datetime_col X _).
  - cbn. rewrite lookup_insert_ne by done. by rewrite lookup_insert_eq.
  - cbn. by rewrite lookup_insert_eq.
  - intros Hin. destruct (decide (time ∉ timeList)); [done|].
    destruct (answer X _ _) as [resp|e]; [|done].
    unfold bind, lift, ret.
    destruct (getitem resp "data") as [d|]; [|done].
    destruct (getitem d "candles") as [cl|]; [|done].
    destruct (DataFrame X cl) as [cs|]; [|done].
    destruct (candle_frame cs) as [rows|]; [|done].
    by destruct (to_datetime_col X _).
Qed.

(** *** [ScripMaster.__init__], when it fails *)

Lemma mapM_Raise_inv {A B} (f : A → outcome B) (xs : list A) e :
  mapM f xs = Raise e → ∃ a, a ∈ xs ∧ f a = Raise e.
Proof.
  induction xs as [|a0 xs IH]; cbn; [done|].
  destruct (f a0) as [b|e0] eqn:Hf.
  - destruct (mapM f xs) as [bs|e1]; [done|]. intros [= ->].
    destruct (IH eq_refl) as (a & Ha & Hfa). exists a. split; [|done].
    by apply elem_of_cons; right.
  - intros [= ->]. exists a0. split; [|done]. by apply elem_of_cons; left.
Qed.

(** X11.  [ScripMaster.__init__] reads once, from the given path with the
    first column as index, or from the fixed URL when no path is given, and
    touches neither the stocks nor the client.  When the read fails, its
    exception comes out.  When the read delivers rows, construction returns
    exactly when every Name is a string and every Expiry cell is empty or
    parses; an Expiry cell that does not parse gives a ValueError, also when
    Names are missing as well, and a missing Name alone gives a TypeError.
    When construction raises, no ScripMaster has been added to the store. *)
Theorem ScripMaster_init_outcome filepath w :
  trace (ScripMaster_init X filepath w).2
    = trace w ++ [ReadCsv (default scripmaster_url filepath)
                    (bool_decide (is_Some filepath))] ∧
  stocks (ScripMaster_init X filepath w).2 = stocks w ∧
  client (ScripMaster_init X filepath w).2 = client w ∧
  (is_Raise (ScripMaster_init X filepath w).1 →
   masters (ScripMaster_init X filepath w).2 = masters w) ∧
  (∀ e, read_csv_answer X (trace w) (default scripmaster_url filepath)
          (bool_decide (is_Some filepath)) = Raise e →
        (ScripMaster_init X filepath w).1 = Raise e) ∧
  (∀ raw, read_csv_answer X (trace w) (default scripmaster_url filepath)
            (bool_decide (is_Some filepath)) = Ret raw →
     (is_Ret (ScripMaster_init X filepath w).1 ↔
        Forall (λ r, is_Some (raw_Name r) ∧
                     ∀ c, raw_Expiry r = Some c → is_Some (to_datetime X c)) raw) ∧
     (Exists (λ r, ∃ c, raw_Expiry r = Some c ∧ to_datetime X c = None) raw →
        ∃ msg, (ScripMaster_init X filepath w).1 = Raise (ValueError msg)) ∧
     (Forall (λ r, ∀ c, raw_Expiry r = Some c → is_Some (to_datetime X c)) raw →
      Exists (λ r, raw_Name r = None) raw →
        ∃ msg, (ScripMaster_init X filepath w).1 = Raise (TypeError msg))).
Proof.
  set (src := default scripmaster_url filepath).
  set (idx := bool_decide (is_Some filepath)).
  assert (ScripMaster_init X filepath w =
          match read_csv_answer X (trace w) src idx with
          | Raise e => (Raise e, with_trace (trace w ++ [ReadCsv src idx]) w)
          | Ret raw =>
              match normalise X raw with
              | Raise e => (Raise e, with_trace (trace w ++ [ReadCsv src idx]) w)
              | Ret d =>
                  new_master {| data := d |} (with_trace (trace w ++ [ReadCsv src idx]) w)
              end
          end) as ->.
  { unfold ScripMaster_init, bind, lift, read_csv, src, idx.
    destruct filepath as [p|]; cbn;
      (destruct (read_csv_answer X _ _ _) as [raw|e]; [|done]);
      by destruct (normalise X raw). }
  destruct (read_csv_answer X (trace w) src idx) as [raw|e0] eqn:Hread.
  2:{ repeat split; try done. by intros e [= ->]. }
  assert (∀ e, normalise X raw = Raise e →
            (∃ r c, r ∈ raw ∧ raw_Expiry r = Some c ∧ to_datetime X c = None ∧
                    ∃ msg, e = ValueError msg) ∨
            (∃ r, r ∈ raw ∧ raw_Name r = None ∧ ∃ msg, e = TypeError msg)) as Hwhy.
  { intros e. unfold normalise.
    destruct (mapM (Expiry_cell X) (raw_Expiry <$> raw)) as [expiry|e1] eqn:He.
    - destruct (mapM Name_cell (raw_Name <$> raw)) as [name|e2] eqn:Hn; [done|].
      intros [= ->]. right.
      apply mapM_Raise_inv in Hn as (c & Hc & Hcell).
      apply list_elem_of_fmap in Hc as (r & -> & Hr). exists r. split; [done|].
      unfold Name_cell in Hcell. destruct (raw_Name r); [done|].
      split; [done|]. injection Hcell as <-. by eexists.
    - intros [= ->]. left.
      apply mapM_Raise_inv in He as (c & Hc & Hcell).
      apply list_elem_of_fmap in Hc as (r & -> & Hr).
      unfold Expiry_cell in Hcell. destruct (raw_Expiry r) as [x|] eqn:Hx; [|done].
      destruct (to_datetime X x) eqn:Hp; [done|]. injection Hcell as <-.
      exists r, x. repeat split; try done. by eexists. }
  split; [by destruct (normalise X raw)|].
  split; [by destruct (normalise X raw)|].
  split; [by destruct (normalise X raw)|].
  split.
  { destruct (normalise X raw); [|done]. intros [e He]. cbn in He. done. }
  split; [done|].
  intros raw' [= <-]. split; [|split].
  - split.
    + intros [self Hself]. destruct (normalise X raw) as [d|e] eqn:Hd; [|done].
      apply normalise_Ret in Hd as [_ Hrows]. apply Forall_forall. intros r Hr.
      apply list_elem_of_lookup in Hr as [i Hi].
      destruct (Hrows i r Hi) as (r' & n & _ & Hn & _ & _ & He & Hsome & _).
      split; [by eexists|]. intros c Hc. destruct Hsome as [?|Hsome]; [congruence|].
      rewrite He, Hc in Hsome. done.
    + intros Hok. destruct (normalise_total X raw Hok) as [d ->]. by eexists.
  - intros Hbad. unfold normalise.
    destruct (mapM (Expiry_cell X) (raw_Expiry <$> raw)) as [expiry|e1] eqn:He.
    + exfalso. apply mapM_Ret_inv in He.
      apply Exists_exists in Hbad as (r & Hr & c & Hc & Hp).
      apply list_elem_of_lookup in Hr as [i Hi].
      eapply Forall2_lookup_l in He as (y & _ & Hcell);
        [|by rewrite list_lookup_fmap, Hi].
      cbn in Hcell. unfold Expiry_cell in Hcell. by rewrite Hc, Hp in Hcell.
    + apply mapM_Raise_inv in He as (c & Hc & Hcell).
      unfold Expiry_cell in Hcell. destruct c as [x|]; [|done].
      destruct (to_datetime X x); [done|]. injection Hcell as <-. by eexists.
  - intros Hexp Hbad. destruct (normalise X raw) as [d|e] eqn:Hd.
    + exfalso. apply normalise_Ret in Hd as [_ Hrows].
      apply Exists_exists in Hbad as (r & Hr & Hnone).
      apply list_elem_of_lookup in Hr as [i Hi].
      destruct (Hrows i r Hi) as (r' & n & _ & Hn & _). congruence.
    + destruct (Hwhy e eq_refl) as [(r & c & Hr & Hc & Hp & _)|(r & _ & _ & msg & ->)].
      * rewrite Forall_forall in Hexp. destruct (Hexp r Hr c Hc) as [? ?]. congruence.
      * by eexists.
Qed.

(** *** [get_option_chain], when the fetch fails *)

Lemma option_expiry_frame underlying w :
  (option_expiry X underlying w).2
    = with_trace (trace w ++ [get_expiry underlying]) w.
Proof.
  unfold option_expiry, bind, lift, call. cbn.
  destruct (answer X _ _) as [resp|]; [|done]. cbn.
  destruct (getitem resp "Expiry") as [e|]; [|done]. cbn.
  destruct (DataFrame X e) as [rows|]; [|done]. cbn.
  destruct (has_column "ExpiryDate" rows); [|done].
  by destruct (mapM (expiry_row X) rows).
Qed.

Lemma fetch_option_chain_unfold stock expiry_date w :
  fetch_option_chain X stock expiry_date w =
    match as_date X expiry_date with
    | None => (Raise (ValueError "time data does not match format '%Y-%m-%d'"), w)
    | Some d =>
        let w1 := with_trace (trace w ++ [get_expiry "NIFTY"]) w in
        match (option_expiry X "NIFTY" w).1 with
        | Raise e => (Raise e, w1)
        | Ret d1 =>
            match filter (λ r, Date r = d) d1 with
            | [] => (Raise (IndexError "single positional indexer is out-of-bounds"), w1)
            | r :: _ =>
                match stocks w !! stock with
                | None => (Raise (AttributeError "not a Stock"), w1)
                | Some s =>
                    let req := super_get_option_chain (exchange s) (symbol s) (Timestamp r) in
                    let w2 := with_trace (trace w1 ++ [req]) w1 in
                    match answer X (trace w1) req with
                    | Raise e => (Raise e, w2)
                    | Ret resp =>
                        match getitem resp "Options" with
                        | Raise e => (Raise e, w2)
                        | Ret opts =>
                            match DataFrame X opts with
                            | Raise e => (Raise e, w2)
                            | Ret t =>
                                (Ret t,
                                 with_stocks (<[stock := set_option_chain t s]> (stocks w)) w2)
                            end
                        end
                    end
                end
            end
        end
    end.
Proof.
  unfold fetch_option_chain. destruct (as_date X expiry_date) as [d|]; [|done].
  rewrite (bind_Ret _ _ w d w) by done.
  unfold get_weekly_option_expiry.
  pose proof (option_expiry_frame "NIFTY" w) as Hw1.
  destruct (option_expiry X "NIFTY" w) as [[d1|e] w1] eqn:Hexp; cbn in Hw1; subst w1.
  2:{ by rewrite (bind_Raise _ _ _ _ _ Hexp). }
  rewrite (bind_Ret _ _ _ _ _ Hexp). cbn zeta. cbn [fst].
  destruct (filter (λ r, Date r = d) d1) as [|r rest]; [reflexivity|].
  unfold bind, ret, stock_attr, stock_update, lift, call. cbn.
  destruct (stocks w !! stock) as [s|] eqn:Hs; [|done]. cbn. rewrite ?Hs. cbn.
  destruct (answer X _ _) as [resp|]; [|done]. cbn.
  destruct (getitem resp "Options") as [opts|]; [|done]. cbn.
  destruct (DataFrame X opts); [|done]. cbn. by rewrite Hs.
Qed.

Lemma get_option_chain_unfold stock expiry_date update w :
  get_option_chain X stock expiry_date update w =
    if update then fetch_option_chain X stock expiry_date w
    else match stocks w !! stock with
         | Some s =>
             match option_chain s with
             | Some t => (Ret t, w)
             | None => fetch_option_chain X stock expiry_date w
             end
         | None => fetch_option_chain X stock expiry_date w
         end.
Proof.
  unfold get_option_chain, try_except, stock_opt_attr, raise. destruct update; [done|].
  destruct (stocks w !! stock) as [s|]; [|done]. by destruct (option_chain s).
Qed.

(** X12.  A call of [get_option_chain] that raises has changed no stock (a
    chain cached earlier is still there), no ScripMaster and not the client.
    A date string that does not parse raises a ValueError before any request,
    also with [update=True].  When the broker's expiry list is empty, or no
    entry of it has an ExpiryDate, the call raises KeyError('ExpiryDate')
    after the expiry list was requested.  When the list has entries and the
    date is not among them, it raises an IndexError after the expiry list was
    requested.  In both cases the option chain itself is never requested. *)
Theorem get_option_chain_failure stock expiry_date update w :
  (is_Raise (get_option_chain X stock expiry_date update w).1 →
   stocks (get_option_chain X stock expiry_date update w).2 = stocks w ∧
   masters (get_option_chain X stock expiry_date update w).2 = masters w ∧
   client (get_option_chain X stock expiry_date update w).2 = client w) ∧
  (update = true ∨ (∀ s, stocks w !! stock = Some s → option_chain s = None) →
   as_date X expiry_date = None →
   ∃ msg, get_option_chain X stock expiry_date update w = (Raise (ValueError msg), w)) ∧
  (∀ d resp e rows,
     update = true ∨ (∀ s, stocks w !! stock = Some s → option_chain s = None) →
     as_date X expiry_date = Some d →
     answer X (trace w) (get_expiry "NIFTY") = Ret resp →
     getitem resp "Expiry" = Ret e →
     DataFrame X e = Ret rows →
     has_column "ExpiryDate" rows = false →
     (get_option_chain X stock expiry_date update w).1 = Raise (KeyError "ExpiryDate") ∧
     trace (get_option_chain X stock expiry_date update w).2
       = trace w ++ [get_expiry "NIFTY"]) ∧
  (∀ d resp e rows erows,
     update = true ∨ (∀ s, stocks w !! stock = Some s → option_chain s = None) →
     as_date X expiry_date = Some d →
     answer X (trace w) (get_expiry "NIFTY") = Ret resp →
     getitem resp "Expiry" = Ret e →
     DataFrame X e = Ret rows →
     mapM (expiry_row X) rows = Ret erows →
     erows ≠ [] →
     Forall (λ r, Date r ≠ d) erows →
     ∃ msg, (get_option_chain X stock expiry_date update w).1 = Raise (IndexError msg) ∧
            trace (get_option_chain X stock expiry_date update w).2
              = trace w ++ [get_expiry "NIFTY"]).
Proof.
  assert (update = true ∨ (∀ s, stocks w !! stock = Some s → option_chain s = None) →
          get_option_chain X stock expiry_date update w
            = fetch_option_chain X stock expiry_date w) as Hfetch.
  { intros Hwhy. rewrite get_option_chain_unfold. destruct update; [done|].
    destruct Hwhy as [?|Hnone]; [done|].
    destruct (stocks w !! stock) as [s|] eqn:Hs; [|done]. by rewrite (Hnone s eq_refl). }
  split; [|split; [|split]].
  - assert (is_Raise (fetch_option_chain X stock expiry_date w).1 →
            stocks (fetch_option_chain X stock expiry_date w).2 = stocks w ∧
            masters (fetch_option_chain X stock expiry_date w).2 = masters w ∧
            client (fetch_option_chain X stock expiry_date w).2 = client w) as Hf.
    { rewrite fetch_option_chain_unfold.
      destruct (as_date X expiry_date) as [d|]; [|done]. cbn zeta.
      destruct (option_expiry X "NIFTY" w).1 as [d1|]; [|done].
      destruct (filter (λ r, Date r = d) d1) as [|r rest]; [done|].
      destruct (stocks w !! stock) as [s|]; [|done].
      destruct (answer X _ _) as [resp|]; [|done].
      destruct (getitem resp "Options") as [opts|]; [|done].
      destruct (DataFrame X opts) as [t|]; [|done].
      intros [e He]. done. }
    rewrite get_option_chain_unfold. destruct update; [exact Hf|].
    destruct (stocks w !! stock) as [s|]; [|exact Hf].
    destruct (option_chain s) as [t|]; [|exact Hf]. intros [e He]. done.
  - intros Hwhy Hdate. rewrite (Hfetch Hwhy), fetch_option_chain_unfold, Hdate.
    by eexists.
  - intros d resp e rows Hwhy Hdate Hresp He Hrows Hcol.
    rewrite (Hfetch Hwhy), fetch_option_chain_unfold, Hdate. cbn zeta.
    assert ((option_expiry X "NIFTY" w).1 = Raise (KeyError "ExpiryDate")) as ->.
    { unfold option_expiry, bind, lift, call, raise. cbn. rewrite Hresp. cbn.
      rewrite He. cbn. rewrite Hrows. cbn. by rewrite Hcol. }
    done.
  - intros d resp e rows erows Hwhy Hdate Hresp He Hrows Herows Hsome Hnone.
    rewrite (Hfetch Hwhy), fetch_option_chain_unfold, Hdate. cbn zeta.
    assert ((option_expiry X "NIFTY" w).1 = Ret erows) as ->.
    { unfold option_expiry, bind, lift, call. cbn. rewrite Hresp. cbn.
      rewrite He. cbn. rewrite Hrows. cbn.
      rewrite (expiry_rows_have_column X rows erows Herows Hsome). by rewrite Herows. }
    assert (filter (λ r, Date r = d) erows = []) as ->.
    { clear Herows Hsome. induction Hnone as [|r rs Hr _ IH]; [done|].
      rewrite filter_cons. by destruct (decide (Date r = d)). }
    by eexists.
Qed.

(** *** The time stamp of an expiry *)

Lemma contains_app c a b :
  PyStr.contains c (a +:+ b) = PyStr.contains c a || PyStr.contains c b.
Proof.
  induction a as [|x a IH]; [done|]. simpl. by rewrite IH, orb_assoc.
Qed.

Lemma before_first_app c a b :
  PyStr.contains c a = false → PyStr.before_first c (a +:+ String c b) = a.
Proof.
  induction a as [|x a IH]; simpl.
  - by rewrite Ascii.eqb_refl.
  - intros [Hx Ha]%orb_false_iff. by rewrite Hx, IH.
Qed.

Lemma contains_middle c a b : PyStr.contains c (a +:+ String c b) = true.
Proof.
  rewrite contains_app. simpl. rewrite Ascii.eqb_refl. simpl. apply orb_true_r.
Qed.

Lemma after_last_app c a b :
  PyStr.contains c b = false → PyStr.after_last c (a +:+ String c b) = b.
Proof.
  intros Hb. induction a as [|x a IH]; simpl.
  - by rewrite Hb, Ascii.eqb_refl.
  - by rewrite contains_middle.
Qed.

Lemma str_app_assoc (a b c : string) : (a +:+ b) +:+ c = a +:+ b +:+ c.
Proof.
  induction a as [|x a IH]; [done|].
  change (String x ((a +:+ b) +:+ c) = String x (a +:+ b +:+ c)). by f_equal.
Qed.

(** X13.  For an expiry text of the broker's form, some text, an opening
    parenthesis, the number, a plus sign and the rest (as in
    "/Date(1680172200000+0530)/"), with no plus sign before the one after
    the number and no parenthesis inside the number, the row gets as
    Timestamp the integer value of exactly the number, and as Date the date
    of that time stamp divided by 1000, rounded down. *)
Theorem expiry_row_reads_timestamp v pre num post ts :
  getitem v "ExpiryDate" = Ret (JStr (pre +:+ String "(" (num +:+ String "+" post))) →
  PyStr.contains "+" pre = false →
  PyStr.contains "+" num = false →
  PyStr.contains "(" num = false →
  py_int X num = Some ts →
  expiry_row X v
    = Ret {| ExpiryDate := pre +:+ String "(" (num +:+ String "+" post);
             Timestamp := ts;
             Date := date_fromtimestamp X (ts / 1000) |}.
Proof.
  intros Hget Hpre Hnum Hparen Hint. unfold expiry_row. rewrite Hget.
  assert (pre +:+ String "(" (num +:+ String "+" post)
          = (pre +:+ String "(" num) +:+ String "+" post) as Hsplit.
  { by rewrite str_app_assoc. }
  rewrite Hsplit at 1.
  rewrite before_first_app.
  2:{ rewrite contains_app. cbn. by rewrite Hpre, Hnum. }
  rewrite after_last_app by done. by rewrite Hint.
Qed.

(** *** Reading the feed *)

Lemma recv_loop_S n pre post d1 w :
  recv_loop X (S n) pre post d1 w =
    match answer X (trace w) WsRecv with
    | Ret (JStr m) =>
        recv_loop X n pre post (d1 +:+ pre +:+ PyStr.strip_ends m +:+ post)
          (with_trace (trace w ++ [WsRecv]) w)
    | Ret _ => (Raise (TypeError "object is not subscriptable"),
                with_trace (trace w ++ [WsRecv]) w)
    | Raise e => (Raise e, with_trace (trace w ++ [WsRecv]) w)
    end.
Proof.
  cbn [recv_loop]. unfold bind, recv_stripped, bind, call, ret, raise.
  destruct (answer X (trace w) WsRecv) as [[]|]; done.
Qed.

Lemma replicate_S_snoc {A} (x : A) (t : list A) n :
  t ++ replicate (S n) x = (t ++ [x]) ++ replicate n x.
Proof. by rewrite <- app_assoc. Qed.

(** The loop when every message arrives. *)
Lemma recv_loop_run msgs pre post d1 w :
  (∀ i m, msgs !! i = Some m →
          answer X (trace w ++ replicate i WsRecv) WsRecv = Ret (JStr m)) →
  recv_loop X (length msgs) pre post d1 w
    = (Ret (d1 +:+ fragments pre post msgs),
       with_trace (trace w ++ replicate (length msgs) WsRecv) w).
Proof.
  revert d1 w. induction msgs as [|m msgs IH]; intros d1 w Hans.
  - cbn. unfold ret. f_equal.
    + f_equal. induction d1 as [|x d1 IHd]; [done|].
      change (String x d1 = String x (d1 +:+ "")). by f_equal.
    + destruct w. unfold with_trace. cbn. by rewrite app_nil_r.
  - cbn [length]. rewrite recv_loop_S.
    pose proof (Hans 0 m eq_refl) as H0. cbn in H0. rewrite app_nil_r in H0. rewrite H0.
    rewrite IH.
    + cbn [fragments foldr]. fold (fragments pre post msgs).
      f_equal.
      * f_equal. by rewrite !str_app_assoc.
      * unfold with_trace. cbn. by rewrite <- app_assoc.
    + intros i m' Hi. cbn [trace with_trace]. rewrite <- replicate_S_snoc.
      by apply (Hans (S i)).
Qed.

(** The loop when a message fails to arrive after [msgs] did. *)
Lemma recv_loop_fail msgs n pre post d1 w e :
  (∀ i m, msgs !! i = Some m →
          answer X (trace w ++ replicate i WsRecv) WsRecv = Ret (JStr m)) →
  answer X (trace w ++ replicate (length msgs) WsRecv) WsRecv = Raise e →
  length msgs < n →
  recv_loop X n pre post d1 w
    = (Raise e, with_trace (trace w ++ replicate (S (length msgs)) WsRecv) w).
Proof.
  revert n d1 w. induction msgs as [|m msgs IH]; intros n d1 w Hans Hfail Hlt.
  - destruct n as [|n]; [cbn in Hlt; lia|]. rewrite recv_loop_S.
    cbn in Hfail. rewrite app_nil_r in Hfail. by rewrite Hfail.
  - destruct n as [|n]; [cbn in Hlt; lia|]. rewrite recv_loop_S.
    pose proof (Hans 0 m eq_refl) as H0. cbn in H0. rewrite app_nil_r in H0. rewrite H0.
    rewrite (IH n).
    + f_equal. unfold with_trace. cbn. by rewrite <- app_assoc.
    + intros i m' Hi. cbn [trace with_trace]. rewrite <- replicate_S_snoc.
      by apply (Hans (S i)).
    + cbn [trace with_trace]. rewrite <- replicate_S_snoc. exact Hfail.
    + cbn in Hlt. lia.
Qed.

(** [get_market_data] up to the point where it starts to read. *)
Lemma get_market_data_subscribed stocklist feed_type w a w1 mf_list h r1 :
  scrip_master_get_scrip stocklist w = (Ret a, w1) →
  answer X (trace w) (Request_Feed feed_type a) = Ret mf_list →
  answer X (trace w ++ [Request_Feed feed_type a]) (WsConnect (web_url1 (client w)))
    = Ret h →
  answer X (trace w ++ [Request_Feed feed_type a; WsConnect (web_url1 (client w))])
    (WsSend (json_dumps X mf_list)) = Ret r1 →
  get_market_data X stocklist feed_type w =
    (let* d1 := if decide (feed_type = "md") then
                  let* feeds := lift (getitem mf_list "MarketFeedData") in
                  let* n := lift (iterations feeds) in
                  recv_loop X n ",{" "}" ""
                else ret "" in
     let* d1 := if decide (feed_type = "mf") then
                  let* feeds := lift (getitem mf_list "MarketFeedData") in
                  let* n := lift (iterations feeds) in
                  recv_loop X n "," "" d1
                else ret d1 in
     call X WsClose >>
     let* v := lift (json_loads X ("[" +:+ PyStr.drop_first d1 +:+ "]")) in
     lift (DataFrame X v))
      (with_client (set_ws_feed h (client w))
         (with_trace (trace w ++ subscription X (client w) feed_type a mf_list) w1)).
Proof.
  intros Hscrip Hreq Hconn Hsend.
  destruct (scrip_master_get_scrip_frame stocklist w) as (_ & Hc & Ht).
  rewrite Hscrip in Hc, Ht. cbn in Hc, Ht.
  unfold get_market_data.
  erewrite bind_Ret by exact Hscrip.
  erewrite bind_Ret by (rewrite call_eq, Ht, Hreq; reflexivity).
  erewrite bind_Ret by reflexivity. cbn [client with_trace]. rewrite Hc.
  erewrite bind_Ret by (rewrite call_eq; cbn [trace with_trace]; rewrite Hconn; reflexivity).
  erewrite bind_Ret by reflexivity.
  erewrite bind_Ret.
  2:{ rewrite call_eq. cbn. rewrite <- app_assoc. cbn. rewrite Hsend. reflexivity. }
  unfold subscription, with_client, with_trace. cbn.
  rewrite Hc. by rewrite <- !app_assoc.
Qed.

(** X14.  For feed type "md" or "mf", after the subscription is sent
    [get_market_data] reads exactly one message for each entry of the
    request's MarketFeedData, then closes the connection.  What it parses is
    "[", the messages in order, each without its first and last character
    (wrapped in braces for "md") and separated by commas, and "]". *)
Theorem get_market_data_reads_one_message_each
    stocklist feed_type w a w1 mf_list h r1 feeds msgs r2 v t :
  feed_type = "md" ∨ feed_type = "mf" →
  scrip_master_get_scrip stocklist w = (Ret a, w1) →
  answer X (trace w) (Request_Feed feed_type a) = Ret mf_list →
  answer X (trace w ++ [Request_Feed feed_type a]) (WsConnect (web_url1 (client w)))
    = Ret h →
  answer X (trace w ++ [Request_Feed feed_type a; WsConnect (web_url1 (client w))])
    (WsSend (json_dumps X mf_list)) = Ret r1 →
  getitem mf_list "MarketFeedData" = Ret (JList feeds) →
  length msgs = length feeds →
  (∀ i m, msgs !! i = Some m →
     answer X ((trace w ++ subscription X (client w) feed_type a mf_list)
               ++ replicate i WsRecv) WsRecv = Ret (JStr m)) →
  answer X ((trace w ++ subscription X (client w) feed_type a mf_list)
            ++ replicate (length feeds) WsRecv) WsClose = Ret r2 →
  json_loads X ("[" +:+ PyStr.drop_first
                  (fragments (feed_affixes feed_type).1 (feed_affixes feed_type).2 msgs)
                +:+ "]") = Ret v →
  DataFrame X v = Ret t →
  (get_market_data X stocklist feed_type w).1 = Ret t ∧
  trace (get_market_data X stocklist feed_type w).2
    = (trace w ++ subscription X (client w) feed_type a mf_list)
      ++ replicate (length feeds) WsRecv ++ [WsClose].
Proof.
  intros Hft Hscrip Hreq Hconn Hsend Hfeeds Hlen Hmsgs Hclose Hloads Hframe.
  rewrite (get_market_data_subscribed _ _ _ _ _ _ _ _ Hscrip Hreq Hconn Hsend).
  set (w3 := with_client _ _).
  assert (trace w3 = trace w ++ subscription X (client w) feed_type a mf_list) as Ht3
    by done.
  assert (∀ pre post,
            recv_loop X (length feeds) pre post "" w3
            = (Ret (fragments pre post msgs),
               with_trace (trace w3 ++ replicate (length feeds) WsRecv) w3)) as Hloop.
  { intros pre post. rewrite <- Hlen. rewrite recv_loop_run; [done|].
    intros i m Hi. rewrite Ht3. by apply Hmsgs. }
  destruct Hft as [->| ->].
  - change (feed_affixes "md") with (",{", "}") in Hloads. cbn [fst snd] in Hloads.
    destruct (decide ("md" = "md")) as [_|?]; [|done].
    destruct (decide ("md" = "mf")) as [?|_]; [done|].
    erewrite bind_Ret.
    2:{ erewrite bind_Ret by (unfold lift; rewrite Hfeeds; reflexivity).
        erewrite bind_Ret by reflexivity. apply Hloop. }
    erewrite bind_Ret by reflexivity.
    erewrite bind_Ret.
    2:{ rewrite call_eq. cbn [trace with_trace]. rewrite Ht3, Hclose. reflexivity. }
    erewrite bind_Ret by (unfold lift; rewrite Hloads; reflexivity).
    unfold lift. rewrite Hframe. split; [done|].
    cbn [snd trace with_trace]. rewrite ?Ht3. by rewrite <- !app_assoc.
  - change (feed_affixes "mf") with (",", "") in Hloads. cbn [fst snd] in Hloads.
    destruct (decide ("mf" = "md")) as [?|_]; [done|].
    destruct (decide ("mf" = "mf")) as [_|?]; [|done].
    erewrite bind_Ret by reflexivity.
    erewrite bind_Ret.
    2:{ erewrite bind_Ret by (unfold lift; rewrite Hfeeds; reflexivity).
        erewrite bind_Ret by reflexivity. apply Hloop. }
    erewrite bind_Ret.
    2:{ rewrite call_eq. cbn [trace with_trace]. rewrite Ht3, Hclose. reflexivity. }
    erewrite bind_Ret by (unfold lift; rewrite Hloads; reflexivity).
    unfold lift. rewrite Hframe. split; [done|].
    cbn [snd trace with_trace]. rewrite ?Ht3. by rewrite <- !app_assoc.
Qed.

(** X15.  For feed type "md" or "mf", when a read raises after some
    messages arrived, [get_market_data] raises that exception and the
    connection it opened is not closed: the trace ends with the failed read. *)
Theorem get_market_data_read_failure_leaves_connection_open
    stocklist feed_type w a w1 mf_list h r1 feeds msgs e :
  feed_type = "md" ∨ feed_type = "mf" →
  scrip_master_get_scrip stocklist w = (Ret a, w1) →
  answer X (trace w) (Request_Feed feed_type a) = Ret mf_list →
  answer X (trace w ++ [Request_Feed feed_type a]) (WsConnect (web_url1 (client w)))
    = Ret h →
  answer X (trace w ++ [Request_Feed feed_type a; WsConnect (web_url1 (client w))])
    (WsSend (json_dumps X mf_list)) = Ret r1 →
  getitem mf_list "MarketFeedData" = Ret (JList feeds) →
  length msgs < length feeds →
  (∀ i m, msgs !! i = Some m →
     answer X ((trace w ++ subscription X (client w) feed_type a mf_list)
               ++ replicate i WsRecv) WsRecv = Ret (JStr m)) →
  answer X ((trace w ++ subscription X (client w) feed_type a mf_list)
            ++ replicate (length msgs) WsRecv) WsRecv = Raise e →
  (get_market_data X stocklist feed_type w).1 = Raise e ∧
  trace (get_market_data X stocklist feed_type w).2
    = (trace w ++ subscription X (client w) feed_type a mf_list)
      ++ replicate (S (length msgs)) WsRecv ∧
  WsClose ∉ subscription X (client w) feed_type a mf_list
            ++ replicate (S (length msgs)) WsRecv.
Proof.
  intros Hft Hscrip Hreq Hconn Hsend Hfeeds Hlen Hmsgs Hfail.
  rewrite (get_market_data_subscribed _ _ _ _ _ _ _ _ Hscrip Hreq Hconn Hsend).
  set (w3 := with_client _ _).
  assert (trace w3 = trace w ++ subscription X (client w) feed_type a mf_list) as Ht3
    by done.
  assert (∀ pre post d1,
            recv_loop X (length feeds) pre post d1 w3
            = (Raise e, with_trace (trace w3 ++ replicate (S (length msgs)) WsRecv) w3))
    as Hloop.
  { intros pre post d1. apply recv_loop_fail; [|by rewrite Ht3|done].
    intros i m Hi. rewrite Ht3. by apply Hmsgs. }
  assert (WsClose ∉ subscription X (client w) feed_type a mf_list
                    ++ replicate (S (length msgs)) WsRecv) as Hnoclose.
  { intros [Hin|Hin]%elem_of_app.
    - unfold subscription, Request_Feed in Hin.
      repeat (apply elem_of_cons in Hin as [Hin|Hin]; [discriminate|]).
      by apply elem_of_nil in Hin.
    - apply elem_of_replicate in Hin as [? _]. discriminate. }
  destruct Hft as [->| ->].
  - destruct (decide ("md" = "md")) as [_|?]; [|done].
    erewrite bind_Raise.
    2:{ erewrite bind_Ret by (unfold lift; rewrite Hfeeds; reflexivity).
        erewrite bind_Ret by reflexivity. apply Hloop. }
    split; [done|]. split; [|done]. cbn [snd trace with_trace]. by rewrite ?Ht3.
  - destruct (decide ("mf" = "md")) as [?|_]; [done|].
    destruct (decide ("mf" = "mf")) as [_|?]; [|done].
    erewrite bind_Ret by reflexivity.
    erewrite bind_Raise.
    2:{ erewrite bind_Ret by (unfold lift; rewrite Hfeeds; reflexivity).
        erewrite bind_Ret by reflexivity. apply Hloop. }
    split; [done|]. split; [|done]. cbn [snd trace with_trace]. by rewrite ?Ht3.
Qed.

(** *** Market depth and market feed *)

Lemma length_records cols (a : ScripFrame) : length (records cols a) = length a.
Proof. unfold records. by rewrite length_fmap. Qed.

(** X16.  [get_market_depth] asks the broker once, with one record per
    resolved row, and reads the clock once.  When the broker's Data has as
    many entries as rows were resolved, or has no entry at all (the frame
    without rows then takes its rows from the symbols), it returns a table
    with one row per resolved row.  When Data has entries but not as many as
    rows were resolved, the assignment of the Symbol column raises a
    ValueError. *)
Theorem get_market_depth_one_entry_per_row stocklist w a w1 resp d now :
  scrip_master_get_scrip stocklist w = (Ret a, w1) →
  answer X (trace w) (fetch_market_depth_by_symbol a) = Ret resp →
  getitem resp "Data" = Ret (JList d) →
  answer X (trace w ++ [fetch_market_depth_by_symbol a]) Clock = Ret now →
  trace (get_market_depth X stocklist w).2
    = trace w ++ [fetch_market_depth_by_symbol a; Clock] ∧
  (length d = length a →
   ∃ t, (get_market_depth X stocklist w).1 = Ret t ∧ length t = length a) ∧
  (d = [] →
   ∃ t, (get_market_depth X stocklist w).1 = Ret t ∧ length t = length a ∧
        ∀ i p, a !! i = Some p →
               ∃ r, t !! i = Some r ∧ getitem r "Symbol" = Ret (JStr (Symbol p.2))) ∧
  (d ≠ [] → length d ≠ length a →
   ∃ msg, (get_market_depth X stocklist w).1 = Raise (ValueError msg)).
Proof.
  intros Hscrip Hresp Hdata Hnow.
  destruct (scrip_master_get_scrip_frame stocklist w) as (_ & _ & Ht).
  rewrite Hscrip in Ht. cbn in Ht.
  unfold get_market_depth.
  erewrite bind_Ret by exact Hscrip.
  erewrite bind_Ret.
  2:{ rewrite call_eq, Ht. unfold fetch_market_depth_by_symbol in Hresp.
      rewrite Hresp. reflexivity. }
  erewrite bind_Ret by (unfold lift; rewrite Hdata; reflexivity).
  erewrite bind_Ret by reflexivity.
  erewrite bind_Ret.
  2:{ rewrite call_eq. cbn [trace with_trace]. rewrite ?Ht.
      unfold fetch_market_depth_by_symbol in Hnow. rewrite Hnow. reflexivity. }
  unfold lift, assign_column. rewrite length_fmap.
  unfold add_column. rewrite length_fmap.
  split; [|split; [|split]].
  - cbn. rewrite ?Ht. by rewrite <- app_assoc.
  - intros Hlen. destruct (decide (length a = length d)) as [_|?]; [|congruence].
    eexists. split; [reflexivity|].
    rewrite length_zip_with, !length_fmap. lia.
  - intros ->. cbn [fmap list_fmap length].
    destruct (decide (length a = 0)) as [Hz|Hnz].
    + destruct a; [|done]. exists []. split; [done|]. split; [done|].
      intros i p Hi. by destruct i.
    + eexists. split; [reflexivity|]. rewrite <- list_fmap_compose.
      split; [by rewrite length_fmap|].
      intros i p Hi. exists (JDict [("Symbol", JStr (Symbol p.2))]).
      split; [|reflexivity].
      apply list_lookup_fmap_Some. by exists p.
  - intros Hne Hlen. destruct (decide (length a = length d)) as [?|_]; [congruence|].
    destruct d as [|x d]; [done|]. by eexists.
Qed.

(** X17.  [get_market_feed] asks the broker once and reads the clock once,
    and returns one row per entry of the broker's Data, however many rows
    were resolved: unlike [get_market_depth] it does not compare the two. *)
Theorem get_market_feed_one_row_per_entry stocklist w a w1 resp d now :
  scrip_master_get_scrip stocklist w = (Ret a, w1) →
  answer X (trace w) (fetch_market_feed a) = Ret resp →
  getitem resp "Data" = Ret (JList d) →
  answer X (trace w ++ [fetch_market_feed a]) Clock = Ret now →
  trace (get_market_feed X stocklist w).2 = trace w ++ [fetch_market_feed a; Clock] ∧
  ∃ t, (get_market_feed X stocklist w).1 = Ret t ∧ length t = length d.
Proof.
  intros Hscrip Hresp Hdata Hnow.
  destruct (scrip_master_get_scrip_frame stocklist w) as (_ & _ & Ht).
  rewrite Hscrip in Ht. cbn in Ht.
  unfold get_market_feed.
  erewrite bind_Ret by exact Hscrip.
  erewrite bind_Ret.
  2:{ rewrite call_eq, Ht. unfold fetch_market_feed in Hresp.
      rewrite Hresp. reflexivity. }
  erewrite bind_Ret by (unfold lift; rewrite Hdata; reflexivity).
  erewrite bind_Ret by reflexivity.
  erewrite bind_Ret.
  2:{ rewrite call_eq. cbn [trace with_trace]. rewrite ?Ht.
      unfold fetch_market_feed in Hnow. rewrite Hnow. reflexivity. }
  split.
  - cbn. rewrite ?Ht. by rewrite <- app_assoc.
  - eexists. split; [reflexivity|]. unfold add_column. by rewrite length_fmap.
Qed.

(** *** [download_historical_data] with an invalid interval *)

(** X18.  In the loop of [download_historical_data], an interval that is not
    one of the allowed granularities stops nothing: for the stock at hand
    the symbol is printed, no request is issued, and the sentence that
    [historical_data] returns in place of a table is what is handed to
    [Stock.save_historical_data]; then the loop goes on with the next
    stock. *)
Theorem download_loop_saves_the_sentinel scrip l rest interval start end_ w s code :
  stocks w !! l = Some s →
  loc_Scripcode scrip (symbol s) = Ret code →
  interval ∉ timeList →
  download_loop X scrip (l :: rest) interval start end_ w
    = (save_historical_data X l
         (inl "Invalid Time Frame. it should be within [1m,5m,10m,15m,30m,60m,1d].")
         interval >>
       download_loop X scrip rest interval start end_)
        (with_client (with_auth_headers (client w))
           (with_trace (trace w ++ [Stdout (symbol s)]) w)).
Proof.
  intros Hs Hcode Hbad. cbn [download_loop].
  erewrite bind_Ret by (unfold stock_attr; rewrite Hs; reflexivity).
  erewrite bind_Ret by reflexivity.
  erewrite bind_Ret by (unfold stock_attr; cbn; rewrite Hs; reflexivity).
  erewrite bind_Ret by (unfold stock_attr; cbn; rewrite Hs; reflexivity).
  erewrite bind_Ret by (unfold stock_attr; cbn; rewrite Hs; reflexivity).
  erewrite bind_Ret by (unfold lift; rewrite Hcode; reflexivity).
  erewrite bind_Ret.
  2:{ rewrite historical_data_unfold. cbn zeta.
      destruct (decide (interval ∉ timeList)); [reflexivity|done]. }
  reflexivity.
Qed.

End Client5paisaMore.

Lemma client_calls_abort_before_any_request_witness :
  (download_historical_data sample_externals ([0] ++ 1 :: []) "1d"
     (inl "2023-01-01") (inl "2023-03-30") known_then_unknown).1
    = Raise (ValueError "No Scrip found for BBB in scrip_master") ∧
  trace (download_historical_data sample_externals ([0] ++ 1 :: []) "1d"
           (inl "2023-01-01") (inl "2023-03-30") known_then_unknown).2 = [].
Proof.
  assert (Forall (resolvable {| data := nse_rows |} (stocks known_then_unknown)) [0])
    as Hpre.
  { constructor; [|constructor].
    exists (new_stock "RELIANCE" "N" "C"). split; [reflexivity|].
    right. vm_compute. discriminate. }
  assert (unresolvable {| data := nse_rows |} (stocks known_then_unknown) 1
            (new_stock "BBB" "N" "C")) as Hl.
  { repeat split; reflexivity. }
  exact (proj1 (client_calls_abort_before_any_request sample_externals
                  0 {| data := nse_rows |} [0] 1 [] (new_stock "BBB" "N" "C")
                  "1d" (inl "2023-01-01") (inl "2023-03-30") "md" known_then_unknown
                  eq_refl eq_refl Hpre Hl)).
Defined.

Lemma client_calls_on_empty_list_witness :
  scrip_master (client reliance_world) = Some 0 ∧
  get_market_depth sample_externals [] reliance_world
    = (Raise (ValueError "No objects to concatenate"), reliance_world).
Proof.
  split; [reflexivity|].
  exact (proj1 (proj2 (client_calls_on_empty_list sample_externals 0 "1d"
                         (inl "2023-01-01") (inl "2023-03-30") "md" reliance_world
                         eq_refl))).
Defined.

Lemma historical_data_requests_once_witness :
  "1d" ∈ timeList ∧
  trace (historical_data sample_externals "N" "C" (JStr "2885") "1d" "2023-01-01"
           "2023-03-30" reliance_world).2
    = [HttpGet "https://host/historical/N/C/2885/1d?from=2023-01-01&end=2023-03-30"
         {[ "x-clientcode" := "C0001"; "x-auth-token" := "token" ]}].
Proof.
  assert ("1d" ∈ timeList) as Hin by (unfold timeList; repeat constructor).
  split; [exact Hin|].
  rewrite (proj2 (proj2 (proj2 (historical_data_requests_once sample_externals
             "N" "C" (JStr "2885") "1d" "2023-01-01" "2023-03-30" reliance_world))) Hin).
  reflexivity.
Defined.

Lemma ScripMaster_init_outcome_witness :
  (∃ msg, (ScripMaster_init breaking_externals None reliance_world).1
            = Raise (ValueError msg)) ∧
  masters (ScripMaster_init breaking_externals None reliance_world).2
    = masters reliance_world.
Proof.
  destruct (ScripMaster_init_outcome breaking_externals None reliance_world)
    as (_ & _ & _ & Hkeep & _ & Hrows).
  destruct (Hrows _ eq_refl) as (_ & Hvalue & _).
  destruct Hvalue as [msg Hmsg].
  { apply Exists_cons_hd. by exists "tomorrow". }
  split; [by exists msg|]. apply Hkeep. rewrite Hmsg. by eexists.
Defined.

Lemma get_option_chain_failure_witness :
  (∃ msg, get_option_chain sample_externals 0 (inl "next week") true nifty_with_chain
            = (Raise (ValueError msg), nifty_with_chain)) ∧
  ((get_option_chain empty_externals 0 (inl "2023-03-30") false nifty_without_chain).1
     = Raise (KeyError "ExpiryDate") ∧
   trace (get_option_chain empty_externals 0 (inl "2023-03-30") false
            nifty_without_chain).2 = [] ++ [get_expiry "NIFTY"]) ∧
  (∃ msg, (get_option_chain sample_externals 0 (inr 1%Z) false nifty_without_chain).1
            = Raise (IndexError msg) ∧
          trace (get_option_chain sample_externals 0 (inr 1%Z) false
                   nifty_without_chain).2 = [] ++ [get_expiry "NIFTY"]).
Proof.
  assert (∀ s, stocks nifty_without_chain !! 0 = Some s → option_chain s = None) as Hnone.
  { intros s Hs. cbn in Hs. rewrite lookup_singleton_eq in Hs. by injection Hs as <-. }
  split; [|split].
  - exact (proj1 (proj2 (get_option_chain_failure sample_externals 0 (inl "next week")
                           true nifty_with_chain)) (or_introl eq_refl) eq_refl).
  - exact (proj1 (proj2 (proj2 (get_option_chain_failure empty_externals 0
                                   (inl "2023-03-30") false nifty_without_chain)))
             19446%Z _ _ [] (or_intror Hnone) eq_refl eq_refl eq_refl eq_refl eq_refl).
  - refine (proj2 (proj2 (proj2 (get_option_chain_failure sample_externals 0 (inr 1%Z)
                                   false nifty_without_chain)))
              1%Z _ _ _ _ (or_intror Hnone) eq_refl eq_refl eq_refl eq_refl eq_refl _ _).
    + discriminate.
    + repeat constructor; cbn; discriminate.
Defined.

Lemma expiry_row_reads_timestamp_witness :
  expiry_row sample_externals (JDict [("ExpiryDate", JStr "/Date(1680172200000+0530)/")])
    = Ret {| ExpiryDate := "/Date(1680172200000+0530)/";
             Timestamp := 1680172200000%Z;
             Date := 19446%Z |}.
Proof.
  exact (expiry_row_reads_timestamp sample_externals
           (JDict [("ExpiryDate", JStr "/Date(1680172200000+0530)/")])
           "/Date" "1680172200000" "0530)/" 1680172200000%Z
           eq_refl eq_refl eq_refl eq_refl eq_refl).
Defined.

Lemma get_market_data_reads_one_message_each_witness :
  (get_market_data feeding_externals [0; 1] "mf" reliance_tcs_world).1
    = Ret [JStr "[a,a]"] ∧
  trace (get_market_data feeding_externals [0; 1] "mf" reliance_tcs_world).2
    = ([] ++ subscription feeding_externals (client reliance_tcs_world) "mf"
               [("RELIANCE", equity "RELIANCE" 2885 "EQ");
                ("TCS", equity "TCS" 11536 "EQ")]
               (JDict [("Method", JNull); ("Operation", JStr "Subscribe");
                       ("MarketFeedData",
                        JList [JDict [("Exch", JStr "N"); ("ExchType", JStr "C");
                                      ("ScripCode", JNum 2885)];
                               JDict [("Exch", JStr "N"); ("ExchType", JStr "C");
                                      ("ScripCode", JNum 11536)]])]))
      ++ replicate 2 WsRecv ++ [WsClose].
Proof.
  refine (get_market_data_reads_one_message_each feeding_externals [0; 1] "mf"
            reliance_tcs_world _ _ _ _ _ _ ["[a]"; "[a]"] _ _ _
            (or_intror eq_refl) eq_refl eq_refl eq_refl eq_refl eq_refl eq_refl _
            eq_refl eq_refl eq_refl).
  intros [|[|i]] m [= <-]; reflexivity.
Defined.

Lemma get_market_data_read_failure_leaves_connection_open_witness :
  (get_market_data breaking_externals [0; 1] "md" reliance_tcs_world).1
    = Raise (LibraryError "connection lost") ∧
  trace (get_market_data breaking_externals [0; 1] "md" reliance_tcs_world).2
    = ([] ++ subscription breaking_externals (client reliance_tcs_world) "md"
               [("RELIANCE", equity "RELIANCE" 2885 "EQ");
                ("TCS", equity "TCS" 11536 "EQ")]
               (JDict [("Method", JNull); ("Operation", JStr "Subscribe");
                       ("MarketFeedData",
                        JList [JDict [("Exch", JStr "N"); ("ExchType", JStr "C");
                                      ("ScripCode", JNum 2885)];
                               JDict [("Exch", JStr "N"); ("ExchType", JStr "C");
                                      ("ScripCode", JNum 11536)]])]))
      ++ replicate 2 WsRecv.
Proof.
  destruct (get_market_data_read_failure_leaves_connection_open breaking_externals
              [0; 1] "md" reliance_tcs_world _ _ _ _ _ _ ["[{}]"]
              (LibraryError "connection lost")
              (or_introl eq_refl) eq_refl eq_refl eq_refl eq_refl eq_refl)
    as (Hres & Htrace & _).
  - vm_compute. lia.
  - intros [|i] m [= <-]. reflexivity.
  - reflexivity.
  - split; [exact Hres|exact Htrace].
Defined.

Lemma get_market_depth_one_entry_per_row_witness :
  (∃ t, (get_market_depth feeding_externals [0] reliance_tcs_world).1 = Ret t ∧
        length t = 1) ∧
  (∃ msg, (get_market_depth feeding_externals [0; 1] reliance_tcs_world).1
            = Raise (ValueError msg)) ∧
  (∃ t r, (get_market_depth empty_externals [0; 1] reliance_tcs_world).1 = Ret t ∧
          length t = 2 ∧ t !! 1 = Some r ∧ getitem r "Symbol" = Ret (JStr "TCS")).
Proof.
  split; [|split].
  - destruct (get_market_depth_one_entry_per_row feeding_externals [0] reliance_tcs_world
                _ _ _ [JDict []] JNull eq_refl eq_refl eq_refl eq_refl)
      as (_ & Hok & _).
    exact (Hok eq_refl).
  - destruct (get_market_depth_one_entry_per_row feeding_externals [0; 1]
                reliance_tcs_world _ _ _ [JDict []] JNull eq_refl eq_refl eq_refl eq_refl)
      as (_ & _ & _ & Hbad).
    apply Hbad; discriminate.
  - destruct (get_market_depth_one_entry_per_row empty_externals [0; 1]
                reliance_tcs_world _ _ _ [] JNull eq_refl eq_refl eq_refl eq_refl)
      as (_ & _ & Hempty & _).
    destruct (Hempty eq_refl) as (t & Ht & Hlen & Hrows).
    destruct (Hrows 1 ("TCS", equity "TCS" 11536 "EQ") eq_refl) as (r & Hr & Hsym).
    exists t, r. split; [exact Ht|]. split; [exact Hlen|]. split; [exact Hr|exact Hsym].
Defined.

Lemma get_market_feed_one_row_per_entry_witness :
  ∃ t, (get_market_feed feeding_externals [0; 1] reliance_tcs_world).1 = Ret t ∧
       length t = 1.
Proof.
  destruct (get_market_feed_one_row_per_entry feeding_externals [0; 1] reliance_tcs_world
              _ _ _ [JDict []] JNull eq_refl eq_refl eq_refl eq_refl) as (_ & Hres).
  exact Hres.
Defined.

Lemma download_loop_saves_the_sentinel_witness :
  ("2h" ∉ timeList) ∧
  (download_loop sample_externals [("RELIANCE", equity "RELIANCE" 2885 "EQ")] [0] "2h"
     "2023-01-01" "2023-03-30" reliance_world).1 = Ret tt ∧
  trace (download_loop sample_externals [("RELIANCE", equity "RELIANCE" 2885 "EQ")] [0]
           "2h" "2023-01-01" "2023-03-30" reliance_world).2 = [Stdout "RELIANCE"].
Proof.
  assert ("2h" ∉ timeList) as Hbad.
  { intros Hin. unfold timeList in Hin.
    repeat (apply elem_of_cons in Hin as [Hin|Hin]; [discriminate|]).
    by apply elem_of_nil in Hin. }
  split; [exact Hbad|].
  pose proof (download_loop_saves_the_sentinel sample_externals
                [("RELIANCE", equity "RELIANCE" 2885 "EQ")] 0 [] "2h"
                "2023-01-01" "2023-03-30" reliance_world
                (new_stock "RELIANCE" "N" "C") (JNum 2885) eq_refl eq_refl Hbad) as Hrun.
  split.
  - exact (eq_trans (f_equal fst Hrun) eq_refl).
  - exact (eq_trans (f_equal (λ r, trace r.2) Hrun) eq_refl).
Defined.

(** ** [get_market_data] with another feed type *)

Section OtherFeedType.

Context (X : Externals).

(** C10 (as amended).  For every non-empty stock list whose stocks can all
    be resolved by the client's ScripMaster (each carries a scrip or has a
    matching row), calling [get_market_data] with a feed type that is
    neither "md" nor "mf", the outside calls being answered, still sends the
    subscription request built for the resolved rows, reads no message from
    the stream, closes the connection and returns the empty table parsed
    from "[]". *)
Theorem get_market_data_other_feed_type self m stocklist feed_type w mf_list h r1 r2 :
  feed_type ≠ "md" → feed_type ≠ "mf" →
  scrip_master (client w) = Some self →
  masters w !! self = Some m →
  stocklist ≠ [] →
  Forall (resolvable m (stocks w)) stocklist →
  answer X (trace w)
    (Request_Feed feed_type (concat (entry m (stocks w) <$> stocklist))) = Ret mf_list →
  answer X (trace w ++ [Request_Feed feed_type (concat (entry m (stocks w) <$> stocklist))])
    (WsConnect (web_url1 (client w))) = Ret h →
  answer X (trace w ++ [Request_Feed feed_type (concat (entry m (stocks w) <$> stocklist));
                        WsConnect (web_url1 (client w))])
    (WsSend (json_dumps X mf_list)) = Ret r1 →
  answer X (trace w ++ [Request_Feed feed_type (concat (entry m (stocks w) <$> stocklist));
                        WsConnect (web_url1 (client w));
                        WsSend (json_dumps X mf_list)]) WsClose = Ret r2 →
  json_loads X "[]" = Ret (JList []) →
  (get_market_data X stocklist feed_type w).1 = Ret [] ∧
  trace (get_market_data X stocklist feed_type w).2
    = trace w ++ [Request_Feed feed_type (concat (entry m (stocks w) <$> stocklist));
                  WsConnect (web_url1 (client w));
                  WsSend (json_dumps X mf_list); WsClose] ∧
  WsRecv ∉ [Request_Feed feed_type (concat (entry m (stocks w) <$> stocklist));
            WsConnect (web_url1 (client w));
            WsSend (json_dumps X mf_list); WsClose].
Proof.
  intros Hmd Hmf Hsm Hm Hne Hall Hreq Hconn Hsend Hclose Hloads.
  destruct (loop_result self m stocklist [] w Hm Hall) as (w1 & Hrun & _).
  assert (scrip_master_get_scrip stocklist w
          = (Ret (concat (entry m (stocks w) <$> stocklist)), w1)) as Hscrip.
  { unfold scrip_master_get_scrip, bind, get_client. rewrite Hsm.
    rewrite get_scrip_unfold, Hrun. cbn [app]. unfold pd_concat.
    by destruct stocklist. }
  destruct (get_market_data_skips_reads X stocklist feed_type w _ w1 mf_list h r1 r2
              Hmd Hmf Hscrip Hreq Hconn Hsend Hclose Hloads) as (_ & Hres & Htrace & Hnorecv).
  done.
Qed.

End OtherFeedType.

Lemma get_market_data_other_feed_type_witness :
  "oi" ≠ "md" ∧ "oi" ≠ "mf" ∧
  [0; 1] ≠ [] ∧
  Forall (resolvable {| data := nse_rows |} (stocks reliance_tcs_world)) [0; 1] ∧
  (get_market_data sample_externals [0; 1] "oi" reliance_tcs_world).1 = Ret [] ∧
  trace (get_market_data sample_externals [0; 1] "oi" reliance_tcs_world).2
    = [] ++ [Request_Feed "oi" [("RELIANCE", equity "RELIANCE" 2885 "EQ");
                                ("TCS", equity "TCS" 11536 "EQ")];
             WsConnect "wss://openfeed.5paisa.com/Feeds/api/chat?Value1=token|C0001";
             WsSend "{}"; WsClose].
Proof.
  assert (Forall (resolvable {| data := nse_rows |} (stocks reliance_tcs_world)) [0; 1])
    as Hall.
  { repeat constructor.
    - exists (new_stock "RELIANCE" "N" "C"). split; [reflexivity|]. right. vm_compute.
      discriminate.
    - exists (new_stock "TCS" "N" "C"). split; [reflexivity|]. right. vm_compute.
      discriminate. }
  split; [discriminate|]. split; [discriminate|]. split; [discriminate|].
  split; [exact Hall|].
  destruct (get_market_data_other_feed_type sample_externals 0 {| data := nse_rows |}
              [0; 1] "oi" reliance_tcs_world _ _ _ _
              ltac:(discriminate) ltac:(discriminate) eq_refl eq_refl
              ltac:(discriminate) Hall
              eq_refl eq_refl eq_refl eq_refl eq_refl)
    as (Hret & Htrace & _).
  split; [exact Hret|exact Htrace].
Defined.

(** C10 (as stated) fails: the list of a known and an unknown stock is not
    empty and the feed type "oi" is neither "md" nor "mf", but the call
    raises the ValueError of [get_scrip]; no subscription is sent (the trace
    stays empty) and no table is returned, although every outside call would
    have been answered. *)
Lemma get_market_data_unresolved_sends_nothing :
  [0; 1] ≠ [] ∧ "oi" ≠ "md" ∧ "oi" ≠ "mf" ∧
  (get_market_data sample_externals [0; 1] "oi" known_then_unknown).1
    = Raise (ValueError "No Scrip found for BBB in scrip_master") ∧
  trace (get_market_data sample_externals [0; 1] "oi" known_then_unknown).2 = [] ∧
  (get_market_data sample_externals [0; 1] "oi" known_then_unknown).1 ≠ Ret [].
Proof.
  split; [discriminate|]. split; [discriminate|]. split; [discriminate|].
  split; [reflexivity|]. split; [reflexivity|]. vm_compute. discriminate.
Qed.
